(** * Shadow models for membership inference: a shallow embedding

    Embedding of [art/attacks/inference/membership_inference/shadow_models.py]
    (class [ShadowModels]) and the properties of its dataset assembly and of
    its hill-climbing record synthesis.

    Modelling conventions.
    - numpy arrays are lists indexed along their first axis; a record is a
      one-dimensional feature vector.
    - A finite Python float is given by its value, a rational ([Q]). Scores
      and uniform draws are only compared. The two float operations of the
      code, [member_ratio * shadow_dataset_size] and
      [k_features_randomized / 2], round to the nearest double (ties to
      even) as IEEE 754 binary64 does. NaN and the infinities are not
      values of the model, and neither are the exceptions [int(_)] and [/]
      raise on results beyond the double range.
    - Python exceptions are values of [exn]; a computation is a function from
      the mutable state to an outcome and the state it leaves behind, so that
      what was mutated before an exception stays visible.
    - The random generators and whatever else the callbacks touch form an
      abstract [world]; every draw is an operation on it. *)

From Stdlib Require Import ZArith QArith Qround Lia SpecFloat.
From stdpp Require Import base option list.

Local Open Scope Z_scope.

(** ** Exceptions and the state-and-exception monad *)

Inductive exn : Type :=
  | ValueError
  | RuntimeError
  | ZeroDivisionError
  | TypeError
  | IndexError
  | UnboundLocalError
  | AttributeError.

Definition M (S A : Type) : Type := S -> (exn + A) * S.

Definition ret {S A : Type} (a : A) : M S A := fun s => (inr a, s).

Definition raise {S A : Type} (e : exn) : M S A := fun s => (inl e, s).

Definition bind {S A B : Type} (m : M S A) (f : A -> M S B) : M S B :=
  fun s =>
    match m s with
    | (inl e, s') => (inl e, s')
    | (inr a, s') => f a s'
    end.

Definition lift_result {S A : Type} (r : exn + A) : M S A := fun s => (r, s).

Notation "x <- c1 ;; c2" := (bind c1 (fun x => c2))
  (at level 100, c1 at next level, right associativity).

(** ** Python and numpy primitives *)

(** [int(q)]: truncation toward zero. *)
Definition py_int (q : Q) : Z := Z.quot (Qnum q) (Zpos (Qden q)).

(** Binary64 arithmetic, from the Standard Library's specification of IEEE
    754 (precision 53, infinities at exponent 1024). [float(z)] for an int. *)
Definition float_of_int (z : Z) : spec_float :=
  binary_normalize 53 1024 z 0 false.

(** The double nearest to a rational (the correctly rounded quotient of
    its numerator and denominator): the double itself when [q] is the
    value of one, and what the literal denotes when [q] is a decimal such
    as 29/100. *)
Definition float_of_Q (q : Q) : spec_float :=
  match Qnum q with
  | Z0 => S754_zero false
  | Zpos n =>
      SFdiv 53 1024 (S754_finite false n 0) (S754_finite false (Qden q) 0)
  | Zneg n =>
      SFdiv 53 1024 (S754_finite true n 0) (S754_finite false (Qden q) 0)
  end.

(** The value of a finite double (NaN and the infinities have none; they
    are read as 0). *)
Definition float_value (f : spec_float) : Q :=
  match f with
  | S754_finite s m e => (inject_Z (cond_Zopp s (Zpos m)) * Qpower 2 e)%Q
  | _ => 0%Q
  end.

(** [r * n] for a float [r] and an int [n]: the int is converted to a
    double and the product is rounded to the nearest double. *)
Definition float_mul_int (r : Q) (n : Z) : Q :=
  float_value (SFmul 53 1024 (float_of_Q r) (float_of_int n)).

(** [a / b] (0 < b) rounded to the nearest integer, ties to even. *)
Definition round_half_even (a b : Z) : Z :=
  let q := a / b in
  let r := a mod b in
  if 2 * r <? b then q
  else if b <? 2 * r then q + 1
  else if Z.even q then q else q + 1.

(** [k / 2] for an int [k] (true division): the double nearest to the
    quotient. Below 2^53 in magnitude the quotient is a double; from there
    on it is rounded to 53 significant bits, a multiple of
    2^(log2 |k| - 53). *)
Definition int_truediv_2 (k : Z) : Q :=
  if Z.abs k <? 2 ^ 53 then (inject_Z k / inject_Z 2)%Q
  else
    let ulp := 2 ^ (Z.log2 (Z.abs k) - 53) in
    inject_Z (Z.sgn k * (round_half_even (Z.abs k) (2 * ulp) * ulp)).

(** [math.ceil(k / 2)] for an int [k]. *)
Definition ceil_half (k : Z) : Z := Qceiling (int_truediv_2 k).

(** The position a slice bound [k] denotes in a sequence of length [n]:
    a negative bound counts from the end, and the result is clamped. *)
Definition slice_index (k : Z) (n : nat) : nat :=
  if k <? 0 then Z.to_nat (Z.max 0 (k + Z.of_nat n))
  else Nat.min (Z.to_nat k) n.

(** [l[:k]] and [l[k:]]. *)
Definition slice_upto {A : Type} (k : Z) (l : list A) : list A :=
  take (slice_index k (length l)) l.

Definition slice_from {A : Type} (k : Z) (l : list A) : list A :=
  drop (slice_index k (length l)) l.

(** [l[a:b]] for non-negative bounds. *)
Definition slice {A : Type} (a b : nat) (l : list A) : list A :=
  take (b - a) (drop a l).

(** [l[idx]] for an integer index array: one row per index, [IndexError]
    when an index is out of bounds. *)
Definition take_rows {A : Type} (l : list A) (idx : list nat) : exn + list A :=
  match mapM (fun i => l !! i) idx with
  | Some rows => inr rows
  | None => inl IndexError
  end.

(** [functools.reduce(f, l)] without initial value. *)
Definition reduce {A : Type} (f : A -> A -> A) (l : list A) : exn + A :=
  match l with
  | [] => inl TypeError
  | a :: l' => inr (fold_left f l' a)
  end.

(** [l[i] = v] on a Python list. *)
Definition setitem {A : Type} (i : nat) (v : A) (l : list A) : exn + list A :=
  if decide (i < length l)%nat then inr (<[i := v]> l) else inl IndexError.

(** ** The shadow model pool *)

Section Pool.

(** Samples, labels, prediction rows, classifiers. *)
Context {X Y P model world : Type}.

(** The classifier capability the pool relies on. *)
Variable clone_for_refitting : model -> model.
Variable input_shape : model -> nat.
Variable fit : model -> list X -> list Y -> model.
Variable predict : model -> list X -> list P.

(** [.astype(np.float32)] on one sample and on one label. *)
Variable x_astype_float32 : X -> X.
Variable y_astype_float32 : Y -> Y.

(** [np.random.permutation(n)], a draw from the ambient generator. *)
Variable np_random_permutation : nat -> world -> list nat * world.

Record ShadowModels : Type := {
  _shadow_models : list model;
  _shadow_models_train_sets : list (option (list X * list Y));
  _input_shape : nat;
}.

Definition triple : Type := (list X * list Y * list P)%type.

Definition samples (t : triple) : list X := t.1.1.
Definition true_label (t : triple) : list Y := t.1.2.
Definition prediction (t : triple) : list P := t.2.

(** [__init__] *)
Definition init (shadow_model_template : model) (num_shadow_models : Z)
  : ShadowModels :=
  {| _shadow_models :=
       (fun _ => clone_for_refitting shadow_model_template)
         <$> seq 0 (Z.to_nat num_shadow_models);
     _shadow_models_train_sets := replicate (Z.to_nat num_shadow_models) None;
     _input_shape := input_shape shadow_model_template |}.

(** The six accumulators of [generate_shadow_dataset]. *)
Record accumulators : Type := {
  member_samples : list (list X);
  member_true_label : list (list Y);
  member_prediction : list (list P);
  nonmember_samples : list (list X);
  nonmember_true_label : list (list Y);
  nonmember_prediction : list (list P);
}.

Definition no_accumulated : accumulators :=
  {| member_samples := []; member_true_label := []; member_prediction := [];
     nonmember_samples := []; nonmember_true_label := [];
     nonmember_prediction := [] |}.

(** [self._shadow_models_train_sets[i] = v] *)
Definition store_train_set (i : nat) (v : list X * list Y)
  : M (ShadowModels * world) unit :=
  fun '(self, w) =>
    match setitem i (Some v) (_shadow_models_train_sets self) with
    | inl e => (inl e, (self, w))
    | inr sets =>
        (inr tt, ({| _shadow_models := _shadow_models self;
                     _shadow_models_train_sets := sets;
                     _input_shape := _input_shape self |}, w))
    end.

(** [shadow_model.fit(xs, ys)] on the [i]-th model of the pool: the object
    is trained in place. *)
Definition fit_in_place (i : nat) (shadow_model : model)
    (xs : list X) (ys : list Y) : M (ShadowModels * world) model :=
  fun '(self, w) =>
    let fitted := fit shadow_model xs ys in
    (inr fitted, ({| _shadow_models := <[i := fitted]> (_shadow_models self);
                     _shadow_models_train_sets :=
                       _shadow_models_train_sets self;
                     _input_shape := _input_shape self |}, w)).

(** One iteration of the loop over [enumerate(self._shadow_models)]. *)
Definition train_one (x : list X) (y : list Y) (member_ratio : Q)
    (shadow_dataset_size : nat) (i : nat) (shadow_model : model)
    (acc : accumulators) : M (ShadowModels * world) accumulators :=
  let shadow_x :=
    slice (shadow_dataset_size * i) (shadow_dataset_size * (i + 1)) x in
  let shadow_y :=
    slice (shadow_dataset_size * i) (shadow_dataset_size * (i + 1)) y in
  let cut :=
    py_int (float_mul_int member_ratio (Z.of_nat shadow_dataset_size)) in
  let shadow_x_train := slice_upto cut shadow_x in
  let shadow_y_train := slice_upto cut shadow_y in
  let shadow_x_test := slice_from cut shadow_x in
  let shadow_y_test := slice_from cut shadow_y in
  _ <- store_train_set i (shadow_x_train, shadow_y_train) ;;
  fitted <- fit_in_place i shadow_model shadow_x_train shadow_y_train ;;
  ret {| member_samples := member_samples acc ++ [shadow_x_train];
         member_true_label := member_true_label acc ++ [shadow_y_train];
         member_prediction :=
           member_prediction acc ++ [predict fitted shadow_x_train];
         nonmember_samples := nonmember_samples acc ++ [shadow_x_test];
         nonmember_true_label := nonmember_true_label acc ++ [shadow_y_test];
         nonmember_prediction :=
           nonmember_prediction acc ++ [predict fitted shadow_x_test] |}.

Fixpoint train_all (x : list X) (y : list Y) (member_ratio : Q)
    (shadow_dataset_size : nat) (todo : list (nat * model))
    (acc : accumulators) : M (ShadowModels * world) accumulators :=
  match todo with
  | [] => ret acc
  | (i, shadow_model) :: todo' =>
      acc' <- train_one x y member_ratio shadow_dataset_size i shadow_model acc ;;
      train_all x y member_ratio shadow_dataset_size todo' acc'
  end.

Definition concat {A : Type} (first second : list A) : list A :=
  first ++ second.

Definition enumerate {A : Type} (l : list A) : list (nat * A) :=
  zip (seq 0 (length l)) l.

Definition generate_shadow_dataset (x : list X) (y : list Y) (member_ratio : Q)
  : M (ShadowModels * world) (triple * triple) :=
  fun '(self, w) =>
    if negb (length x =? length y)%nat then (inl ValueError, (self, w))
    else
      (* Shuffle data set *)
      let '(random_indices, w) := np_random_permutation (length x) w in
      match take_rows x random_indices, take_rows y random_indices with
      | inl e, _ | _, inl e => (inl e, (self, w))
      | inr x, inr y =>
        let x := x_astype_float32 <$> x in
        let y := y_astype_float32 <$> y in
        if (length (_shadow_models self) =? 0)%nat
        then (inl ZeroDivisionError, (self, w))
        else
          let shadow_dataset_size :=
            (length x / length (_shadow_models self))%nat in
          (acc <- train_all x y member_ratio shadow_dataset_size
                    (enumerate (_shadow_models self)) no_accumulated ;;
           all_member_samples <- lift_result (reduce concat (member_samples acc)) ;;
           all_member_true_label <-
             lift_result (reduce concat (member_true_label acc)) ;;
           all_member_prediction <-
             lift_result (reduce concat (member_prediction acc)) ;;
           all_nonmember_samples <-
             lift_result (reduce concat (nonmember_samples acc)) ;;
           all_nonmember_true_label <-
             lift_result (reduce concat (nonmember_true_label acc)) ;;
           all_nonmember_prediction <-
             lift_result (reduce concat (nonmember_prediction acc)) ;;
           ret ((all_member_samples, all_member_true_label,
                 all_member_prediction),
                (all_nonmember_samples, all_nonmember_true_label,
                 all_nonmember_prediction))) (self, w)
    end.

(** Vocabulary of the statements: a pool has one training-set slot per
    model; the [i]-th block of a shuffled dataset; the length of the
    training prefix of a block. *)
Definition well_formed (self : ShadowModels) : Prop :=
  length (_shadow_models_train_sets self) = length (_shadow_models self).

Definition block {A : Type} (size i : nat) (l : list A) : list A :=
  slice (size * i) (size * (i + 1)) l.

Definition cut_of (member_ratio : Q) (size : nat) : Z :=
  py_int (float_mul_int member_ratio (Z.of_nat size)).

(** [get_shadow_models] and [get_shadow_models_train_sets] *)
Definition get_shadow_models (self : ShadowModels) : list model :=
  _shadow_models self.

Definition get_shadow_models_train_sets (self : ShadowModels)
  : list (option (list X * list Y)) :=
  _shadow_models_train_sets self.

End Pool.

(** ** The record synthesizer *)

(** A record is a feature vector; a classifier scores one record at a time
    ([predict(x.reshape(1, -1))[0]]). *)
Definition record : Type := list Q.

Record classifier : Type := {
  nb_classes : Z;
  predict_record : record -> list Q;
}.

(** Strict comparison of floats. *)
Definition Qlt_bool (a b : Q) : bool := negb (Qle_bool b a).

(** [np.argmax(y)]: the first position holding the maximum (0 on the empty
    vector, which the code never passes: [y[wanted_class]] has been read). *)
Fixpoint argmax_from (best_i : nat) (best : Q) (i : nat) (l : list Q) : nat :=
  match l with
  | [] => best_i
  | v :: l' =>
      if Qlt_bool best v then argmax_from i v (S i) l'
      else argmax_from best_i best (S i) l'
  end.

Definition np_argmax (y : list Q) : nat :=
  match y with
  | [] => 0%nat
  | v :: l => argmax_from 0 v 1 l
  end.

(** [y[i]] for a non-negative index. *)
Definition getitem {A : Type} (l : list A) (i : nat) : exn + A :=
  match l !! i with
  | Some v => inr v
  | None => inl IndexError
  end.

(** [a[i] = v] on a one-dimensional array, [i] possibly negative. *)
Definition ndarray_setitem (i : Z) (v : Q) (a : record) : exn + record :=
  if (0 <=? i) && (i <? Z.of_nat (length a)) then inr (<[Z.to_nat i := v]> a)
  else if (- Z.of_nat (length a) <=? i) && (i <? 0)
       then inr (<[Z.to_nat (Z.of_nat (length a) + i) := v]> a)
       else inl IndexError.

(** [try: body except RuntimeError: handler] *)
Definition try_except_RuntimeError {S A : Type} (body handler : M S A) : M S A :=
  fun s =>
    match body s with
    | (inl RuntimeError, s') => handler s'
    | other => other
    end.

(** One-hot label of a class: [np.zeros(nb_classes)] with a [1.0] written at
    [wanted_class]. *)
Definition one_hot (nb : Z) (wanted_class : nat) : list Q :=
  <[wanted_class := 1%Q]> (replicate (Z.to_nat nb) 0%Q).

Section Synthesis.

Context {world : Type}.

(** [self._rng.random()] and [self._rng.integers(low, high)]. *)
Variable rng_random : world -> Q * world.
Variable rng_integers : Z -> Z -> M world Z.

(** [self._input_shape], for a one-dimensional input shape [(d,)]. *)
Variable input_shape : nat.

Definition draw : M world Q :=
  fun w => let '(u, w') := rng_random w in (inr u, w').

(** [self._rng.random(self._input_shape)] *)
Fixpoint draw_vector (n : nat) : M world record :=
  match n with
  | O => ret []
  | S n' => v <- draw ;; vs <- draw_vector n' ;; ret (v :: vs)
  end.

Definition _default_random_record : M world record :=
  draw_vector input_shape.

Fixpoint randomize_loop (n : nat) (new_record : record) : M world record :=
  match n with
  | O => ret new_record
  | S n' =>
      v <- draw ;;
      i <- rng_integers 0 (Z.of_nat input_shape) ;;
      new_record <- lift_result (ndarray_setitem i v new_record) ;;
      randomize_loop n' new_record
  end.

Definition _default_randomize_features (record : option record)
    (num_features : Z) : M world (list Q) :=
  match record with
  | None => raise AttributeError
  | Some record => randomize_loop (Z.to_nat num_features) record
  end.

(** The state of one search: the candidate [x] and the four variables the
    loop updates. *)
Record search_state : Type := {
  x : record;
  best_x : option record;
  best_class_confidence : Q;
  num_rejections : Z;
  k_features_randomized : Z;
}.

(** What one pass through the loop body does: [return x], or go on with
    the next candidate. *)
Inductive step_outcome : Type :=
  | Return (r : record)
  | Continue (s : search_state).

Section Search.

Variable target_classifier : classifier.
Variable wanted_class : nat.
Variable min_confidence : Q.
Variable max_rejections : Z.
Variable min_features_randomized : Z.
Variable randomize_features_fn : option record -> Z -> M world record.

(** Line 220, with the values the branch taken has left in the four
    variables. *)
Definition next_candidate (best_x : option record)
    (best_class_confidence : Q) (num_rejections k_features_randomized : Z)
  : M world step_outcome :=
  x <- randomize_features_fn best_x k_features_randomized ;;
  ret (Continue {| x := x; best_x := best_x;
                   best_class_confidence := best_class_confidence;
                   num_rejections := num_rejections;
                   k_features_randomized := k_features_randomized |}).

(** The body of [for _ in range(max_iterations)]. *)
Definition hill_climbing_iteration (s : search_state) : M world step_outcome :=
  let y := predict_record target_classifier (x s) in
  class_confidence <- lift_result (getitem y wanted_class) ;;
  if Qle_bool (best_class_confidence s) class_confidence then
    (* Record accepted, sample randomly *)
    accepted <-
      (if Qlt_bool min_confidence class_confidence
          && (np_argmax y =? wanted_class)%nat
       then u <- draw ;; ret (Qlt_bool u class_confidence)
       else ret false) ;;
    if accepted : bool then ret (Return (x s))
    else next_candidate (Some (x s)) class_confidence 0
           (k_features_randomized s)
  else
    let num_rejections := num_rejections s + 1 in
    if max_rejections <? num_rejections then
      (* Rejected too many times *)
      let half_current_features := ceil_half (k_features_randomized s) in
      next_candidate (best_x s) (best_class_confidence s) 0
        (Z.max min_features_randomized half_current_features)
    else
      next_candidate (best_x s) (best_class_confidence s) num_rejections
        (k_features_randomized s).

Fixpoint hill_climbing_loop (iterations : nat) (s : search_state)
  : M world record :=
  match iterations with
  | O => raise RuntimeError
  | S iterations' =>
      o <- hill_climbing_iteration s ;;
      match o with
      | Return r => ret r
      | Continue s' => hill_climbing_loop iterations' s'
      end
  end.

(** [reaches n s w s' w']: [n] passes through the loop body lead from
    [s] to [s'], none of them returning or raising. *)
Inductive reaches
  : nat -> search_state -> world -> search_state -> world -> Prop :=
  | reaches_O (s : search_state) (w : world) : reaches 0 s w s w
  | reaches_S (n : nat) (s s1 s2 : search_state) (w w1 w2 : world) :
      hill_climbing_iteration s w = (inr (Continue s1), w1) ->
      reaches n s1 w1 s2 w2 ->
      reaches (S n) s w s2 w2.

End Search.

Definition initial_state (max_features_randomized : Z) (x : record)
  : search_state :=
  {| x := x; best_x := None; best_class_confidence := 0%Q;
     num_rejections := 0; k_features_randomized := max_features_randomized |}.

Definition _hill_climbing_synthesis (target_classifier : classifier)
    (wanted_class : nat) (min_confidence : Q) (max_features_randomized : Z)
    (max_iterations max_rejections min_features_randomized : Z)
    (random_record_fn : option (M world record))
    (randomize_features_fn : option (option record -> Z -> M world record))
  : M world record :=
  let random_record_fn := default _default_random_record random_record_fn in
  let randomize_features_fn :=
    default _default_randomize_features randomize_features_fn in
  x <- random_record_fn ;;
  hill_climbing_loop target_classifier wanted_class min_confidence
    max_rejections min_features_randomized randomize_features_fn
    (Z.to_nat max_iterations) (initial_state max_features_randomized x).

(** The defaults of the keyword parameters. *)
Definition default_max_iterations : Z := 40.
Definition default_max_rejections : Z := 3.
Definition default_min_features_randomized : Z := 1.

Section SyntheticRecords.

Variable target_classifier : classifier.
Variable max_features_randomized : Z.
Variable min_confidence : Q.
Variable max_retries : Z.
Variable random_record_fn : option (M world record).
Variable randomize_features_fn :
  option (option record -> Z -> M world record).

(** The call at lines 282-289. *)
Definition synthesize (wanted_class : nat) : M world record :=
  _hill_climbing_synthesis target_classifier wanted_class min_confidence
    max_features_randomized default_max_iterations default_max_rejections
    default_min_features_randomized random_record_fn randomize_features_fn.

(** [failed_attempts n w w']: [n] calls in a row, starting in [w] and
    ending in [w'], each of which raised [RuntimeError]. *)
Inductive failed_attempts (wanted_class : nat)
  : nat -> world -> world -> Prop :=
  | failed_O (w : world) : failed_attempts wanted_class 0 w w
  | failed_S (n : nat) (w w1 w2 : world) :
      synthesize wanted_class w = (inl RuntimeError, w1) ->
      failed_attempts wanted_class n w1 w2 ->
      failed_attempts wanted_class (S n) w w2.

(** [r] is what some call of the search for [wanted_class] returned. *)
Definition synthesized_for (wanted_class : nat) (r : record) : Prop :=
  exists w w', synthesize wanted_class w = (inr r, w').

(** [for tries in range(max_retries)], over the values of [tries] still
    to come. [random_record] is the variable of that name: it keeps its
    former value, if any, when the loop ends without assigning it. *)
Fixpoint retry_loop (wanted_class : nat) (tries_to_come : list Z)
    (random_record : option record) : M world (option record) :=
  match tries_to_come with
  | [] => ret random_record
  | tries :: later =>
      try_except_RuntimeError
        (r <- synthesize wanted_class ;; ret (Some r))
        (if tries =? max_retries - 1 then raise RuntimeError
         else retry_loop wanted_class later random_record)
  end.

(** [for _ in range(records_per_class)] *)
Fixpoint records_loop (wanted_class : nat) (one_hot_label : list Q)
    (remaining : nat) (x : list record) (y : list (list Q))
    (random_record : option record)
  : M world (list record * list (list Q) * option record) :=
  match remaining with
  | O => ret (x, y, random_record)
  | S remaining' =>
      random_record <-
        retry_loop wanted_class (seqZ 0 max_retries) random_record ;;
      match random_record with
      | None => raise UnboundLocalError
      | Some r =>
          records_loop wanted_class one_hot_label remaining'
            (x ++ [r]) (y ++ [one_hot_label]) random_record
      end
  end.

(** [for wanted_class in range(target_classifier.nb_classes)] *)
Fixpoint classes_loop (records_per_class : Z) (classes : list nat)
    (x : list record) (y : list (list Q)) (random_record : option record)
  : M world (list record * list (list Q)) :=
  match classes with
  | [] => ret (x, y)
  | wanted_class :: classes' =>
      let one_hot_label := one_hot (nb_classes target_classifier) wanted_class in
      after <-
        records_loop wanted_class one_hot_label
          (Z.to_nat records_per_class) x y random_record ;;
      let '(x, y, random_record) := after in
      classes_loop records_per_class classes' x y random_record
  end.

(** Lines 269-296: the synthetic [x] and [y]. *)
Definition synthesize_dataset (dataset_size : Z)
  : M world (list record * list (list Q)) :=
  if nb_classes target_classifier =? 0 then raise ZeroDivisionError
  else
    let records_per_class := dataset_size / nb_classes target_classifier in
    classes_loop records_per_class
      (seq 0 (Z.to_nat (nb_classes target_classifier))) [] [] None.

End SyntheticRecords.

End Synthesis.

(** ** Observing the arguments of a callback

    A spy wraps [randomize_features_fn] and notes every record it is handed,
    in a log kept next to the world; the other operations leave the log
    alone. *)

Definition spied {W C : Type} (f : option record -> Z -> M W C)
  : option record -> Z -> M (W * list (option record)) C :=
  fun best_x num_features '(w, seen) =>
    let '(r, w') := f best_x num_features w in (r, (w', seen ++ [best_x])).

Definition unobserved {W L C : Type} (m : M W C) : M (W * L) C :=
  fun '(w, seen) => let '(r, w') := m w in (r, (w', seen)).

Definition unobserved_draw {W L : Type} (rng_random : W -> Q * W)
  : W * L -> Q * (W * L) :=
  fun '(w, seen) => let '(u, w') := rng_random w in (u, (w', seen)).

(** ** Synthetic shadow datasets *)

Section Synthetic.

Context {P model world : Type}.

Variable fit : model -> list record -> list (list Q) -> model.
Variable predict : model -> list record -> list P.
Variable x_astype_float32 : record -> record.
Variable y_astype_float32 : list Q -> list Q.
Variable np_random_permutation : nat -> world -> list nat * world.
Variable rng_random : world -> Q * world.
Variable rng_integers : Z -> Z -> M world Z.

Local Abbreviation pool := (@ShadowModels record (list Q) model).

(** A computation that touches the world and leaves the pool alone. *)
Definition on_world {A : Type} (m : M world A) : M (pool * world) A :=
  fun '(self, w) => let '(r, w') := m w in (r, (self, w')).

Definition self_input_shape : M (pool * world) nat :=
  fun '(self, w) => (inr (_input_shape self), (self, w)).

Definition generate_synthetic_shadow_dataset (target_classifier : classifier)
    (dataset_size : Z) (max_features_randomized : Z) (member_ratio : Q)
    (min_confidence : Q) (max_retries : Z)
    (random_record_fn : option (M world record))
    (randomize_features_fn : option (option record -> Z -> M world record))
  : M (pool * world) (triple * triple) :=
  shape <- self_input_shape ;;
  xy <- on_world
          (synthesize_dataset rng_random rng_integers shape target_classifier
             max_features_randomized min_confidence max_retries
             random_record_fn randomize_features_fn dataset_size) ;;
  generate_shadow_dataset fit predict x_astype_float32 y_astype_float32
    np_random_permutation xy.1 xy.2 member_ratio.

End Synthetic.

(** ** Vocabulary of the further statements *)

(** The training prefix and the test suffix of the [i]-th block. *)
Definition train_part {A : Type} (member_ratio : Q) (size i : nat)
    (l : list A) : list A :=
  slice_upto (cut_of member_ratio size) (block size i l).

Definition test_part {A : Type} (member_ratio : Q) (size i : nat)
    (l : list A) : list A :=
  slice_from (cut_of member_ratio size) (block size i l).

(** [rows] is [l] read at the indices [idx], each row converted. *)
Definition rows_at {A : Type} (convert : A -> A) (l : list A)
    (idx : list nat) (rows : list A) : Prop :=
  Forall2 (fun i row => exists a, l !! i = Some a /\ row = convert a) idx rows.

(** Two states of a pool with as many models, as many slots and the same
    input shape. *)
Definition same_shape {X Y model : Type} (self self' : @ShadowModels X Y model)
  : Prop :=
  length (_shadow_models self') = length (_shadow_models self) /\
  length (_shadow_models_train_sets self')
    = length (_shadow_models_train_sets self) /\
  _input_shape self' = _input_shape self.

(** The samples and the labels a slot holds (none for an empty slot). *)
Definition slot_samples {X Y : Type} (slot : option (list X * list Y)) : list X :=
  from_option fst [] slot.

Definition slot_labels {X Y : Type} (slot : option (list X * list Y)) : list Y :=
  from_option snd [] slot.

(** [(a, b)] is the converted image of a sample and its label. *)
Definition original_pair {X Y : Type} (convert_x : X -> X) (convert_y : Y -> Y)
    (x : list X) (y : list Y) (a : X) (b : Y) : Prop :=
  exists j a0 b0,
    x !! j = Some a0 /\ y !! j = Some b0 /\
    a = convert_x a0 /\ b = convert_y b0.

(** [label] is the one-hot vector of a class of the classifier, and the
    classifier gives [r] that class: its score is above [min_confidence]
    and is the arg-max. *)
Definition labelled_with_its_class (target_classifier : classifier)
    (min_confidence : Q) (r : record) (label : list Q) : Prop :=
  exists c score,
    (c < Z.to_nat (nb_classes target_classifier))%nat /\
    label = one_hot (nb_classes target_classifier) c /\
    getitem (predict_record target_classifier r) c = inr score /\
    (min_confidence < score)%Q /\
    np_argmax (predict_record target_classifier r) = c.

(** [(a, b)] is the converted image of the record at some index of the
    synthesized records [xs] and of the label at that index of [ys], the
    record being of the class of the label. *)
Definition synthesized_pair (convert_x : record -> record)
    (convert_y : list Q -> list Q) (target_classifier : classifier)
    (min_confidence : Q) (xs : list record) (ys : list (list Q))
    (a : record) (b : list Q) : Prop :=
  exists j r label,
    xs !! j = Some r /\ ys !! j = Some label /\
    a = convert_x r /\ b = convert_y label /\
    labelled_with_its_class target_classifier min_confidence r label.

(** ** Concrete scenarios

    Small instances on which the statements below are exercised: a pool
    whose models count the samples they were fitted on, a generator that
    delivers a prepared queue of draws, and classifiers over two features
    and two classes. *)

Module Scenario.

(** A shadow model remembers how many samples it has been fitted on and
    adds that number to what it is asked to predict. *)
Definition clone (m : nat) : nat := m.
Definition shape (m : nat) : nat := 2%nat.
Definition fit {X Y : Type} (m : nat) (xs : list X) (ys : list Y) : nat :=
  (m + length xs)%nat.
Definition predict (m : nat) (xs : list nat) : list nat :=
  (fun v => (v + m)%nat) <$> xs.
Definition predict_size (m : nat) (xs : list record) : list nat :=
  (fun _ => m) <$> xs.

(** The ambient shuffle reverses the dataset. *)
Definition reversal {W : Type} (n : nat) (w : W) : list nat * W :=
  (rev (seq 0 n), w).

Definition new_pool (n : Z) : @ShadowModels nat nat nat :=
  init clone shape 0%nat n.

Definition new_record_pool (n : Z) : @ShadowModels record (list Q) nat :=
  init clone shape 0%nat n.

(** The generator hands out the draws of a queue, then zeros; an integer
    draw is always the lower bound. *)
Definition draws : Type := list Q.

Definition rng_random (w : draws) : Q * draws :=
  match w with
  | [] => (0%Q, [])
  | u :: w' => (u, w')
  end.

Definition rng_integers (low high : Z) : M draws Z := ret low.

(** A classifier whose scores are the two features of the record, and one
    whose scores are the features less one. *)
Definition features_as_scores : classifier :=
  {| nb_classes := 2; predict_record := fun r => r |}.

Definition features_less_one : classifier :=
  {| nb_classes := 2; predict_record := fun r => (fun v => v - 1)%Q <$> r |}.

(** A search on records of two features, with the default callbacks. *)
Definition search (target_classifier : classifier) (wanted_class : nat)
    (min_confidence : Q) (max_iterations : Z) : M draws record :=
  _hill_climbing_synthesis rng_random rng_integers 2 target_classifier
    wanted_class min_confidence 1 max_iterations 3 1 None None.

Definition pass (min_confidence : Q) : search_state -> M draws step_outcome :=
  hill_climbing_iteration rng_random features_as_scores 0 min_confidence 3 1
    (_default_randomize_features rng_random rng_integers 2).

(** The draws of a search that fails: all zero. *)
Definition failing_draws : draws := replicate 42 0%Q.

(** The draws of a search for class 0, and for class 1, that returns its
    first candidate. *)
Definition draws_for_class_0 : draws := [9 # 10; 1 # 10; 0]%Q.
Definition draws_for_class_1 : draws := [1 # 10; 9 # 10; 0]%Q.

Definition dataset (max_retries dataset_size : Z)
  : M draws (list record * list (list Q)) :=
  synthesize_dataset rng_random rng_integers 2 features_as_scores 1
    (4 # 10) max_retries None None dataset_size.

Definition synthetic_call (target_classifier : classifier)
    (max_retries dataset_size : Z)
  : M (@ShadowModels record (list Q) nat * draws)
      (@triple record (list Q) nat * @triple record (list Q) nat) :=
  generate_synthetic_shadow_dataset fit predict_size id id reversal
    rng_random rng_integers target_classifier dataset_size 1 (1 # 2)
    (4 # 10) max_retries None None.

(** A search for class 0 whose first candidate [first_candidate] is not
    accepted (the draw 95/100 is not below its confidence 9/10) and whose
    second candidate scores 8/10. *)
Definition first_candidate : record := [9 # 10; 1 # 10]%Q.

Definition two_pass_draws : draws :=
  [9 # 10; 1 # 10; 95 # 100; 8 # 10; 0; 0; 0]%Q.

Definition second_pass : search_state :=
  {| x := [8 # 10; 1 # 10]%Q; best_x := Some first_candidate;
     best_class_confidence := (9 # 10)%Q; num_rejections := 0;
     k_features_randomized := 1 |}.

Definition third_pass : search_state :=
  {| x := [0; 1 # 10]%Q; best_x := Some first_candidate;
     best_class_confidence := (9 # 10)%Q; num_rejections := 1;
     k_features_randomized := 1 |}.

(** The double nearest to 0.7: 6305039478318694 * 2^-53. *)
Definition seven_tenths : Q := 6305039478318694 # 9007199254740992.

(** A search that starts from [first_candidate] with a step size of 5:
    its first candidate is not returned (the draw is 95/100), and the
    next four candidates are rejected. [fourth_rejection] is the state at
    the fourth of these passes, [after_fourth_rejection] the state it
    leads to. *)
Definition annealing_draws : draws :=
  ((95 # 100) :: replicate 20 (1 # 10) ++ [0; 0; 0])%Q.

Definition fourth_rejection : search_state :=
  {| x := [1 # 10; 1 # 10]%Q; best_x := Some first_candidate;
     best_class_confidence := (9 # 10)%Q; num_rejections := 3;
     k_features_randomized := 5 |}.

Definition after_fourth_rejection : search_state :=
  {| x := [0; 1 # 10]%Q; best_x := Some first_candidate;
     best_class_confidence := (9 # 10)%Q; num_rejections := 0;
     k_features_randomized := 3 |}.

(** The draws of four searches that each return their first candidate,
    two for class 0 and two for class 1, and what they synthesize. *)
Definition four_searches : draws :=
  draws_for_class_0 ++ draws_for_class_0
  ++ draws_for_class_1 ++ draws_for_class_1.

Definition four_records : list record :=
  [[9 # 10; 1 # 10]; [9 # 10; 1 # 10]; [1 # 10; 9 # 10]; [1 # 10; 9 # 10]]%Q.

Definition four_labels : list (list Q) :=
  [[1; 0]; [1; 0]; [0; 1]; [0; 1]]%Q.

(** A generator stuck at 1/2 whose integer draw is the lower bound. *)
Definition steady_random (w : unit) : Q * unit := ((1 # 2)%Q, w).
Definition steady_integers (low high : Z) : M unit Z := ret low.

(** A classifier without classes. *)
Definition no_classes : classifier :=
  {| nb_classes := 0; predict_record := fun r => r |}.

(** A synthesis with the classifier whose scores are negative. *)
Definition negative_records (max_retries : Z) (remaining : nat)
  : M draws (list record * list (list Q) * option record) :=
  records_loop rng_random rng_integers 2 features_less_one 1 (4 # 10)
    max_retries None None 0 [1; 0]%Q remaining [] [] None.

End Scenario.
(** * Properties *)

(** ** Slices and index arrays *)

Lemma slice_upto_from_length {A : Type} (k : Z) (l : list A) :
  (length (slice_upto k l) + length (slice_from k l) = length l)%nat.
Proof.
  unfold slice_upto, slice_from.
  rewrite length_take, length_drop. lia.
Qed.

Lemma slice_length {A : Type} (a b : nat) (l : list A) :
  (a <= b)%nat -> (b <= length l)%nat -> length (slice a b l) = (b - a)%nat.
Proof.
  intros Hab Hb. unfold slice.
  rewrite length_take, length_drop. lia.
Qed.

Lemma block_length {A : Type} (size i : nat) (l : list A) :
  (size * (i + 1) <= length l)%nat ->
  length (slice (size * i) (size * (i + 1)) l) = size.
Proof.
  intros Hin. rewrite slice_length; [nia | nia | done].
Qed.

Lemma slice_index_inside (k : Z) (n : nat) :
  0 <= k <= Z.of_nat n -> slice_index k n = Z.to_nat k.
Proof.
  intros Hk. unfold slice_index.
  destruct (Z.ltb_spec k 0); lia.
Qed.

Lemma slice_index_le (k : Z) (n : nat) : (slice_index k n <= n)%nat.
Proof. unfold slice_index. destruct (Z.ltb_spec k 0); lia. Qed.

Lemma take_rows_permutation {A : Type} (l : list A) (idx : list nat) :
  Permutation idx (seq 0 (length l)) ->
  exists rows, take_rows l idx = inr rows /\ length rows = length l.
Proof.
  intros Hperm. unfold take_rows.
  destruct (mapM (fun i => l !! i) idx) as [rows|] eqn:Hrows.
  - exists rows. split; [done|].
    apply length_mapM in Hrows. rewrite <- Hrows.
    apply Permutation_length in Hperm. by rewrite Hperm, length_seq.
  - exfalso. assert (is_Some (mapM (fun i => l !! i) idx)) as [? Hsome];
      [|congruence].
    apply mapM_is_Some_2, Forall_forall. intros i Hi. simpl.
    apply lookup_lt_is_Some_2.
    rewrite Hperm in Hi. apply elem_of_seq in Hi. lia.
Qed.

Lemma reduce_concat_length {A : Type} (a : list A) (l : list (list A)) :
  exists all, reduce concat (a :: l) = inr all /\
              length all = (length a + sum_list_with length l)%nat.
Proof.
  simpl. eexists; split; [done|].
  revert a. induction l as [|b l IH]; intros a; simpl; [lia|].
  rewrite IH. unfold concat. rewrite length_app. lia.
Qed.

Section PoolFacts.

Context {X Y P model world : Type}.
Variable clone_for_refitting : model -> model.
Variable input_shape : model -> nat.
Variable fit : model -> list X -> list Y -> model.
Variable predict : model -> list X -> list P.
Variable x_astype_float32 : X -> X.
Variable y_astype_float32 : Y -> Y.
Variable np_random_permutation : nat -> world -> list nat * world.

Local Abbreviation pool := (@ShadowModels X Y model).

Lemma init_well_formed template n :
  well_formed (init clone_for_refitting input_shape template n : pool).
Proof.
  unfold well_formed, init. simpl.
  by rewrite length_replicate, length_fmap, length_seq.
Qed.

Section Loop.

Variables (x : list X) (y : list Y) (member_ratio : Q) (size : nat).

Local Abbreviation cut := (cut_of member_ratio size).
Local Abbreviation x_train i := (slice_upto cut (block size i x)).
Local Abbreviation y_train i := (slice_upto cut (block size i y)).
Local Abbreviation x_test i := (slice_from cut (block size i x)).
Local Abbreviation y_test i := (slice_from cut (block size i y)).
Local Abbreviation fitted im :=
  (fit (snd im) (x_train (fst im)) (y_train (fst im))).

Lemma train_all_spec (todo : list (nat * model)) :
  forall (acc : accumulators) (self : pool) (w : world),
    NoDup todo.*1 ->
    (forall i, i ∈ todo.*1 -> (i < length (_shadow_models_train_sets self))%nat) ->
    exists acc' self',
      train_all fit predict x y member_ratio size todo acc (self, w)
        = (inr acc', (self', w)) /\
      member_samples acc' =
        member_samples acc ++ ((fun im => x_train im.1) <$> todo) /\
      member_true_label acc' =
        member_true_label acc ++ ((fun im => y_train im.1) <$> todo) /\
      member_prediction acc' =
        member_prediction acc
          ++ ((fun im => predict (fitted im) (x_train im.1)) <$> todo) /\
      nonmember_samples acc' =
        nonmember_samples acc ++ ((fun im => x_test im.1) <$> todo) /\
      nonmember_true_label acc' =
        nonmember_true_label acc ++ ((fun im => y_test im.1) <$> todo) /\
      nonmember_prediction acc' =
        nonmember_prediction acc
          ++ ((fun im => predict (fitted im) (x_test im.1)) <$> todo) /\
      length (_shadow_models_train_sets self') = length (_shadow_models_train_sets self) /\
      length (_shadow_models self') = length (_shadow_models self) /\
      _input_shape self' = _input_shape self /\
      (forall j, j ∉ todo.*1 ->
         _shadow_models_train_sets self' !! j = _shadow_models_train_sets self !! j /\
         _shadow_models self' !! j = _shadow_models self !! j) /\
      (forall j m, (j, m) ∈ todo ->
         _shadow_models_train_sets self' !! j = Some (Some (x_train j, y_train j)) /\
         ((j < length (_shadow_models self))%nat ->
          _shadow_models self' !! j = Some (fit m (x_train j) (y_train j)))).
Proof.
  induction todo as [|[i m] todo IH]; intros acc self w Hnodup Hin.
  - exists acc, self. simpl. rewrite !app_nil_r.
    do 10 (split; [done|]). split; [done|].
    intros j m Hj. by apply elem_of_nil in Hj.
  - rewrite fmap_cons in Hnodup. apply NoDup_cons in Hnodup as [Hi Hnodup].
    cbn [fst] in Hi.
    assert (i < length (_shadow_models_train_sets self))%nat as Hlt
      by (apply Hin; rewrite fmap_cons; left).
    cbn [train_all]. unfold bind at 1. unfold train_one.
    unfold bind at 1. unfold store_train_set, setitem.
    destruct (decide (i < length (_shadow_models_train_sets self))%nat)
      as [_|Hge]; [|lia].
    unfold bind at 1. unfold fit_in_place, ret at 1.
    fold (cut_of member_ratio size). fold (block size i x) (block size i y).
    match goal with
    | |- context [train_all _ _ _ _ _ _ _ ?a (?s, _)] =>
        destruct (IH a s w) as
          (acc' & self' & Hrun & Hms & Hml & Hmp & Hns & Hnl & Hnp
           & Hlen1 & Hlen2 & Hshape & Hout & Hins)
    end; [done| |].
    { intros j Hj. cbn [_shadow_models_train_sets]. rewrite length_insert.
      apply Hin. rewrite fmap_cons. by right. }
    cbn [_shadow_models _shadow_models_train_sets _input_shape]
      in Hlen1, Hlen2, Hshape, Hout.
    rewrite length_insert in Hlen1. rewrite length_insert in Hlen2.
    exists acc', self'. split; [exact Hrun|].
    split; [rewrite Hms; cbn [member_samples]; by rewrite <- app_assoc|].
    split; [rewrite Hml; cbn [member_true_label]; by rewrite <- app_assoc|].
    split; [rewrite Hmp; cbn [member_prediction]; by rewrite <- app_assoc|].
    split; [rewrite Hns; cbn [nonmember_samples]; by rewrite <- app_assoc|].
    split; [rewrite Hnl; cbn [nonmember_true_label]; by rewrite <- app_assoc|].
    split; [rewrite Hnp; cbn [nonmember_prediction]; by rewrite <- app_assoc|].
    do 3 (split; [done|]). split.
    + intros j Hj. rewrite fmap_cons in Hj.
      apply not_elem_of_cons in Hj as [Hji Hj]. cbn [fst] in Hji.
      destruct (Hout j Hj) as [H1 H2].
      rewrite H1, H2. by rewrite !list_lookup_insert_ne.
    + intros j m' Hj. apply elem_of_cons in Hj as [Heq|Hj].
      * inversion Heq; subst j m'.
        destruct (Hout i Hi) as [H1 H2].
        rewrite H1, H2. split.
        -- by apply list_lookup_insert_eq.
        -- intros Hm. by apply list_lookup_insert_eq.
      * destruct (Hins j m' Hj) as [H1 H2]. split; [done|].
        intros Hm. apply H2. cbn [_shadow_models]. by rewrite length_insert.
Qed.

End Loop.

Lemma enumerate_fst {A : Type} (l : list A) :
  (enumerate l).*1 = seq 0 (length l).
Proof. unfold enumerate. apply fst_zip. by rewrite length_seq. Qed.

Lemma enumerate_lookup {A : Type} (l : list A) (i : nat) (a : A) :
  l !! i = Some a -> (i, a) ∈ enumerate l.
Proof.
  intros Hl. apply list_elem_of_lookup_2 with i.
  unfold enumerate. rewrite lookup_zip_with, Hl.
  rewrite lookup_seq_lt; [done|]. by apply lookup_lt_Some in Hl.
Qed.

Lemma reduce_concat_join {A : Type} (l : list (list A)) :
  l <> [] -> reduce concat l = inr (mjoin l).
Proof.
  destruct l as [|a l]; [done|]. intros _. simpl. f_equal.
  revert a. induction l as [|b l IH]; intros a; simpl.
  - by rewrite app_nil_r.
  - rewrite IH. unfold concat. by rewrite <- app_assoc.
Qed.

Lemma fmap_enumerate_nonempty {A B : Type} (f : nat * A -> B) (l : list A) :
  (1 <= length l)%nat -> f <$> enumerate l <> [].
Proof. destruct l; simpl; [lia|done]. Qed.

(** The ambient permutation is a permutation. *)
Hypothesis np_random_permutation_spec :
  forall n w, Permutation (np_random_permutation n w).1 (seq 0 n).

Lemma generate_shadow_dataset_spec (self : pool) (w : world)
    (x : list X) (y : list Y) (member_ratio : Q) :
  well_formed self ->
  (1 <= length (_shadow_models self))%nat ->
  length x = length y ->
  let n := length (_shadow_models self) in
  let size := (length x / n)%nat in
  let cut := cut_of member_ratio size in
  exists xs ys members nonmembers self' w',
    length xs = length x /\ length ys = length x /\
    generate_shadow_dataset fit predict x_astype_float32 y_astype_float32
      np_random_permutation x y member_ratio (self, w)
      = (inr (members, nonmembers), (self', w')) /\
    samples members = mjoin ((fun i => slice_upto cut (block size i xs)) <$> seq 0 n) /\
    samples nonmembers = mjoin ((fun i => slice_from cut (block size i xs)) <$> seq 0 n) /\
    length (_shadow_models_train_sets self') = n /\
    length (_shadow_models self') = n /\
    forall i m, _shadow_models self !! i = Some m ->
      _shadow_models_train_sets self' !! i
        = Some (Some (slice_upto cut (block size i xs),
                      slice_upto cut (block size i ys))) /\
      _shadow_models self' !! i
        = Some (fit m (slice_upto cut (block size i xs))
                      (slice_upto cut (block size i ys))).
Proof.
  intros Hwf Hn Hlen n size cut.
  unfold generate_shadow_dataset.
  rewrite Hlen, Nat.eqb_refl. cbn [negb]. rewrite <- Hlen.
  pose proof (np_random_permutation_spec (length x) w) as Hperm.
  destruct (np_random_permutation (length x) w) as [idx w'].
  cbn [fst] in Hperm.
  destruct (take_rows_permutation x idx Hperm) as (xs0 & Hxs0 & Hlx).
  assert (Permutation idx (seq 0 (length y))) as Hperm' by by rewrite <- Hlen.
  destruct (take_rows_permutation y idx Hperm') as (ys0 & Hys0 & Hly).
  rewrite Hxs0, Hys0.
  destruct (Nat.eqb_spec (length (_shadow_models self)) 0) as [H0|_]; [lia|].
  rewrite length_fmap, Hlx. fold n size.
  destruct (train_all_spec (x_astype_float32 <$> xs0) (y_astype_float32 <$> ys0)
              member_ratio size (enumerate (_shadow_models self))
              no_accumulated self w')
    as (acc' & self' & Hrun & Hms & Hml & Hmp & Hns & Hnl & Hnp
        & Hlen1 & Hlen2 & _ & _ & Hins).
  { rewrite enumerate_fst. apply NoDup_seq. }
  { intros i Hi. rewrite enumerate_fst in Hi. apply elem_of_seq in Hi.
    rewrite Hwf. lia. }
  exists (x_astype_float32 <$> xs0), (y_astype_float32 <$> ys0).
  unfold bind at 1. rewrite Hrun.
  cbn [no_accumulated member_samples member_true_label member_prediction
       nonmember_samples nonmember_true_label nonmember_prediction app]
    in Hms, Hml, Hmp, Hns, Hnl, Hnp.
  rewrite Hms, Hml, Hmp, Hns, Hnl, Hnp.
  repeat (unfold bind at 1; unfold lift_result at 1;
          rewrite reduce_concat_join by by apply fmap_enumerate_nonempty).
  unfold ret. do 4 eexists.
  split; [by rewrite length_fmap|]. split; [rewrite length_fmap; lia|].
  split; [reflexivity|].
  unfold samples. cbn [fst snd].
  unfold n at 1 2.
  rewrite <- (enumerate_fst (_shadow_models self)), <- !list_fmap_compose.
  do 2 (split; [reflexivity|]).
  split; [by rewrite Hlen1|]. split; [done|].
  intros i m Him. destruct (Hins i m (enumerate_lookup _ _ _ Him)) as [H1 H2].
  split; [exact H1|]. apply H2. by apply lookup_lt_Some in Him.
Qed.


Lemma split_blocks_length {A : Type} (l : list A) (size : nat) (cut : Z)
    (indices : list nat) :
  (forall i, i ∈ indices -> (size * (i + 1) <= length l)%nat) ->
  (length (mjoin ((fun i => slice_upto cut (block size i l)) <$> indices))
   + length (mjoin ((fun i => slice_from cut (block size i l)) <$> indices))
   = length indices * size)%nat.
Proof.
  induction indices as [|i indices IH]; intros Hin; [done|].
  rewrite !fmap_cons.
  change (length (i :: indices)) with (S (length indices)).
  match goal with
  | |- context [mjoin (?a :: ?r)] => change (mjoin (a :: r)) with (a ++ mjoin r)
  end.
  match goal with
  | |- context [mjoin (?a :: ?r)] => change (mjoin (a :: r)) with (a ++ mjoin r)
  end.
  rewrite !length_app.
  pose proof (slice_upto_from_length cut (block size i l)) as Hsplit.
  unfold block in Hsplit at 3. rewrite block_length in Hsplit
    by (apply Hin; left).
  specialize (IH (fun j Hj => Hin j (list_elem_of_further _ _ _ Hj))).
  rewrite Nat.mul_succ_l. lia.
Qed.

Lemma block_inside (len n i : nat) :
  (i < n)%nat -> ((len / n) * (i + 1) <= len)%nat.
Proof.
  intros Hi. transitivity (n * (len / n))%nat; [nia|].
  apply Nat.Div0.mul_div_le.
Qed.

(** C3. For a pool of N >= 1 models and a dataset with as many labels as
    samples, [generate_shadow_dataset] returns, and the member and
    nonmember samples it returns number N * (len(x) // N) together. *)
Theorem generate_shadow_dataset_total_count (self : pool) (w : world)
    (x : list X) (y : list Y) (member_ratio : Q) :
  well_formed self ->
  (1 <= length (_shadow_models self))%nat ->
  length x = length y ->
  exists members nonmembers self' w',
    generate_shadow_dataset fit predict x_astype_float32 y_astype_float32
      np_random_permutation x y member_ratio (self, w)
      = (inr (members, nonmembers), (self', w')) /\
    (length (samples members) + length (samples nonmembers)
     = length (_shadow_models self)
       * (length x / length (_shadow_models self)))%nat.
Proof.
  intros Hwf Hn Hlen.
  destruct (generate_shadow_dataset_spec self w x y member_ratio Hwf Hn Hlen)
    as (xs & ys & members & nonmembers & self' & w' & Hxs & _ & Hrun
        & Hmem & Hnon & _).
  exists members, nonmembers, self', w'. split; [exact Hrun|].
  rewrite Hmem, Hnon, split_blocks_length; [by rewrite length_seq|].
  intros i Hi. apply elem_of_seq in Hi. rewrite Hxs.
  apply block_inside. lia.
Qed.

(** C4, as amended. A new pool has one empty slot per model. After one
    call of [generate_shadow_dataset] on it the accessor returns one slot
    per model, and the slot of model i holds the training set model i was
    fitted on: the samples of its block up to the slice bound
    int(member_ratio * block_size), the product being the rounded double
    product, and as many labels; whenever that bound lies between 0 and
    block_size, exactly that many. *)
Theorem train_sets_after_generation (shadow_model_template : model)
    (num_shadow_models : Z) (w : world) (x : list X) (y : list Y)
    (member_ratio : Q) :
  1 <= num_shadow_models ->
  length x = length y ->
  let self : pool := init clone_for_refitting input_shape
                       shadow_model_template num_shadow_models in
  let n := Z.to_nat num_shadow_models in
  let block_size := (length x / n)%nat in
  let cut := cut_of member_ratio block_size in
  get_shadow_models_train_sets self = replicate n None /\
  exists result self' w',
    generate_shadow_dataset fit predict x_astype_float32 y_astype_float32
      np_random_permutation x y member_ratio (self, w)
      = (inr result, (self', w')) /\
    length (get_shadow_models_train_sets self') = n /\
    forall i, (i < n)%nat ->
      exists x_train y_train,
        get_shadow_models_train_sets self' !! i = Some (Some (x_train, y_train)) /\
        get_shadow_models self' !! i
          = Some (fit (clone_for_refitting shadow_model_template) x_train y_train) /\
        length x_train = slice_index cut block_size /\
        length y_train = length x_train /\
        (0 <= cut <= Z.of_nat block_size -> Z.of_nat (length x_train) = cut).
Proof.
  intros Hnum Hlen self n block_size cut. split; [done|].
  assert (length (_shadow_models self) = n) as Hmodels.
  { unfold self, init. cbn [_shadow_models]. by rewrite length_fmap, length_seq. }
  destruct (generate_shadow_dataset_spec self w x y member_ratio)
    as (xs & ys & members & nonmembers & self' & w' & Hxs & Hys & Hrun
        & _ & _ & Hlen1 & _ & Hslots);
    [apply init_well_formed | lia | done |].
  rewrite Hmodels in Hlen1, Hslots. fold block_size in Hslots.
  fold cut in Hslots.
  exists (members, nonmembers), self', w'.
  split; [exact Hrun|]. split; [exact Hlen1|].
  intros i Hi.
  destruct (Hslots i (clone_for_refitting shadow_model_template))
    as [Hslot Hmodel].
  { unfold self, init. cbn [_shadow_models]. rewrite list_lookup_fmap.
    by rewrite lookup_seq_lt. }
  assert (length (block block_size i xs) = block_size) as Hbx.
  { apply block_length. rewrite Hxs. by apply block_inside. }
  assert (length (block block_size i ys) = block_size) as Hby.
  { apply block_length. rewrite Hys. by apply block_inside. }
  assert (length (slice_upto cut (block block_size i xs))
          = slice_index cut block_size) as Hx.
  { unfold slice_upto. rewrite Hbx, length_take, Hbx.
    pose proof (slice_index_le cut block_size). lia. }
  assert (length (slice_upto cut (block block_size i ys))
          = slice_index cut block_size) as Hy.
  { unfold slice_upto. rewrite Hby, length_take, Hby.
    pose proof (slice_index_le cut block_size). lia. }
  do 2 eexists. split; [exact Hslot|]. split; [exact Hmodel|].
  split; [exact Hx|]. split; [by rewrite Hx, Hy|].
  intros Hcut. rewrite Hx, slice_index_inside by done. lia.
Qed.

(** C5. With a different number of samples and labels,
    [generate_shadow_dataset] raises [ValueError] and leaves the pool (its
    models and its training-set slots) and the generators as they were. *)
Theorem mismatched_lengths_rejected (self : pool) (w : world)
    (x : list X) (y : list Y) (member_ratio : Q) :
  length x <> length y ->
  generate_shadow_dataset fit predict x_astype_float32 y_astype_float32
    np_random_permutation x y member_ratio (self, w)
    = (inl ValueError, (self, w)).
Proof.
  intros Hlen. unfold generate_shadow_dataset.
  by destruct (Nat.eqb_spec (length x) (length y)).
Qed.

End PoolFacts.

Lemma Qlt_bool_iff (a b : Q) : Qlt_bool a b = true <-> (a < b)%Q.
Proof.
  unfold Qlt_bool. rewrite negb_true_iff. split.
  - intros Hle. apply Qnot_le_lt. intros Hba.
    apply Qle_bool_iff in Hba. congruence.
  - intros Hlt. destruct (Qle_bool b a) eqn:Hle; [|done].
    apply Qle_bool_iff in Hle. by apply Qlt_not_le in Hlt.
Qed.

Lemma Qle_bool_false_iff (a b : Q) : Qle_bool a b = false <-> (b < a)%Q.
Proof.
  rewrite <- Qlt_bool_iff. unfold Qlt_bool. by rewrite negb_true_iff.
Qed.

Lemma Qceiling_half (k : Z) : Qceiling (inject_Z k / inject_Z 2) = (k + 1) / 2.
Proof.
  unfold Qceiling, Qfloor, Qdiv, Qinv, Qmult, Qopp, inject_Z.
  cbn [Qnum Qden]. change (Z.pos (1 * 2)) with 2. rewrite Z.mul_1_r.
  Z.div_mod_to_equations. lia.
Qed.

Lemma ceil_half_exact (k : Z) :
  Z.abs k < 2 ^ 53 -> ceil_half k = Qceiling (inject_Z k / inject_Z 2).
Proof.
  intros Hk. unfold ceil_half, int_truediv_2.
  destruct (Z.ltb_spec (Z.abs k) (2 ^ 53)); [done|lia].
Qed.

Lemma round_half_even_bounds (a b : Z) :
  0 <= a -> 0 < b -> 0 <= round_half_even a b <= a / b + 1.
Proof.
  intros Ha Hb. unfold round_half_even.
  assert (0 <= a / b) by (apply Z.div_pos; lia).
  repeat case_match; lia.
Qed.

Lemma ceil_half_bounds (k : Z) : 0 <= k -> 0 <= ceil_half k <= k.
Proof.
  intros Hk. unfold ceil_half, int_truediv_2.
  destruct (Z.ltb_spec (Z.abs k) (2 ^ 53)) as [Hs|Hl].
  - rewrite Qceiling_half. Z.div_mod_to_equations. lia.
  - rewrite Qceiling_Z. rewrite Z.abs_eq in * by done.
    assert (0 < k) as Hpos by lia.
    rewrite Z.sgn_pos, Z.mul_1_l by done.
    set (L := Z.log2 k).
    assert (53 <= L) as HL.
    { apply Z.log2_le_pow2; [done|exact Hl]. }
    assert (2 ^ L <= k) as Hlog by (apply Z.log2_spec; done).
    set (u := 2 ^ (L - 53)).
    assert (0 < u) as Hu by (apply Z.pow_pos_nonneg; lia).
    assert (2 * u <= 2 ^ L) as Hu2.
    { unfold u. rewrite <- (Z.pow_succ_r 2 (L - 53)) by lia.
      apply Z.pow_le_mono_r; lia. }
    pose proof (round_half_even_bounds k (2 * u) ltac:(lia) ltac:(lia))
      as [Hr0 Hr1].
    pose proof (Z.mul_div_le k (2 * u) ltac:(lia)) as Hdiv.
    split; nia.
Qed.

(** The rounding of [int_truediv_2] is that of binary64 division, here at
    sample points on both sides of 2^53. *)
Lemma int_truediv_2_is_binary64_division :
  Forall (fun k =>
            int_truediv_2 k
            == float_value (SFdiv 53 1024 (float_of_int k) (float_of_int 2)))%Q
    [0; 1; 5; 40; -5; 2 ^ 53 - 1; 2 ^ 53; 2 ^ 53 + 1; 2 ^ 53 + 3;
     2 ^ 54 + 1; 2 ^ 54 + 2; 2 ^ 54 + 6; 2 ^ 55 - 1; 2 ^ 60 + 12345;
     2 ^ 100 + 2 ^ 47; 2 ^ 100 + 3 * 2 ^ 47; - (2 ^ 53 + 3); 3 ^ 100].
Proof.
  apply Forall_forall. intros k Hk.
  repeat (apply elem_of_cons in Hk as [->|Hk]; [by vm_compute|]).
  by apply elem_of_nil in Hk.
Qed.

(** ** The hill-climbing search *)

Section SearchFacts.

Context {world : Type}.
Variable rng_random : world -> Q * world.
Variable target_classifier : classifier.
Variable wanted_class : nat.
Variable min_confidence : Q.
Variable max_rejections min_features_randomized : Z.
Variable randomize_features_fn : option record -> Z -> M world record.

Local Abbreviation iteration :=
  (hill_climbing_iteration rng_random target_classifier wanted_class
     min_confidence max_rejections min_features_randomized
     randomize_features_fn).
Local Abbreviation loop :=
  (hill_climbing_loop rng_random target_classifier wanted_class
     min_confidence max_rejections min_features_randomized
     randomize_features_fn).
Local Abbreviation candidate := (next_candidate randomize_features_fn).
Local Abbreviation reach :=
  (reaches rng_random target_classifier wanted_class min_confidence
     max_rejections min_features_randomized randomize_features_fn).
Local Abbreviation scores s := (predict_record target_classifier (x s)).

(** The loop body, branch by branch. *)
Lemma iteration_unfold (s : search_state) (w : world) :
  iteration s w =
  match getitem (scores s) wanted_class with
  | inl e => (inl e, w)
  | inr c =>
      if Qle_bool (best_class_confidence s) c then
        if Qlt_bool min_confidence c
           && (np_argmax (scores s) =? wanted_class)%nat
        then
          if Qlt_bool (rng_random w).1 c
          then (inr (Return (x s)), (rng_random w).2)
          else candidate (Some (x s)) c 0 (k_features_randomized s)
                 (rng_random w).2
        else candidate (Some (x s)) c 0 (k_features_randomized s) w
      else
        if max_rejections <? num_rejections s + 1
        then candidate (best_x s) (best_class_confidence s) 0
               (Z.max min_features_randomized
                  (ceil_half (k_features_randomized s))) w
        else candidate (best_x s) (best_class_confidence s)
               (num_rejections s + 1) (k_features_randomized s) w
  end.
Proof.
  unfold hill_climbing_iteration, bind, lift_result, draw, ret.
  destruct (getitem (scores s) wanted_class) as [e|c]; [done|].
  destruct (Qle_bool (best_class_confidence s) c);
    [|by destruct (max_rejections <? num_rejections s + 1)].
  destruct (Qlt_bool min_confidence c
            && (np_argmax (scores s) =? wanted_class)%nat); [|done].
  destruct (rng_random w) as [u w']. cbn [fst snd].
  by destruct (Qlt_bool u c).
Qed.

Lemma candidate_Continue (arg : option record) (bc : Q) (nr k : Z)
    (w w' : world) (s' : search_state) :
  candidate arg bc nr k w = (inr (Continue s'), w') ->
  randomize_features_fn arg k w = (inr (x s'), w') /\
  best_x s' = arg /\ best_class_confidence s' = bc /\
  num_rejections s' = nr /\ k_features_randomized s' = k.
Proof.
  unfold next_candidate, bind, ret.
  destruct (randomize_features_fn arg k w) as [[e|x'] w1]; [done|].
  intros [= <- <-]. done.
Qed.

Lemma candidate_not_Return (arg : option record) (bc : Q) (nr k : Z)
    (w w' : world) (r : record) :
  candidate arg bc nr k w <> (inr (Return r), w').
Proof.
  unfold next_candidate, bind, ret.
  by destruct (randomize_features_fn arg k w) as [[e|x'] w1].
Qed.

(** What a pass that goes on to a next candidate has done to the four
    variables. *)
Lemma iteration_Continue (s s' : search_state) (w w' : world) :
  iteration s w = (inr (Continue s'), w') ->
  exists c, getitem (scores s) wanted_class = inr c /\
    ((best_class_confidence s <= c)%Q /\
     best_x s' = Some (x s) /\ best_class_confidence s' = c /\
     num_rejections s' = 0 /\
     k_features_randomized s' = k_features_randomized s
     \/
     (c < best_class_confidence s)%Q /\
     best_x s' = best_x s /\
     best_class_confidence s' = best_class_confidence s /\
     (max_rejections < num_rejections s + 1 /\
      num_rejections s' = 0 /\
      k_features_randomized s'
        = Z.max min_features_randomized (ceil_half (k_features_randomized s))
      \/
      num_rejections s + 1 <= max_rejections /\
      num_rejections s' = num_rejections s + 1 /\
      k_features_randomized s' = k_features_randomized s)).
Proof.
  rewrite iteration_unfold.
  destruct (getitem (scores s) wanted_class) as [e|c]; [done|].
  intros Hrun. exists c. split; [done|].
  destruct (Qle_bool (best_class_confidence s) c) eqn:Hle.
  - left. apply Qle_bool_iff in Hle. split; [done|].
    destruct (Qlt_bool min_confidence c
              && (np_argmax (scores s) =? wanted_class)%nat).
    + destruct (Qlt_bool (rng_random w).1 c); [done|].
      by apply candidate_Continue in Hrun as (_ & ? & ? & ? & ?).
    + by apply candidate_Continue in Hrun as (_ & ? & ? & ? & ?).
  - right. apply Qle_bool_false_iff in Hle. split; [done|].
    destruct (Z.ltb_spec max_rejections (num_rejections s + 1)).
    + apply candidate_Continue in Hrun as (_ & ? & ? & ? & ?).
      do 2 (split; [done|]). by left.
    + apply candidate_Continue in Hrun as (_ & ? & ? & ? & ?).
      do 2 (split; [done|]). by right.
Qed.

Lemma loop_reaches (n m : nat) (s s' : search_state) (w w' : world) :
  reach n s w s' w' -> loop (n + m) s w = loop m s' w'.
Proof.
  induction 1 as [|n s s1 s2 w w1 w2 Hstep _ IH]; [done|].
  cbn [Nat.add hill_climbing_loop]. unfold bind at 1. by rewrite Hstep.
Qed.


(** A candidate that passes the whole test at a pass within the
    iteration bound is what the search returns. *)
Lemma loop_returns_accepted (n iterations : nat) (s0 s : search_state)
    (w0 w : world) (c : Q) :
  reach n s0 w0 s w ->
  (n < iterations)%nat ->
  getitem (scores s) wanted_class = inr c ->
  (best_class_confidence s <= c)%Q ->
  (min_confidence < c)%Q ->
  np_argmax (scores s) = wanted_class ->
  ((rng_random w).1 < c)%Q ->
  iteration s w = (inr (Return (x s)), (rng_random w).2) /\
  loop iterations s0 w0 = (inr (x s), (rng_random w).2).
Proof.
  intros Hreach Hn Hc Hbest Hmin Harg Hdraw.
  assert (iteration s w = (inr (Return (x s)), (rng_random w).2)) as Hstep.
  { rewrite iteration_unfold, Hc.
    apply Qle_bool_iff in Hbest. apply Qlt_bool_iff in Hmin, Hdraw.
    rewrite Hbest, Hmin, Hdraw. apply Nat.eqb_eq in Harg. by rewrite Harg. }
  split; [exact Hstep|].
  replace iterations with (n + S (iterations - S n))%nat by lia.
  rewrite (loop_reaches _ _ _ _ _ _ Hreach).
  cbn [hill_climbing_loop]. unfold bind. by rewrite Hstep.
Qed.

(** C1, as amended. In a pass whose candidate scores at least the best
    confidence so far, above [min_confidence], and is the arg-max, one
    uniform draw is made and the candidate is returned exactly when the
    draw is below its confidence. In a pass whose candidate scores below
    the best confidence so far no such test is made: nothing is drawn
    and nothing is returned, whatever the threshold and the arg-max. *)
Theorem acceptance_test_gated_by_improvement (s : search_state) (w : world)
    (c : Q) (remaining : nat) :
  getitem (scores s) wanted_class = inr c ->
  ((best_class_confidence s <= c)%Q ->
   (min_confidence < c)%Q ->
   np_argmax (scores s) = wanted_class ->
   (((rng_random w).1 < c)%Q ->
    iteration s w = (inr (Return (x s)), (rng_random w).2) /\
    loop (S remaining) s w = (inr (x s), (rng_random w).2)) /\
   (~ ((rng_random w).1 < c)%Q ->
    iteration s w
      = candidate (Some (x s)) c 0 (k_features_randomized s) (rng_random w).2))
  /\
  ((c < best_class_confidence s)%Q ->
   (exists nr k,
      iteration s w
        = candidate (best_x s) (best_class_confidence s) nr k w) /\
   forall r w', iteration s w <> (inr (Return r), w')).
Proof.
  intros Hc. split.
  - intros Hbest Hmin Harg. split.
    + intros Hdraw.
      apply (loop_returns_accepted 0 (S remaining) s s w w c);
        [constructor|lia|done..].
    + intros Hdraw. rewrite iteration_unfold, Hc.
      apply Qle_bool_iff in Hbest. apply Qlt_bool_iff in Hmin.
      rewrite Hbest, Hmin. apply Nat.eqb_eq in Harg. rewrite Harg.
      cbn [andb]. destruct (Qlt_bool (rng_random w).1 c) eqn:Hu; [|done].
      by apply Qlt_bool_iff in Hu.
  - intros Hworse. apply Qle_bool_false_iff in Hworse.
    assert (exists nr k,
               iteration s w
               = candidate (best_x s) (best_class_confidence s) nr k w)
      as (nr & k & Hrun).
    { rewrite iteration_unfold, Hc, Hworse.
      destruct (max_rejections <? num_rejections s + 1); eauto. }
    split; [eauto|]. intros r w'. rewrite Hrun.
    apply candidate_not_Return.
Qed.

(** C7. A pass that rejects its candidate and finds the incremented
    rejection count above [max_rejections] goes on to line 220 with the
    step size max(min_features_randomized, ceil(step_size / 2)) and the
    count 0: the next candidate is the best record with that many
    features randomized (the ceiling is that of the exact half for a
    step size below 2^53, and of the double nearest to it beyond). With
    min_features_randomized >= 1 and a step size that starts at or above
    it, the step size never increases along the search and never drops
    below min_features_randomized. *)
Theorem step_size_annealing :
  (forall s w c,
      getitem (scores s) wanted_class = inr c ->
      (c < best_class_confidence s)%Q ->
      max_rejections < num_rejections s + 1 ->
      (Z.abs (k_features_randomized s) < 2 ^ 53 ->
       ceil_half (k_features_randomized s)
       = Qceiling (inject_Z (k_features_randomized s) / inject_Z 2)) /\
      iteration s w
      = match
          randomize_features_fn (best_x s)
            (Z.max min_features_randomized
               (ceil_half (k_features_randomized s))) w
        with
        | (inl e, w') => (inl e, w')
        | (inr x', w') =>
            (inr (Continue
                    {| x := x'; best_x := best_x s;
                       best_class_confidence := best_class_confidence s;
                       num_rejections := 0;
                       k_features_randomized :=
                         Z.max min_features_randomized
                           (ceil_half (k_features_randomized s)) |}), w')
        end) /\
  (1 <= min_features_randomized ->
   forall n s w s' w',
     reach n s w s' w' ->
     min_features_randomized <= k_features_randomized s ->
     min_features_randomized <= k_features_randomized s'
       <= k_features_randomized s) /\
  (1 <= min_features_randomized ->
   forall max_features_randomized x0 n w s' w',
     min_features_randomized <= max_features_randomized ->
     reach n (initial_state max_features_randomized x0) w s' w' ->
     min_features_randomized <= k_features_randomized s'
       <= max_features_randomized).
Proof.
  assert (1 <= min_features_randomized ->
          forall n s w s' w',
            reach n s w s' w' ->
            min_features_randomized <= k_features_randomized s ->
            min_features_randomized <= k_features_randomized s'
              <= k_features_randomized s) as Hmono.
  { intros Hmin n s w s' w' Hreach.
    induction Hreach as [|n s s1 s2 w w1 w2 Hstep _ IH]; [lia|].
    intros Hk.
    assert (min_features_randomized <= k_features_randomized s1
              <= k_features_randomized s) as Hk1; [|lia].
    apply iteration_Continue in Hstep
      as (c & _ & [(_ & _ & _ & _ & Heq)
                  |(_ & _ & _ & [(_ & _ & Heq)|(_ & _ & Heq)])]);
      rewrite Heq; try lia.
    pose proof (ceil_half_bounds (k_features_randomized s)). lia. }
  split; [|split; [exact Hmono|]].
  - intros s w c Hc Hworse Hcount. split; [apply ceil_half_exact|].
    rewrite iteration_unfold, Hc.
    apply Qle_bool_false_iff in Hworse. rewrite Hworse.
    destruct (Z.ltb_spec max_rejections (num_rejections s + 1)); [|lia].
    unfold next_candidate, bind, ret.
    by destruct (randomize_features_fn (best_x s) _ w) as [[e|x'] w'].
  - intros Hmin max_features_randomized x0 n w s' w' Hmax Hreach.
    by apply (Hmono Hmin _ _ _ _ _ Hreach).
Qed.

End SearchFacts.

(** ** Retries and the synthetic dataset *)

Section SynthesisFacts.

Context {world : Type}.
Variable rng_random : world -> Q * world.
Variable rng_integers : Z -> Z -> M world Z.
Variable input_shape : nat.

Local Abbreviation default_record :=
  (_default_random_record rng_random input_shape).
Local Abbreviation default_randomize :=
  (_default_randomize_features rng_random rng_integers input_shape).
Local Abbreviation search :=
  (_hill_climbing_synthesis rng_random rng_integers input_shape).

Lemma hill_climbing_synthesis_unfold (target_classifier : classifier)
    (wanted_class : nat) (min_confidence : Q)
    (max_features_randomized max_iterations max_rejections
       min_features_randomized : Z)
    (random_record_fn : option (M world record))
    (randomize_features_fn : option (option record -> Z -> M world record))
    (w0 : world) :
  search target_classifier wanted_class min_confidence
    max_features_randomized max_iterations max_rejections
    min_features_randomized random_record_fn randomize_features_fn w0
  = match default default_record random_record_fn w0 with
    | (inl e, w1) => (inl e, w1)
    | (inr x0, w1) =>
        hill_climbing_loop rng_random target_classifier wanted_class
          min_confidence max_rejections min_features_randomized
          (default default_randomize randomize_features_fn)
          (Z.to_nat max_iterations)
          (initial_state max_features_randomized x0) w1
    end.
Proof. reflexivity. Qed.

(** C8, as amended. With min_confidence = 0, the search returns the
    candidate of the first pass, within the iteration bound, whose
    confidence is at least the best so far, exceeds the threshold, is the
    arg-max, and is above the uniform draw made in that pass. *)
Theorem degenerate_threshold_returns (target_classifier : classifier)
    (wanted_class : nat)
    (max_features_randomized max_iterations max_rejections
       min_features_randomized : Z)
    (random_record_fn : option (M world record))
    (randomize_features_fn : option (option record -> Z -> M world record))
    (w0 w1 w : world) (x0 : record) (s : search_state) (n : nat) (c : Q) :
  default default_record random_record_fn w0 = (inr x0, w1) ->
  reaches rng_random target_classifier wanted_class 0%Q max_rejections
    min_features_randomized (default default_randomize randomize_features_fn)
    n (initial_state max_features_randomized x0) w1 s w ->
  (n < Z.to_nat max_iterations)%nat ->
  getitem (predict_record target_classifier (x s)) wanted_class = inr c ->
  (best_class_confidence s <= c)%Q ->
  (0 < c)%Q ->
  np_argmax (predict_record target_classifier (x s)) = wanted_class ->
  ((rng_random w).1 < c)%Q ->
  search target_classifier wanted_class 0%Q max_features_randomized
    max_iterations max_rejections min_features_randomized
    random_record_fn randomize_features_fn w0
  = (inr (x s), (rng_random w).2).
Proof.
  intros Hstart Hreach Hn Hc Hbest Hmin Harg Hdraw.
  rewrite hill_climbing_synthesis_unfold, Hstart.
  by eapply loop_returns_accepted.
Qed.

(** A search whose every pass went on to a next candidate raises. *)
Lemma search_exhausted (target_classifier : classifier)
    (wanted_class : nat) (min_confidence : Q)
    (max_features_randomized max_iterations max_rejections
       min_features_randomized : Z)
    (random_record_fn : option (M world record))
    (randomize_features_fn : option (option record -> Z -> M world record))
    (w0 w1 w : world) (x0 : record) (s : search_state) :
  default default_record random_record_fn w0 = (inr x0, w1) ->
  reaches rng_random target_classifier wanted_class min_confidence
    max_rejections min_features_randomized
    (default default_randomize randomize_features_fn)
    (Z.to_nat max_iterations) (initial_state max_features_randomized x0)
    w1 s w ->
  search target_classifier wanted_class min_confidence
    max_features_randomized max_iterations max_rejections
    min_features_randomized random_record_fn randomize_features_fn w0
  = (inl RuntimeError, w).
Proof.
  intros Hstart Hreach.
  rewrite hill_climbing_synthesis_unfold, Hstart.
  rewrite <- (Nat.add_0_r (Z.to_nat max_iterations)).
  by rewrite (loop_reaches _ _ _ _ _ _ _ _ _ _ _ _ _ Hreach).
Qed.

Section Retries.

Variable target_classifier : classifier.
Variable max_features_randomized : Z.
Variable min_confidence : Q.
Variable max_retries : Z.
Variable random_record_fn : option (M world record).
Variable randomize_features_fn :
  option (option record -> Z -> M world record).

Local Abbreviation attempt :=
  (synthesize rng_random rng_integers input_shape target_classifier
     max_features_randomized min_confidence random_record_fn
     randomize_features_fn).
Local Abbreviation retry :=
  (retry_loop rng_random rng_integers input_shape target_classifier
     max_features_randomized min_confidence max_retries random_record_fn
     randomize_features_fn).
Local Abbreviation records :=
  (records_loop rng_random rng_integers input_shape target_classifier
     max_features_randomized min_confidence max_retries random_record_fn
     randomize_features_fn).
Local Abbreviation classes :=
  (classes_loop rng_random rng_integers input_shape target_classifier
     max_features_randomized min_confidence max_retries random_record_fn
     randomize_features_fn).
Local Abbreviation failed :=
  (failed_attempts rng_random rng_integers input_shape target_classifier
     max_features_randomized min_confidence random_record_fn
     randomize_features_fn).
Local Abbreviation made_for :=
  (synthesized_for rng_random rng_integers input_shape target_classifier
     max_features_randomized min_confidence random_record_fn
     randomize_features_fn).

Lemma retry_cons (wanted_class : nat) (tries : Z) (later : list Z)
    (random_record : option record) (w : world) :
  retry wanted_class (tries :: later) random_record w =
  match attempt wanted_class w with
  | (inr r, w') => (inr (Some r), w')
  | (inl RuntimeError, w') =>
      if tries =? max_retries - 1 then (inl RuntimeError, w')
      else retry wanted_class later random_record w'
  | (inl e, w') => (inl e, w')
  end.
Proof.
  cbn [retry_loop]. unfold try_except_RuntimeError, bind, ret, raise.
  destruct (attempt wanted_class w) as [[e|r] w']; [|done].
  destruct e; try done. by destruct (tries =? max_retries - 1).
Qed.

(** After fewer failures than [max_retries] the loop is still trying. *)
Lemma retry_after_failures (wanted_class : nat) (n : nat)
    (random_record : option record) (w w' : world) :
  failed wanted_class n w w' ->
  forall start, 0 <= start -> start + Z.of_nat n < max_retries ->
    retry wanted_class (seqZ start (max_retries - start)) random_record w
    = retry wanted_class
        (seqZ (start + Z.of_nat n) (max_retries - start - Z.of_nat n))
        random_record w'.
Proof.
  induction 1 as [w|n w w1 w2 Hfail _ IH]; intros start Hstart Hn.
  - by rewrite Z.add_0_r, Z.sub_0_r.
  - rewrite seqZ_cons by lia. rewrite retry_cons, Hfail.
    destruct (Z.eqb_spec start (max_retries - 1)) as [Heq|_]; [lia|].
    replace (Z.pred (max_retries - start))
      with (max_retries - Z.succ start) by lia.
    rewrite IH by lia. f_equal. f_equal; lia.
Qed.

(** The failure of the last try allowed is the failure of the loop. *)
Lemma retry_exhausted (wanted_class : nat) (n : nat)
    (random_record : option record) (w w' : world) :
  failed wanted_class n w w' ->
  forall start, (1 <= n)%nat -> start + Z.of_nat n = max_retries ->
    retry wanted_class (seqZ start (Z.of_nat n)) random_record w
    = (inl RuntimeError, w').
Proof.
  induction 1 as [w|n w w1 w2 Hfail Hrest IH]; intros start Hn Hsum; [lia|].
  rewrite seqZ_cons by lia. rewrite retry_cons, Hfail.
  destruct (Z.eqb_spec start (max_retries - 1)) as [Heq|Hne].
  - assert (n = 0)%nat as -> by lia. by inversion Hrest.
  - replace (Z.pred (Z.of_nat (S n))) with (Z.of_nat n) by lia.
    apply IH; lia.
Qed.


Lemma records_cons (wanted_class : nat) (label : list Q) (remaining : nat)
    (x : list record) (y : list (list Q)) (random_record : option record)
    (w : world) :
  records wanted_class label (S remaining) x y random_record w =
  match retry wanted_class (seqZ 0 max_retries) random_record w with
  | (inl e, w') => (inl e, w')
  | (inr None, w') => (inl UnboundLocalError, w')
  | (inr (Some r), w') =>
      records wanted_class label remaining (x ++ [r]) (y ++ [label])
        (Some r) w'
  end.
Proof.
  cbn [records_loop]. unfold bind at 1.
  destruct (retry wanted_class (seqZ 0 max_retries) random_record w)
    as [[e|[r|]] w']; done.
Qed.

(** What the retry loop hands back when it does not raise: a record
    the search has just returned, or, if the loop had no try to make,
    the former value of [random_record]. *)
Lemma retry_result (wanted_class : nat) (random_record : option record)
    (len : nat) :
  forall start w o w',
    retry wanted_class (seqZ start (Z.of_nat len)) random_record w
      = (inr o, w') ->
    start + Z.of_nat len = max_retries ->
    (len = 0%nat /\ o = random_record /\ w' = w) \/
    (exists r, o = Some r /\ made_for wanted_class r).
Proof.
  induction len as [|len IH]; intros start w o w' Hrun Hsum.
  - left. cbn in Hrun. by injection Hrun as <- <-.
  - right. rewrite seqZ_cons in Hrun by lia.
    rewrite retry_cons in Hrun.
    destruct (attempt wanted_class w) as [[e|r] w1] eqn:Hattempt.
    + destruct e; try done.
      destruct (Z.eqb_spec start (max_retries - 1)) as [_|Hne]; [done|].
      replace (Z.pred (Z.of_nat (S len))) with (Z.of_nat len) in Hrun by lia.
      apply IH in Hrun as [(-> & _)|Hmade]; [lia|done|lia].
    + injection Hrun as <- <-. exists r. split; [done|]. by exists w, w1.
Qed.

Lemma records_result (wanted_class : nat) (label : list Q)
    (remaining : nat) :
  forall x y random_record w x' y' random_record' w',
    (max_retries <= 0 -> random_record = None) ->
    records wanted_class label remaining x y random_record w
      = (inr (x', y', random_record'), w') ->
    (max_retries <= 0 -> random_record' = None) /\
    exists made,
      x' = x ++ made /\ y' = y ++ replicate remaining label /\
      length made = remaining /\ Forall (made_for wanted_class) made.
Proof.
  induction remaining as [|remaining IH];
    intros x y rr w x' y' rr' w' Hinv Hrun.
  - cbn in Hrun. injection Hrun as <- <- <- <-. split; [done|].
    exists []. by rewrite !app_nil_r.
  - rewrite records_cons in Hrun.
    destruct (retry wanted_class (seqZ 0 max_retries) rr w)
      as [[e|[r|]] w1] eqn:Hretry; try done.
    assert (made_for wanted_class r /\ 0 < max_retries) as [Hmade Hpos].
    { destruct (Z.le_gt_cases max_retries 0) as [Hle|Hgt].
      - rewrite seqZ_nil in Hretry by done. cbn in Hretry.
        rewrite Hinv in Hretry by done. done.
      - replace (seqZ 0 max_retries)
          with (seqZ 0 (Z.of_nat (Z.to_nat max_retries))) in Hretry
          by (by rewrite Z2Nat.id by lia).
        apply retry_result in Hretry as [(Hlen & _)|(r' & [= <-] & Hmade)];
          [lia|done|lia]. }
    apply IH in Hrun as (Hinv' & made & -> & -> & Hlen & Hall); [|lia].
    split; [done|]. exists (r :: made).
    rewrite <- !app_assoc. cbn [app replicate length].
    split; [done|]. split; [done|]. split; [by rewrite Hlen|].
    by constructor.
Qed.

Lemma classes_result (records_per_class : Z) (class_list : list nat) :
  forall x y random_record w x' y' w',
    (max_retries <= 0 -> random_record = None) ->
    classes records_per_class class_list x y random_record w
      = (inr (x', y'), w') ->
    exists per_class,
      x' = x ++ mjoin per_class /\
      y' = y ++ mjoin ((fun c => replicate (Z.to_nat records_per_class)
                                 (one_hot (nb_classes target_classifier) c))
                        <$> class_list) /\
      Forall2 (fun c made => length made = Z.to_nat records_per_class /\
                             Forall (made_for c) made)
        class_list per_class.
Proof.
  induction class_list as [|c class_list IH];
    intros x y rr w x' y' w' Hinv Hrun.
  - cbn in Hrun. injection Hrun as <- <- <-.
    exists []. by rewrite !app_nil_r.
  - cbn [classes_loop] in Hrun. unfold bind at 1 in Hrun.
    destruct (records c (one_hot (nb_classes target_classifier) c)
                (Z.to_nat records_per_class) x y rr w)
      as [[e|[[x1 y1] rr1]] w1] eqn:Hrecords; [done|].
    apply records_result in Hrecords
      as (Hinv1 & made & -> & -> & Hlen & Hall); [|done].
    apply IH in Hrun as (per_class & -> & -> & Hper); [|done].
    exists (made :: per_class).
    rewrite fmap_cons.
    change (mjoin (made :: per_class)) with (made ++ mjoin per_class).
    match goal with
    | |- context [mjoin (?a :: ?l)] =>
        change (mjoin (a :: l)) with (a ++ mjoin l)
    end.
    rewrite <- !app_assoc. split; [done|]. split; [done|].
    by constructor.
Qed.


Lemma records_fail (wanted_class : nat) (label : list Q)
    (remaining : nat) (x : list record) (y : list (list Q))
    (random_record : option record) (w w' : world) :
  1 <= max_retries ->
  failed wanted_class (Z.to_nat max_retries) w w' ->
  records wanted_class label (S remaining) x y random_record w
  = (inl RuntimeError, w').
Proof.
  intros Hpos Hfailed. rewrite records_cons.
  replace (seqZ 0 max_retries)
    with (seqZ 0 (Z.of_nat (Z.to_nat max_retries)))
    by (by rewrite Z2Nat.id by lia).
  by rewrite (retry_exhausted _ _ _ _ _ Hfailed) by lia.
Qed.

Lemma records_succeed_after (wanted_class : nat) (label : list Q)
    (remaining : nat) (x : list record) (y : list (list Q))
    (random_record : option record) (n : nat) (w w' w'' : world)
    (r : record) :
  failed wanted_class n w w' ->
  Z.of_nat n < max_retries ->
  attempt wanted_class w' = (inr r, w'') ->
  records wanted_class label (S remaining) x y random_record w
  = records wanted_class label remaining (x ++ [r]) (y ++ [label])
      (Some r) w''.
Proof.
  intros Hfailed Hn Hattempt. rewrite records_cons.
  replace (seqZ 0 max_retries) with (seqZ 0 (max_retries - 0))
    by (f_equal; lia).
  rewrite (retry_after_failures _ _ _ _ _ Hfailed) by lia.
  rewrite seqZ_cons by lia. by rewrite retry_cons, Hattempt.
Qed.

Lemma per_class_length {A B : Type} (P : A -> list B -> Prop) (k : nat)
    (class_list : list A) (per_class : list (list B)) :
  Forall2 (fun c made => length made = k /\ P c made) class_list per_class ->
  length (mjoin per_class) = (length class_list * k)%nat.
Proof.
  induction 1 as [|c made class_list per_class [Hlen _] _ IH]; [done|].
  change (mjoin (made :: per_class)) with (made ++ mjoin per_class).
  rewrite length_app, IH, Hlen. cbn [length]. lia.
Qed.

Lemma labels_length {A B : Type} (label : A -> B) (k : nat)
    (class_list : list A) :
  length (mjoin ((fun c => replicate k (label c)) <$> class_list))
  = (length class_list * k)%nat.
Proof.
  induction class_list as [|c class_list IH]; [done|].
  rewrite fmap_cons.
  match goal with
  | |- context [mjoin (?a :: ?l)] =>
      change (mjoin (a :: l)) with (a ++ mjoin l)
  end.
  rewrite length_app, IH, length_replicate. cbn [length]. lia.
Qed.

Local Abbreviation dataset :=
  (synthesize_dataset rng_random rng_integers input_shape target_classifier
     max_features_randomized min_confidence max_retries random_record_fn
     randomize_features_fn).

Lemma dataset_result (dataset_size : Z) (w w' : world)
    (xs : list record) (ys : list (list Q)) :
  dataset dataset_size w = (inr (xs, ys), w') ->
  let nb := nb_classes target_classifier in
  let per := Z.to_nat (dataset_size / nb) in
  nb <> 0 /\
  exists per_class,
    xs = mjoin per_class /\
    ys = mjoin ((fun c => replicate per (one_hot nb c))
                  <$> seq 0 (Z.to_nat nb)) /\
    Forall2 (fun c made => length made = per /\ Forall (made_for c) made)
      (seq 0 (Z.to_nat nb)) per_class.
Proof.
  intros Hrun nb per. unfold synthesize_dataset in Hrun.
  destruct (Z.eqb_spec (nb_classes target_classifier) 0) as [|Hnb];
    [done|].
  split; [done|].
  apply classes_result in Hrun as (per_class & -> & -> & Hper); [|done].
  by exists per_class.
Qed.

Lemma dataset_lockstep (dataset_size : Z) (w w' : world)
    (xs : list record) (ys : list (list Q)) :
  dataset dataset_size w = (inr (xs, ys), w') ->
  length xs
  = (Z.to_nat (nb_classes target_classifier)
     * Z.to_nat (dataset_size / nb_classes target_classifier))%nat /\
  length ys = length xs.
Proof.
  intros Hrun.
  apply dataset_result in Hrun as (Hnb & per_class & -> & -> & Hper).
  rewrite (per_class_length _ _ _ _ Hper), labels_length.
  by rewrite length_seq.
Qed.

Lemma dataset_first_record_fails (dataset_size : Z) (w w' : world) :
  1 <= max_retries ->
  1 <= nb_classes target_classifier ->
  nb_classes target_classifier <= dataset_size ->
  failed 0%nat (Z.to_nat max_retries) w w' ->
  dataset dataset_size w = (inl RuntimeError, w').
Proof.
  intros Hretries Hnb Hsize Hfailed. unfold synthesize_dataset.
  destruct (Z.eqb_spec (nb_classes target_classifier) 0) as [|_]; [lia|].
  assert (1 <= dataset_size / nb_classes target_classifier) as Hper
    by (apply Z.div_le_lower_bound; lia).
  destruct (Z.to_nat (nb_classes target_classifier)) as [|nb] eqn:Hn; [lia|].
  destruct (Z.to_nat (dataset_size / nb_classes target_classifier))
    as [|per] eqn:Hp; [lia|].
  cbn [seq classes_loop]. unfold bind at 1. rewrite Hp.
  by rewrite (records_fail _ _ _ _ _ _ _ _ Hretries Hfailed).
Qed.

(** C6. When the synthesis of the dataset goes through, there is one
    group of records per class c of range(nb_classes), in class order;
    each group was returned by searches for class c and has
    dataset_size // nb_classes records (the remainder is dropped), and
    each of its records is paired with the one-hot vector of c. With
    nb_classes = 2 and dataset_size = 5 that is 4 records, 2 per
    class. *)
Theorem synthetic_records_per_class (dataset_size : Z) (w w' : world)
    (xs : list record) (ys : list (list Q)) :
  dataset dataset_size w = (inr (xs, ys), w') ->
  let nb := nb_classes target_classifier in
  let per := Z.to_nat (dataset_size / nb) in
  exists per_class,
    xs = mjoin per_class /\
    ys = mjoin ((fun c => replicate per (one_hot nb c))
                  <$> seq 0 (Z.to_nat nb)) /\
    Forall2 (fun c made => length made = per /\ Forall (made_for c) made)
      (seq 0 (Z.to_nat nb)) per_class /\
    length xs = (Z.to_nat nb * per)%nat /\
    length ys = length xs /\
    (0 <= dataset_size ->
     forall made, made ∈ per_class ->
       Z.of_nat (length made) = dataset_size / nb) /\
    (nb = 2 -> dataset_size = 5 ->
     length xs = 4%nat /\
     exists made0 made1,
       per_class = [made0; made1] /\
       length made0 = 2%nat /\ length made1 = 2%nat).
Proof.
  intros Hrun nb per.
  apply dataset_result in Hrun as (Hnb & per_class & -> & -> & Hper).
  fold nb per in Hper |- *. exists per_class.
  do 3 (split; [done|]).
  assert (length (mjoin per_class) = (Z.to_nat nb * per)%nat) as Hlen.
  { rewrite (per_class_length _ _ _ _ Hper). by rewrite length_seq. }
  split; [exact Hlen|].
  split; [by rewrite Hlen, labels_length, length_seq|].
  split.
  - intros Hsize made Hin.
    apply list_elem_of_lookup_1 in Hin as [i Hi].
    destruct (Forall2_lookup_r _ _ _ _ _ Hper Hi) as (c & Hc & Hmade & _).
    apply lookup_seq in Hc as [_ Hc]. rewrite Hmade. unfold per.
    apply Z2Nat.id. apply Z.div_pos; lia.
  - intros Hnb2 Hsize. rewrite Hlen. unfold per. rewrite Hnb2, Hsize.
    split; [done|]. unfold per in Hper. rewrite Hnb2, Hsize in Hper.
    change (Z.to_nat (5 / 2)) with 2%nat in Hper.
    change (seq 0 (Z.to_nat 2)) with [0; 1]%nat in Hper.
    apply Forall2_cons_inv_l in Hper as (made0 & rest & [H0 _] & Hper & ->).
    apply Forall2_cons_inv_l in Hper as (made1 & rest' & [H1 _] & Hper & ->).
    apply Forall2_nil_inv_l in Hper as ->. by exists made0, made1.
Qed.

End Retries.
End SynthesisFacts.

(** ** The synthetic path into the pool *)

Section SyntheticFacts.

Context {P model world : Type}.
Variable fit : model -> list record -> list (list Q) -> model.
Variable predict : model -> list record -> list P.
Variable x_astype_float32 : record -> record.
Variable y_astype_float32 : list Q -> list Q.
Variable np_random_permutation : nat -> world -> list nat * world.
Variable rng_random : world -> Q * world.
Variable rng_integers : Z -> Z -> M world Z.

Local Abbreviation pool := (@ShadowModels record (list Q) model).
Local Abbreviation generate :=
  (generate_shadow_dataset fit predict x_astype_float32 y_astype_float32
     np_random_permutation).
Local Abbreviation generate_synthetic :=
  (generate_synthetic_shadow_dataset fit predict x_astype_float32
     y_astype_float32 np_random_permutation rng_random rng_integers).

Lemma train_all_error (x : list record) (y : list (list Q)) (member_ratio : Q)
    (size : nat) (todo : list (nat * model)) :
  forall acc (st st' : pool * world) e,
    train_all fit predict x y member_ratio size todo acc st = (inl e, st') ->
    e = IndexError.
Proof.
  induction todo as [|[i m] todo IH]; intros acc [self w] st' e Hrun;
    [done|].
  cbn [train_all] in Hrun. unfold bind at 1 in Hrun.
  unfold train_one in Hrun. unfold bind at 1 in Hrun.
  unfold store_train_set, setitem in Hrun.
  destruct (decide (i < length (_shadow_models_train_sets self))%nat);
    [|by injection Hrun as <- _].
  unfold bind at 1 in Hrun. unfold fit_in_place, ret at 1 in Hrun.
  by apply IH in Hrun.
Qed.

Lemma reduce_error {A : Type} (f : A -> A -> A) (l : list A) (e : exn) :
  reduce f l = inl e -> e = TypeError.
Proof. destruct l; [by intros [= <-]|done]. Qed.

Lemma take_rows_error {A : Type} (l : list A) (idx : list nat) (e : exn) :
  take_rows l idx = inl e -> e = IndexError.
Proof.
  unfold take_rows. by destruct (mapM _ idx); [|intros [= <-]].
Qed.

(** With as many labels as samples, whatever [generate_shadow_dataset]
    raises is not the validation error. *)
Lemma generate_error_kind (x : list record) (y : list (list Q))
    (member_ratio : Q) (st st' : pool * world) (e : exn) :
  length x = length y ->
  generate x y member_ratio st = (inl e, st') ->
  e <> ValueError.
Proof.
  intros Hlen. destruct st as [self w]. unfold generate_shadow_dataset.
  rewrite Hlen, Nat.eqb_refl. cbn [negb].
  destruct (np_random_permutation (length y) w) as [idx w1].
  destruct (take_rows x idx) as [e1|xs] eqn:Hxs.
  { apply take_rows_error in Hxs as ->.
    destruct (take_rows y idx); by intros [= <- _]. }
  destruct (take_rows y idx) as [e1|ys] eqn:Hys.
  { apply take_rows_error in Hys as ->. by intros [= <- _]. }
  destruct (length (_shadow_models self) =? 0)%nat; [by intros [= <- _]|].
  unfold bind at 1.
  destruct (train_all _ _ _ _ _ _ _ _ _) as [[e1|acc] st1] eqn:Htrain.
  { apply train_all_error in Htrain as ->. by intros [= <- _]. }
  repeat (unfold bind at 1; unfold lift_result at 1;
          match goal with
          | |- context [reduce ?f ?l] =>
              let He := fresh in
              destruct (reduce f l) eqn:He;
              [apply reduce_error in He as ->; by intros [= <- _]|]
          end).
  done.
Qed.

Section Call.

Variable target_classifier : classifier.
Variable dataset_size max_features_randomized : Z.
Variable member_ratio min_confidence : Q.
Variable max_retries : Z.
Variable random_record_fn : option (M world record).
Variable randomize_features_fn :
  option (option record -> Z -> M world record).

Local Abbreviation dataset shape :=
  (synthesize_dataset rng_random rng_integers shape target_classifier
     max_features_randomized min_confidence max_retries random_record_fn
     randomize_features_fn dataset_size).
Local Abbreviation synthetic_call :=
  (generate_synthetic target_classifier dataset_size
     max_features_randomized member_ratio min_confidence max_retries
     random_record_fn randomize_features_fn).

Lemma generate_synthetic_unfold (self : pool) (w : world) :
  synthetic_call (self, w) =
  match dataset (_input_shape self) w with
  | (inl e, w') => (inl e, (self, w'))
  | (inr xy, w') => generate xy.1 xy.2 member_ratio (self, w')
  end.
Proof.
  unfold generate_synthetic_shadow_dataset, bind, self_input_shape, on_world.
  by destruct (dataset (_input_shape self) w) as [[e|xy] w'].
Qed.

(** C9. The synthetic samples and labels are built in lockstep: when
    the synthesis goes through there are as many labels as records, so
    the call of [generate_shadow_dataset] that follows never takes the
    validation branch; a [ValueError] out of
    [generate_synthetic_shadow_dataset] can only have been raised
    during the synthesis, by a callback or by the generator. *)
Theorem synthetic_dataset_passes_validation (self : pool) (w : world) :
  (forall xs ys w',
      dataset (_input_shape self) w = (inr (xs, ys), w') ->
      length xs = length ys /\
      forall st', generate xs ys member_ratio (self, w')
                  <> (inl ValueError, st')) /\
  (forall st',
      synthetic_call (self, w) = (inl ValueError, st') ->
      exists w', dataset (_input_shape self) w = (inl ValueError, w')).
Proof.
  assert (forall xs ys w',
             dataset (_input_shape self) w = (inr (xs, ys), w') ->
             length xs = length ys) as Hlockstep.
  { intros xs ys w' Hrun.
    by apply dataset_lockstep in Hrun as [_ ->]. }
  split.
  - intros xs ys w' Hrun. split; [by eapply Hlockstep|].
    intros st' Hgen.
    by eapply generate_error_kind in Hgen; [|by eapply Hlockstep].
  - intros st'. rewrite generate_synthetic_unfold.
    destruct (dataset (_input_shape self) w) as [[e|[xs ys]] w'] eqn:Hrun.
    + intros [= -> _]. by exists w'.
    + intros Hgen. cbn [fst snd] in Hgen.
      by eapply generate_error_kind in Hgen; [|by eapply Hlockstep].
Qed.


(** C2, as amended. A search whose max_iterations passes all went on to a
    next candidate raises [RuntimeError], which is not the validation
    error. For each record the search is tried at most max_retries times
    in all, the first try and max_retries - 1 retries: a try that
    succeeds after fewer than max_retries failures supplies the record,
    and for max_retries >= 1 the max_retries-th failure in a row is
    raised out of the loop and reaches the caller of
    [generate_synthetic_shadow_dataset]. *)
Theorem synthesis_failure_and_retries :
  (forall shape wanted_class max_iterations max_rejections
          min_features_randomized w0 w1 w x0 s,
      default (_default_random_record rng_random shape) random_record_fn w0
        = (inr x0, w1) ->
      reaches rng_random target_classifier wanted_class min_confidence
        max_rejections min_features_randomized
        (default (_default_randomize_features rng_random rng_integers shape)
           randomize_features_fn)
        (Z.to_nat max_iterations)
        (initial_state max_features_randomized x0) w1 s w ->
      _hill_climbing_synthesis rng_random rng_integers shape
        target_classifier wanted_class min_confidence
        max_features_randomized max_iterations max_rejections
        min_features_randomized random_record_fn randomize_features_fn w0
      = (inl RuntimeError, w)) /\
  RuntimeError <> ValueError /\
  (forall shape wanted_class label remaining x y random_record n w w' w'' r,
      failed_attempts rng_random rng_integers shape target_classifier
        max_features_randomized min_confidence random_record_fn
        randomize_features_fn wanted_class n w w' ->
      Z.of_nat n < max_retries ->
      synthesize rng_random rng_integers shape target_classifier
        max_features_randomized min_confidence random_record_fn
        randomize_features_fn wanted_class w' = (inr r, w'') ->
      records_loop rng_random rng_integers shape target_classifier
        max_features_randomized min_confidence max_retries
        random_record_fn randomize_features_fn wanted_class label
        (S remaining) x y random_record w
      = records_loop rng_random rng_integers shape target_classifier
          max_features_randomized min_confidence max_retries
          random_record_fn randomize_features_fn wanted_class label
          remaining (x ++ [r]) (y ++ [label]) (Some r) w'') /\
  (1 <= max_retries ->
   forall shape wanted_class label remaining x y random_record w w',
      failed_attempts rng_random rng_integers shape target_classifier
        max_features_randomized min_confidence random_record_fn
        randomize_features_fn wanted_class (Z.to_nat max_retries) w w' ->
      records_loop rng_random rng_integers shape target_classifier
        max_features_randomized min_confidence max_retries
        random_record_fn randomize_features_fn wanted_class label
        (S remaining) x y random_record w
      = (inl RuntimeError, w')) /\
  (1 <= max_retries ->
   1 <= nb_classes target_classifier ->
   nb_classes target_classifier <= dataset_size ->
   forall (self : pool) w w',
      failed_attempts rng_random rng_integers (_input_shape self)
        target_classifier max_features_randomized min_confidence
        random_record_fn randomize_features_fn 0%nat
        (Z.to_nat max_retries) w w' ->
      synthetic_call (self, w) = (inl RuntimeError, (self, w'))).
Proof.
  split; [|split; [done|split; [|split]]].
  - intros. by eapply search_exhausted.
  - intros. by eapply records_succeed_after.
  - intros. by eapply records_fail.
  - intros Hretries Hnb Hsize self w w' Hfailed.
    rewrite generate_synthetic_unfold.
    by erewrite dataset_first_record_fails.
Qed.

End Call.
End SyntheticFacts.

(** ** What the randomizing callback is handed *)

Section SpyFacts.

Context {world : Type}.
Variable rng_random : world -> Q * world.
Variable rng_integers : Z -> Z -> M world Z.
Variable input_shape : nat.
Variable target_classifier : classifier.
Variable wanted_class : nat.
Variable min_confidence : Q.
Variable max_rejections min_features_randomized : Z.
Variable randomize_features_fn : option record -> Z -> M world record.

Local Abbreviation spy_loop :=
  (hill_climbing_loop (unobserved_draw rng_random) target_classifier
     wanted_class min_confidence max_rejections min_features_randomized
     (spied randomize_features_fn)).
Local Abbreviation scores s := (predict_record target_classifier (x s)).
Local Abbreviation go_on n :=
  (fun o : step_outcome =>
     match o with
     | Return r => ret r
     | Continue s' => spy_loop n s'
     end).

Lemma spied_candidate (arg : option record) (bc : Q) (nr k : Z) (w : world)
    (seen : list (option record)) :
  next_candidate (spied randomize_features_fn) arg bc nr k (w, seen) =
  match randomize_features_fn arg k w with
  | (inl e, w') => (inl e, (w', seen ++ [arg]))
  | (inr x', w') =>
      (inr (Continue {| x := x'; best_x := arg; best_class_confidence := bc;
                        num_rejections := nr; k_features_randomized := k |}),
       (w', seen ++ [arg]))
  end.
Proof.
  unfold next_candidate, bind, spied, ret.
  by destruct (randomize_features_fn arg k w) as [[e|x'] w'].
Qed.

Lemma unobserved_draw_fst (w : world) (seen : list (option record)) :
  (unobserved_draw rng_random (w, seen)).1 = (rng_random w).1.
Proof. unfold unobserved_draw. by destruct (rng_random w). Qed.

Lemma unobserved_draw_snd (w : world) (seen : list (option record)) :
  (unobserved_draw rng_random (w, seen)).2 = ((rng_random w).2, seen).
Proof. unfold unobserved_draw. by destruct (rng_random w). Qed.

(** The log of a search: it only grows; it holds records only, once there
    is a best record or the candidate at hand is about to become one; and
    it starts with [None] when the first pass rejects its candidate with
    no best record yet. *)
Lemma spy_loop_log (n : nat) :
  forall s w seen,
  exists rest,
    (spy_loop n s (w, seen)).2.2 = seen ++ rest /\
    ((is_Some (best_x s) \/
      exists c, getitem (scores s) wanted_class = inr c /\
                (best_class_confidence s <= c)%Q) ->
     Forall is_Some rest) /\
    (best_x s = None ->
     (exists c, getitem (scores s) wanted_class = inr c /\
                (c < best_class_confidence s)%Q) ->
     (1 <= n)%nat ->
     exists rest', rest = None :: rest').
Proof.
  induction n as [|n IH]; intros s w seen.
  { exists []. rewrite app_nil_r. split; [done|]. split; [done|lia]. }
  cbn [hill_climbing_loop]. unfold bind at 1. rewrite iteration_unfold.
  destruct (getitem (scores s) wanted_class) as [e|c] eqn:Hc.
  { exists []. rewrite app_nil_r. split; [done|]. split; [done|].
    by intros _ (c & [=] & _). }
  assert (forall nr k w1,
             exists rest,
               (bind (next_candidate (spied randomize_features_fn)
                        (Some (x s)) c nr k) (go_on n)
                  (w1, seen)).2.2 = seen ++ rest
               /\ Forall is_Some rest) as Hbetter.
  { intros nr k w1. unfold bind. rewrite spied_candidate.
    destruct (randomize_features_fn (Some (x s)) k w1) as [[e|x'] w2].
    - exists [Some (x s)]. split; [done|]. by repeat constructor.
    - destruct (IH {| x := x'; best_x := Some (x s);
                      best_class_confidence := c; num_rejections := nr;
                      k_features_randomized := k |} w2 (seen ++ [Some (x s)]))
        as (rest & Hlog & Hsome & _).
      exists (Some (x s) :: rest). rewrite Hlog, <- app_assoc.
      split; [done|]. constructor; [done|]. apply Hsome. by left. }
  destruct (Qle_bool (best_class_confidence s) c) eqn:Hle.
  - (* the candidate becomes the best record *)
    assert (forall P : Prop,
               (exists c', @inr exn Q c = inr c'
                           /\ (c' < best_class_confidence s)%Q)
               -> P) as Hnot_worse.
    { intros P0 (c' & [= <-] & Hlt). apply Qle_bool_iff in Hle.
      by apply Qlt_not_le in Hlt. }
    destruct (Qlt_bool min_confidence c
              && (np_argmax (scores s) =? wanted_class)%nat).
    + rewrite unobserved_draw_fst, unobserved_draw_snd.
      destruct (Qlt_bool (rng_random w).1 c).
      * exists []. rewrite app_nil_r. split; [done|]. split; [done|].
        intros _ Hworse. by apply Hnot_worse.
      * destruct (Hbetter 0 (k_features_randomized s) (rng_random w).2)
          as (rest & Hlog & Hsome).
        exists rest. split; [exact Hlog|]. split; [done|].
        intros _ Hworse. by apply Hnot_worse.
    + destruct (Hbetter 0 (k_features_randomized s) w)
        as (rest & Hlog & Hsome).
      exists rest. split; [exact Hlog|]. split; [done|].
      intros _ Hworse. by apply Hnot_worse.
  - (* the candidate is rejected *)
    apply Qle_bool_false_iff in Hle.
    assert (forall nr k,
               exists rest,
                 (bind (next_candidate (spied randomize_features_fn)
                          (best_x s) (best_class_confidence s) nr k)
                    (go_on n) (w, seen)).2.2 = seen ++ best_x s :: rest /\
                 (is_Some (best_x s) -> Forall is_Some rest)) as Hworse.
    { intros nr k. unfold bind. rewrite spied_candidate.
      destruct (randomize_features_fn (best_x s) k w) as [[e|x'] w2].
      - by exists [].
      - destruct (IH {| x := x'; best_x := best_x s;
                        best_class_confidence := best_class_confidence s;
                        num_rejections := nr; k_features_randomized := k |}
                    w2 (seen ++ [best_x s]))
          as (rest & Hlog & Hsome & _).
        exists rest. rewrite Hlog, <- app_assoc. split; [done|].
        intros Hbest. apply Hsome. by left. }
    destruct (Hworse
                (if max_rejections <? num_rejections s + 1
                 then 0 else num_rejections s + 1)
                (if max_rejections <? num_rejections s + 1
                 then Z.max min_features_randomized
                        (ceil_half (k_features_randomized s))
                 else k_features_randomized s))
      as (rest & Hlog & Hsome).
    exists (best_x s :: rest).
    split; [by destruct (max_rejections <? num_rejections s + 1)|]. split.
    + intros [Hbest|(c' & [= <-] & Hbetter')].
      * constructor; [done|]. by apply Hsome.
      * by apply Qlt_not_le in Hle.
    + intros -> _ _. by exists rest.
Qed.


(** C10. The search starts with no best record and best confidence 0.
    If the first prediction gives the wanted class a non-negative
    confidence, every record handed to [randomize_features_fn] during the
    search is a record, never [None]. If it gives a negative one (and
    the loop runs at all), the first thing [randomize_features_fn] is
    handed is [None], and the default callback then raises. *)
Theorem randomize_argument_and_first_score
    (max_features_randomized max_iterations : Z)
    (random_record_fn : M world record) (w0 w1 : world) (x0 : record)
    (c0 : Q) :
  random_record_fn w0 = (inr x0, w1) ->
  getitem (predict_record target_classifier x0) wanted_class = inr c0 ->
  let handed :=
    (_hill_climbing_synthesis (unobserved_draw rng_random)
       (fun low high => unobserved (rng_integers low high)) input_shape
       target_classifier wanted_class min_confidence
       max_features_randomized max_iterations max_rejections
       min_features_randomized (Some (unobserved random_record_fn))
       (Some (spied randomize_features_fn)) (w0, [])).2.2 in
  best_x (initial_state max_features_randomized x0) = None /\
  best_class_confidence (initial_state max_features_randomized x0) = 0%Q /\
  ((0 <= c0)%Q -> Forall is_Some handed) /\
  ((c0 < 0)%Q -> 1 <= max_iterations ->
   exists rest, handed = None :: rest) /\
  ((c0 < 0)%Q -> 1 <= max_iterations ->
   _hill_climbing_synthesis rng_random rng_integers input_shape
     target_classifier wanted_class min_confidence max_features_randomized
     max_iterations max_rejections min_features_randomized
     (Some random_record_fn) None w0
   = (inl AttributeError, w1)).
Proof.
  intros Hstart Hc0 handed. do 2 (split; [done|]).
  assert (handed
          = (spy_loop (Z.to_nat max_iterations)
               (initial_state max_features_randomized x0) (w1, [])).2.2)
    as Hhanded.
  { unfold handed. rewrite hill_climbing_synthesis_unfold.
    cbn [from_option id]. unfold unobserved at 1. by rewrite Hstart. }
  destruct (spy_loop_log (Z.to_nat max_iterations)
              (initial_state max_features_randomized x0) w1 [])
    as (rest & Hlog & Hsome & Hnone).
  rewrite Hhanded, Hlog. cbn [app]. split; [|split].
  - intros Hpos. apply Hsome. right. by exists c0.
  - intros Hneg Hiter. apply Hnone; [done| |lia]. by exists c0.
  - intros Hneg Hiter. rewrite hill_climbing_synthesis_unfold.
    cbn [from_option id]. rewrite Hstart.
    destruct (Z.to_nat max_iterations) as [|n] eqn:Hn; [lia|].
    cbn [hill_climbing_loop]. unfold bind at 1.
    rewrite iteration_unfold. unfold initial_state.
    cbn [x best_class_confidence best_x num_rejections k_features_randomized].
    rewrite Hc0.
    apply Qle_bool_false_iff in Hneg. rewrite Hneg.
    by destruct (max_rejections <? 0 + 1).
Qed.

End SpyFacts.

(** ** The statements on the concrete scenarios *)

Section Instances.

Import Scenario.
Local Open Scope Q_scope.

Lemma reversal_spec {W : Type} (n : nat) (w : W) :
  Permutation (reversal n w).1 (seq 0 n).
Proof. symmetry. apply Permutation_rev. Qed.

(** Two models, ten samples, half of each block for training: four
    member and six nonmember samples. *)
Lemma generate_shadow_dataset_total_count_witness :
  exists members nonmembers self' w',
    generate_shadow_dataset fit predict id id reversal
      (seq 0 10) (seq 100 10) (1 # 2) (new_pool 2, tt)
    = (inr (members, nonmembers), (self', w')) /\
    (length (samples members) + length (samples nonmembers)
     = 2 * (10 / 2))%nat.
Proof.
  apply (generate_shadow_dataset_total_count fit predict id id reversal
           reversal_spec (new_pool 2) tt (seq 0 10) (seq 100 10) (1 # 2)).
  - reflexivity.
  - vm_compute. lia.
  - reflexivity.
Defined.

(** Two models, ten samples, a member ratio of 1/2: int(0.5 * 5) = 2
    samples in each stored training set. *)
Lemma train_sets_after_generation_witness :
  get_shadow_models_train_sets (new_pool 2) = [None; None] /\
  cut_of (1 # 2) 5 = 2%Z /\
  exists result self' w',
    generate_shadow_dataset fit predict id id reversal
      (seq 0 10) (seq 100 10) (1 # 2) (new_pool 2, tt)
    = (inr result, (self', w')) /\
    length (get_shadow_models_train_sets self') = 2%nat /\
    forall i, (i < 2)%nat ->
      exists x_train y_train,
        get_shadow_models_train_sets self' !! i
          = Some (Some (x_train, y_train)) /\
        get_shadow_models self' !! i = Some (fit (clone 0%nat) x_train y_train) /\
        Z.of_nat (length x_train) = 2%Z /\
        length y_train = length x_train.
Proof.
  destruct (train_sets_after_generation clone shape fit predict id id reversal
              reversal_spec 0%nat 2%Z tt (seq 0 10) (seq 100 10) (1 # 2)
              ltac:(lia) eq_refl)
    as [Hnew (result & self' & w' & Hrun & Hlen & Hslots)].
  split; [exact Hnew|]. split; [by vm_compute|].
  exists result, self', w'. split; [exact Hrun|]. split; [exact Hlen|].
  intros i Hi.
  destruct (Hslots i Hi) as (x_train & y_train & H1 & H2 & _ & H4 & H5).
  exists x_train, y_train. do 2 (split; [done|]). split; [|done].
  rewrite H5; by vm_compute.
Defined.

(** A member ratio of 0.29 and one block of 100 samples: 0.29 * 100 is
    the double 28.999999999999996 and the stored training set has 28
    samples, not floor(0.29 * 100) = 29. With the double nearest to 0.7
    and one block of 10 samples the rounded product is 7.0 and the stored
    training set has 7 samples, while the exact product of that double
    and 10 is below 7. Outside the documented range, a member ratio of
    3/2 and one block of 2 samples give int(1.5 * 2) = 3 and a stored
    training set of 2 samples. *)
Lemma train_set_size_counterexample :
  ((0 <= 29 # 100 <= 1)%Q /\
   exists result self' w' x_train y_train,
     generate_shadow_dataset fit predict id id reversal
       (seq 0 100) (seq 0 100) (29 # 100) (new_pool 1, tt)
     = (inr result, (self', w')) /\
     get_shadow_models_train_sets self' !! 0%nat
       = Some (Some (x_train, y_train)) /\
     length x_train = 28%nat /\
     Qfloor ((29 # 100) * inject_Z (Z.of_nat (100 / 1))) = 29%Z) /\
  ((0 <= seven_tenths <= 1)%Q /\
   float_of_Q (7 # 10) = float_of_Q seven_tenths /\
   (float_value (float_of_Q seven_tenths) == seven_tenths)%Q /\
   exists result self' w' x_train y_train,
     generate_shadow_dataset fit predict id id reversal
       (seq 0 10) (seq 0 10) seven_tenths (new_pool 1, tt)
     = (inr result, (self', w')) /\
     get_shadow_models_train_sets self' !! 0%nat
       = Some (Some (x_train, y_train)) /\
     length x_train = 7%nat /\
     Qfloor (seven_tenths * inject_Z (Z.of_nat (10 / 1))) = 6%Z) /\
  (exists result self' w' x_train y_train,
     generate_shadow_dataset fit predict id id reversal
       [7; 8]%nat [1; 0]%nat (3 # 2) (new_pool 1, tt)
     = (inr result, (self', w')) /\
     get_shadow_models_train_sets self' !! 0%nat
       = Some (Some (x_train, y_train)) /\
     length x_train = 2%nat /\
     cut_of (3 # 2) (2 / 1) = 3%Z /\
     Qfloor ((3 # 2) * inject_Z (Z.of_nat (2 / 1))) = 3%Z).
Proof.
  split; [|split].
  - split; [by vm_compute|]. do 5 eexists.
    split; [vm_compute; reflexivity|]. by vm_compute.
  - split; [by vm_compute|]. do 2 (split; [by vm_compute|]). do 5 eexists.
    split; [vm_compute; reflexivity|]. by vm_compute.
  - do 5 eexists. split; [vm_compute; reflexivity|]. by vm_compute.
Qed.

Lemma mismatched_lengths_rejected_witness :
  generate_shadow_dataset fit predict id id reversal
    [7; 8; 9]%nat [1; 0]%nat (1 # 2) (new_pool 2, tt)
  = (inl ValueError, (new_pool 2, tt)).
Proof.
  apply (mismatched_lengths_rejected fit predict id id reversal
           (new_pool 2) tt [7; 8; 9]%nat [1; 0]%nat (1 # 2)).
  vm_compute. lia.
Defined.


Lemma first_pass_continues :
  pass (4 # 10) (initial_state 1 first_candidate) [95 # 100; 8 # 10; 0; 0; 0]
  = (inr (Continue second_pass), [0; 0; 0]).
Proof. by vm_compute. Qed.

Lemma second_pass_continues :
  pass (4 # 10) second_pass [0; 0; 0] = (inr (Continue third_pass), [0; 0]).
Proof. by vm_compute. Qed.

Lemma two_passes :
  reaches rng_random features_as_scores 0 (4 # 10) 3 1
    (_default_randomize_features rng_random rng_integers 2)
    2 (initial_state 1 first_candidate) [95 # 100; 8 # 10; 0; 0; 0]
    third_pass [0; 0].
Proof.
  eapply reaches_S; [exact first_pass_continues|].
  eapply reaches_S; [exact second_pass_continues|]. constructor.
Qed.

(** The second candidate of this search scores 8/10 for the wanted class,
    above min_confidence = 4/10, and the wanted class is the arg-max; the
    next draw, 0, is below 8/10. The pass makes no draw and does not
    return the candidate, because 8/10 is below the best confidence
    9/10; the search of two passes raises. *)
Lemma acceptance_test_skipped_counterexample :
  reaches rng_random features_as_scores 0 (4 # 10) 3 1
    (_default_randomize_features rng_random rng_integers 2)
    1 (initial_state 1 first_candidate) [95 # 100; 8 # 10; 0; 0; 0]
    second_pass [0; 0; 0] /\
  getitem (predict_record features_as_scores (x second_pass)) 0
    = inr (8 # 10) /\
  (4 # 10 < 8 # 10) /\
  np_argmax (predict_record features_as_scores (x second_pass)) = 0%nat /\
  ((rng_random [0; 0; 0]).1 < 8 # 10) /\
  pass (4 # 10) second_pass [0; 0; 0] = (inr (Continue third_pass), [0; 0]) /\
  pass (4 # 10) second_pass [0; 0; 0]
    <> (inr (Return (x second_pass)), (rng_random [0; 0; 0]).2) /\
  search features_as_scores 0 (4 # 10) 2 two_pass_draws
    = (inl RuntimeError, [0; 0]).
Proof.
  split.
  { eapply reaches_S; [exact first_pass_continues|constructor]. }
  do 4 (split; [by vm_compute|]).
  split; [exact second_pass_continues|].
  split; [by rewrite second_pass_continues|]. by vm_compute.
Qed.

Lemma acceptance_test_gated_by_improvement_witness :
  (pass (4 # 10) (initial_state 1 first_candidate) [0]
   = (inr (Return first_candidate), [])) /\
  (forall r w', pass (4 # 10) second_pass [0; 0; 0] <> (inr (Return r), w')).
Proof.
  split.
  - apply (acceptance_test_gated_by_improvement rng_random features_as_scores
             0 (4 # 10) 3 1
             (_default_randomize_features rng_random rng_integers 2)
             (initial_state 1 first_candidate) [0] (9 # 10) 0);
      by vm_compute.
  - apply (acceptance_test_gated_by_improvement rng_random features_as_scores
             0 (4 # 10) 3 1
             (_default_randomize_features rng_random rng_integers 2)
             second_pass [0; 0; 0] (8 # 10) 0); by vm_compute.
Defined.

Lemma fourth_rejection_continues :
  pass (4 # 10) fourth_rejection [0; 0; 0]
  = (inr (Continue after_fourth_rejection), []).
Proof. by vm_compute. Qed.

(** Four passes of a search started with a step size of 5 lead to the
    pass of the fourth rejection in a row. *)
Lemma four_passes :
  reaches rng_random features_as_scores 0 (4 # 10) 3 1
    (_default_randomize_features rng_random rng_integers 2) 4
    (initial_state 5 first_candidate) annealing_draws
    fourth_rejection [0; 0; 0].
Proof.
  do 4 (eapply reaches_S; [vm_compute; reflexivity|]). constructor.
Qed.

Lemma step_size_annealing_witness :
  reaches rng_random features_as_scores 0 (4 # 10) 3 1
    (_default_randomize_features rng_random rng_integers 2) 4
    (initial_state 5 first_candidate) annealing_draws
    fourth_rejection [0; 0; 0] /\
  (ceil_half 5 = Qceiling (inject_Z 5 / inject_Z 2) /\
   pass (4 # 10) fourth_rejection [0; 0; 0]
   = (inr (Continue after_fourth_rejection), [])) /\
  (k_features_randomized after_fourth_rejection = Z.max 1 (ceil_half 5) /\
   num_rejections after_fourth_rejection = 0%Z) /\
  (1 <= k_features_randomized after_fourth_rejection <= 5)%Z /\
  (1 <= k_features_randomized fourth_rejection <= 5)%Z.
Proof.
  destruct (step_size_annealing rng_random features_as_scores 0 (4 # 10) 3 1
              (_default_randomize_features rng_random rng_integers 2))
    as (Hupdate & Hmonotone & Hbounds).
  split; [exact four_passes|]. split; [|split; [by vm_compute|split]].
  - destruct (Hupdate fourth_rejection [0; 0; 0] (1 # 10))
      as [Hexact Hpass]; [by vm_compute..|].
    split; [apply Hexact; by vm_compute|].
    unfold pass. rewrite Hpass. by vm_compute.
  - apply (Hmonotone ltac:(lia) 1%nat fourth_rejection [0; 0; 0]
             after_fourth_rejection []); [|by vm_compute].
    eapply reaches_S; [exact fourth_rejection_continues|constructor].
  - apply (Hbounds ltac:(lia) 5%Z first_candidate 4%nat
             annealing_draws fourth_rejection [0; 0; 0]); [lia|].
    exact four_passes.
Defined.

(** With min_confidence = 0 and max_iterations = 1 the first candidate
    scores 1/2 > 0 for the wanted class, which is the arg-max; the draw
    9/10 is not below 1/2, and the search raises instead of returning. *)
Lemma degenerate_threshold_counterexample :
  (1 <= 1)%Z /\
  _default_random_record rng_random 2 [1 # 2; 1 # 4; 9 # 10; 0; 0]
    = (inr [1 # 2; 1 # 4], [9 # 10; 0; 0]) /\
  getitem (predict_record features_as_scores [1 # 2; 1 # 4]) 0 = inr (1 # 2) /\
  (0 < 1 # 2) /\
  np_argmax (predict_record features_as_scores [1 # 2; 1 # 4]) = 0%nat /\
  search features_as_scores 0 0 1 [1 # 2; 1 # 4; 9 # 10; 0; 0]
    = (inl RuntimeError, [0]).
Proof. split; [lia|]. repeat split; by vm_compute. Qed.

Lemma degenerate_threshold_returns_witness :
  search features_as_scores 0 0 1 [1 # 2; 1 # 4; 1 # 10; 0; 0]
  = (inr [1 # 2; 1 # 4], [0; 0]).
Proof.
  apply (degenerate_threshold_returns rng_random rng_integers 2
           features_as_scores 0 1 1 3 1 None None
           [1 # 2; 1 # 4; 1 # 10; 0; 0] [1 # 10; 0; 0] [1 # 10; 0; 0]
           [1 # 2; 1 # 4] (initial_state 1 [1 # 2; 1 # 4]) 0 (1 # 2)).
  - by vm_compute.
  - constructor.
  - vm_compute. lia.
  - by vm_compute.
  - by vm_compute.
  - by vm_compute.
  - by vm_compute.
  - by vm_compute.
Defined.


Lemma failing_attempt (wanted_class : nat) (later : draws) :
  later = [] \/ later = draws_for_class_0 \/ later = failing_draws ->
  synthesize rng_random rng_integers 2 features_as_scores 1 (4 # 10)
    None None 0 (failing_draws ++ later)
  = (inl RuntimeError, later).
Proof. intros [->|[->| ->]]; by vm_compute. Qed.

Lemma two_failed_attempts :
  failed_attempts rng_random rng_integers 2 features_as_scores 1 (4 # 10)
    None None 0 (Z.to_nat 2) (failing_draws ++ failing_draws) [].
Proof.
  eapply failed_S; [apply (failing_attempt 0%nat failing_draws); right; by right|].
  eapply failed_S; [apply (failing_attempt 0%nat []); by left|]. constructor.
Qed.

Lemma synthesis_failure_and_retries_witness :
  search features_as_scores 0 (4 # 10) 2 two_pass_draws
    = (inl RuntimeError, [0; 0]) /\
  records_loop rng_random rng_integers 2 features_as_scores 1 (4 # 10) 2
    None None 0 [1; 0] 1 [] [] None (failing_draws ++ draws_for_class_0)
    = (inr ([first_candidate], [[1; 0]], Some first_candidate), []) /\
  records_loop rng_random rng_integers 2 features_as_scores 1 (4 # 10) 2
    None None 0 [1; 0] 1 [] [] None (failing_draws ++ failing_draws)
    = (inl RuntimeError, []) /\
  synthetic_call features_as_scores 2 5
    (new_record_pool 2, failing_draws ++ failing_draws)
    = (inl RuntimeError, (new_record_pool 2, [])).
Proof.
  destruct (synthesis_failure_and_retries fit predict_size id id
              (@reversal draws) rng_random rng_integers features_as_scores
              5 1 (1 # 2) (4 # 10) 2 None None)
    as (Hsearch & _ & Hretry & Hraise & Hcaller).
  split; [|split; [|split]].
  - apply (Hsearch 2%nat 0%nat 2%Z 3%Z 1%Z two_pass_draws
             [95 # 100; 8 # 10; 0; 0; 0] [0; 0] first_candidate third_pass);
      [by vm_compute|exact two_passes].
  - rewrite (Hretry 2%nat 0%nat [1; 0] 0%nat [] [] None 1%nat
               (failing_draws ++ draws_for_class_0) draws_for_class_0 []
               first_candidate); [done| |lia|by vm_compute].
    eapply failed_S; [apply (failing_attempt 0%nat draws_for_class_0); right; by left|constructor].
  - apply (Hraise ltac:(lia) 2%nat 0%nat [1; 0] 0%nat [] [] None
             (failing_draws ++ failing_draws) []).
    exact two_failed_attempts.
  - apply (Hcaller ltac:(lia) ltac:(by vm_compute) ltac:(by vm_compute)
             (new_record_pool 2) (failing_draws ++ failing_draws) []).
    exact two_failed_attempts.
Defined.

(** With max_retries = 1 the first failure of the search is raised at
    once, to the caller: the search is not retried, although the draws
    that are left would make the next try return. With max_retries = 2
    the search is retried once, and its second failure is raised although
    a second retry would return. *)
Lemma retries_one_short_counterexample :
  synthesize rng_random rng_integers 2 features_as_scores 1 (4 # 10)
    None None 0 draws_for_class_0
  = (inr first_candidate, []) /\
  failed_attempts rng_random rng_integers 2 features_as_scores 1 (4 # 10)
    None None 0 1 (failing_draws ++ draws_for_class_0) draws_for_class_0 /\
  records_loop rng_random rng_integers 2 features_as_scores 1 (4 # 10) 1
    None None 0 [1; 0] 1 [] [] None (failing_draws ++ draws_for_class_0)
  = (inl RuntimeError, draws_for_class_0) /\
  synthetic_call features_as_scores 1 5
    (new_record_pool 2, failing_draws ++ draws_for_class_0)
  = (inl RuntimeError, (new_record_pool 2, draws_for_class_0)) /\
  failed_attempts rng_random rng_integers 2 features_as_scores 1 (4 # 10)
    None None 0 2 (failing_draws ++ failing_draws ++ draws_for_class_0)
    draws_for_class_0 /\
  synthetic_call features_as_scores 2 5
    (new_record_pool 2, failing_draws ++ failing_draws ++ draws_for_class_0)
  = (inl RuntimeError, (new_record_pool 2, draws_for_class_0)).
Proof.
  split; [by vm_compute|]. split.
  { eapply failed_S; [by vm_compute|constructor]. }
  do 2 (split; [by vm_compute|]). split; [|by vm_compute].
  eapply failed_S; [by vm_compute|].
  eapply failed_S; [by vm_compute|constructor].
Qed.

Lemma four_records_synthesized :
  dataset 6 5 four_searches = (inr (four_records, four_labels), []).
Proof. by vm_compute. Qed.

Lemma synthetic_records_per_class_witness :
  dataset 6 5 four_searches = (inr (four_records, four_labels), []) /\
  length four_records = 4%nat /\
  exists made0 made1,
    four_records = mjoin [made0; made1] /\
    length made0 = 2%nat /\ length made1 = 2%nat.
Proof.
  split; [exact four_records_synthesized|].
  destruct (synthetic_records_per_class rng_random rng_integers 2
              features_as_scores 1 (4 # 10) 6 None None 5 four_searches []
              four_records four_labels four_records_synthesized)
    as (per_class & Hxs & _ & _ & _ & _ & _ & Hscenario).
  destruct (Hscenario eq_refl eq_refl)
    as (Hfour & made0 & made1 & -> & H0 & H1).
  split; [exact Hfour|]. by exists made0, made1.
Defined.

Lemma synthetic_dataset_passes_validation_witness :
  length four_records = length four_labels /\
  forall st',
    generate_shadow_dataset fit predict_size id id (@reversal draws)
      four_records four_labels (1 # 2) (new_record_pool 2, [])
    <> (inl ValueError, st').
Proof.
  destruct (synthetic_dataset_passes_validation fit predict_size id id
              (@reversal draws) rng_random rng_integers features_as_scores
              5 1 (1 # 2) (4 # 10) 6 None None (new_record_pool 2)
              four_searches) as [Hlockstep _].
  apply (Hlockstep four_records four_labels []).
  exact four_records_synthesized.
Defined.

Lemma randomize_argument_and_first_score_witness :
  Forall is_Some
    (_hill_climbing_synthesis (unobserved_draw rng_random)
       (fun low high => unobserved (rng_integers low high)) 2
       features_as_scores 0 (4 # 10) 1 2 3 1
       (Some (unobserved (_default_random_record rng_random 2)))
       (Some (spied (_default_randomize_features rng_random rng_integers 2)))
       (two_pass_draws, [])).2.2 /\
  (exists rest,
      (_hill_climbing_synthesis (unobserved_draw rng_random)
         (fun low high => unobserved (rng_integers low high)) 2
         features_less_one 0 (4 # 10) 1 2 3 1
         (Some (unobserved (_default_random_record rng_random 2)))
         (Some (spied (_default_randomize_features rng_random rng_integers 2)))
         ([1 # 2; 1 # 4; 0], [])).2.2 = None :: rest) /\
  _hill_climbing_synthesis rng_random rng_integers 2 features_less_one 0
    (4 # 10) 1 2 3 1 (Some (_default_random_record rng_random 2)) None
    [1 # 2; 1 # 4; 0]
  = (inl AttributeError, [0]).
Proof.
  split; [|split].
  - apply (randomize_argument_and_first_score rng_random rng_integers 2
             features_as_scores 0 (4 # 10) 3 1
             (_default_randomize_features rng_random rng_integers 2) 1 2
             (_default_random_record rng_random 2) two_pass_draws
             [95 # 100; 8 # 10; 0; 0; 0] first_candidate (9 # 10));
      by vm_compute.
  - apply (randomize_argument_and_first_score rng_random rng_integers 2
             features_less_one 0 (4 # 10) 3 1
             (_default_randomize_features rng_random rng_integers 2) 1 2
             (_default_random_record rng_random 2) [1 # 2; 1 # 4; 0]
             [0] [1 # 2; 1 # 4] (- (1 # 2))); by vm_compute.
  - apply (randomize_argument_and_first_score rng_random rng_integers 2
             features_less_one 0 (4 # 10) 3 1
             (_default_randomize_features rng_random rng_integers 2) 1 2
             (_default_random_record rng_random 2) [1 # 2; 1 # 4; 0]
             [0] [1 # 2; 1 # 4] (- (1 # 2))); by vm_compute.
Defined.

End Instances.

(** * Further properties *)

(** ** The pool, in full *)

Lemma rows_of_lookups {A : Type} (l : list A) (idx : list nat) (rows : list A) :
  mapM (fun i => l !! i) idx = Some rows ->
  Forall2 (fun i row => l !! i = Some row) idx rows.
Proof. apply mapM_Some_1. Qed.

Lemma omap_of_lookups {A B : Type} (f : A -> option B) (idx : list A)
    (rows : list B) :
  Forall2 (fun i row => f i = Some row) idx rows -> omap f idx = rows.
Proof.
  induction 1 as [|i row idx rows Hi _ IH]; [done|].
  cbn [omap list_omap]. rewrite Hi. by f_equal.
Qed.

Lemma lookups_of_range {A : Type} (l : list A) :
  Forall2 (fun i row => l !! i = Some row) (seq 0 (length l)) l.
Proof.
  apply Forall2_same_length_lookup_2; [by rewrite length_seq|].
  intros i j a Hj Ha. by apply lookup_seq in Hj as [-> _].
Qed.

(** Reading a list at a permutation of its positions permutes it. *)
Lemma take_rows_Permutation {A : Type} (l : list A) (idx : list nat)
    (rows : list A) :
  Permutation idx (seq 0 (length l)) ->
  take_rows l idx = inr rows ->
  Permutation rows l.
Proof.
  unfold take_rows. intros Hperm Hrows.
  destruct (mapM (fun i => l !! i) idx) as [rows'|] eqn:Hmap; [|done].
  injection Hrows as ->.
  apply rows_of_lookups, omap_of_lookups in Hmap. rewrite <- Hmap.
  rewrite Hperm. by rewrite (omap_of_lookups _ _ _ (lookups_of_range l)).
Qed.

Lemma enumerate_lookup_Some {A : Type} (l : list A) (i : nat) (a : A) :
  l !! i = Some a -> enumerate l !! i = Some (i, a).
Proof.
  intros Hl. unfold enumerate. rewrite lookup_zip_with, Hl.
  rewrite lookup_seq_lt; [done|]. by apply lookup_lt_Some in Hl.
Qed.

Lemma enumerate_length {A : Type} (l : list A) :
  length (enumerate l) = length l.
Proof. unfold enumerate. rewrite length_zip_with, length_seq. lia. Qed.

Lemma rows_at_convert {A : Type} (convert : A -> A) (l : list A)
    (idx : list nat) (rows : list A) :
  take_rows l idx = inr rows -> rows_at convert l idx (convert <$> rows).
Proof.
  unfold take_rows, rows_at. intros Hrows.
  destruct (mapM (fun i => l !! i) idx) as [rows'|] eqn:Hmap; [|done].
  injection Hrows as ->. apply rows_of_lookups in Hmap.
  apply Forall2_fmap_r. eapply Forall2_impl; [exact Hmap|].
  intros i row Hi. by exists row.
Qed.

Section PoolMore.

Context {X Y P model world : Type}.
Variable fit : model -> list X -> list Y -> model.
Variable predict : model -> list X -> list P.
Variable x_astype_float32 : X -> X.
Variable y_astype_float32 : Y -> Y.
Variable np_random_permutation : nat -> world -> list nat * world.

Local Abbreviation pool := (@ShadowModels X Y model).
Local Abbreviation generate :=
  (generate_shadow_dataset fit predict x_astype_float32 y_astype_float32
     np_random_permutation).

Hypothesis np_random_permutation_spec :
  forall n w, Permutation (np_random_permutation n w).1 (seq 0 n).

(** Everything one call does, for a pool with a slot per model and at least
    one model. *)
Lemma generate_shadow_dataset_result (self : pool) (w : world)
    (x : list X) (y : list Y) (member_ratio : Q) :
  well_formed self ->
  (1 <= length (_shadow_models self))%nat ->
  length x = length y ->
  let n := length (_shadow_models self) in
  let size := (length x / n)%nat in
  let idx := (np_random_permutation (length x) w).1 in
  exists xs ys,
    rows_at x_astype_float32 x idx xs /\
    rows_at y_astype_float32 y idx ys /\
    Permutation xs (x_astype_float32 <$> x) /\
    Permutation ys (y_astype_float32 <$> y) /\
    let fitted := fun im : nat * model =>
      fit im.2 (train_part member_ratio size im.1 xs)
        (train_part member_ratio size im.1 ys) in
    generate x y member_ratio (self, w) =
    (inr
       ((mjoin ((fun i => train_part member_ratio size i xs) <$> seq 0 n),
         mjoin ((fun i => train_part member_ratio size i ys) <$> seq 0 n),
         mjoin ((fun im => predict (fitted im)
                             (train_part member_ratio size im.1 xs))
                  <$> enumerate (_shadow_models self))),
        (mjoin ((fun i => test_part member_ratio size i xs) <$> seq 0 n),
         mjoin ((fun i => test_part member_ratio size i ys) <$> seq 0 n),
         mjoin ((fun im => predict (fitted im)
                             (test_part member_ratio size im.1 xs))
                  <$> enumerate (_shadow_models self)))),
     ({| _shadow_models := fitted <$> enumerate (_shadow_models self);
         _shadow_models_train_sets :=
           (fun i => Some (train_part member_ratio size i xs,
                           train_part member_ratio size i ys)) <$> seq 0 n;
         _input_shape := _input_shape self |},
      (np_random_permutation (length x) w).2)).
Proof.
  intros Hwf Hn Hlen n size idx.
  unfold generate_shadow_dataset.
  rewrite Hlen, Nat.eqb_refl. cbn [negb]. rewrite <- Hlen.
  pose proof (np_random_permutation_spec (length x) w) as Hperm.
  subst idx.
  destruct (np_random_permutation (length x) w) as [idx w'].
  cbn [fst snd] in *.
  destruct (take_rows_permutation x idx Hperm) as (xs0 & Hxs0 & Hlx).
  assert (Permutation idx (seq 0 (length y))) as Hperm' by by rewrite <- Hlen.
  destruct (take_rows_permutation y idx Hperm') as (ys0 & Hys0 & Hly).
  rewrite Hxs0, Hys0.
  destruct (Nat.eqb_spec (length (_shadow_models self)) 0) as [H0|_]; [lia|].
  rewrite length_fmap, Hlx. fold n size.
  exists (x_astype_float32 <$> xs0), (y_astype_float32 <$> ys0).
  split; [by apply rows_at_convert|]. split; [by apply rows_at_convert|].
  split; [by rewrite (take_rows_Permutation x idx xs0 Hperm Hxs0)|].
  split; [by rewrite (take_rows_Permutation y idx ys0 Hperm' Hys0)|].
  cbv zeta.
  pose (fitted := fun im : nat * model =>
          fit im.2
            (train_part member_ratio size im.1 (x_astype_float32 <$> xs0))
            (train_part member_ratio size im.1 (y_astype_float32 <$> ys0))).
  destruct (train_all_spec fit predict
              (x_astype_float32 <$> xs0) (y_astype_float32 <$> ys0)
              member_ratio size (enumerate (_shadow_models self))
              no_accumulated self w')
    as (acc' & self' & Hrun & Hms & Hml & Hmp & Hns & Hnl & Hnp
        & Hlen1 & Hlen2 & Hshape & _ & Hins).
  { rewrite enumerate_fst. apply NoDup_seq. }
  { intros i Hi. rewrite enumerate_fst in Hi. apply elem_of_seq in Hi.
    rewrite Hwf. lia. }
  unfold bind at 1. rewrite Hrun.
  cbn [no_accumulated member_samples member_true_label member_prediction
       nonmember_samples nonmember_true_label nonmember_prediction app]
    in Hms, Hml, Hmp, Hns, Hnl, Hnp.
  rewrite Hms, Hml, Hmp, Hns, Hnl, Hnp.
  repeat (unfold bind at 1; unfold lift_result at 1;
          rewrite reduce_concat_join by by apply fmap_enumerate_nonempty).
  unfold ret.
  assert (self' =
          {| _shadow_models := fitted <$> enumerate (_shadow_models self);
             _shadow_models_train_sets :=
               (fun i => Some (train_part member_ratio size i
                                 (x_astype_float32 <$> xs0),
                               train_part member_ratio size i
                                 (y_astype_float32 <$> ys0))) <$> seq 0 n;
             _input_shape := _input_shape self |}) as ->.
  { destruct self' as [models' sets' shape'].
    cbn [_shadow_models _shadow_models_train_sets _input_shape] in *.
    f_equal; [| |done].
    - apply list_eq. intros j. rewrite list_lookup_fmap.
      destruct (_shadow_models self !! j) as [m|] eqn:Hj.
      + rewrite (enumerate_lookup_Some _ _ _ Hj). cbn [fmap option_fmap option_map].
        apply (Hins j m (enumerate_lookup _ _ _ Hj)).
        by apply lookup_lt_Some in Hj.
      + apply lookup_ge_None in Hj.
        rewrite (proj2 (lookup_ge_None (enumerate _) j))
          by by rewrite enumerate_length.
        apply lookup_ge_None. lia.
    - apply list_eq. intros j. rewrite list_lookup_fmap.
      destruct (_shadow_models self !! j) as [m|] eqn:Hj.
      + rewrite lookup_seq_lt by by apply lookup_lt_Some in Hj.
        apply (Hins j m (enumerate_lookup _ _ _ Hj)).
      + apply lookup_ge_None in Hj.
        rewrite lookup_seq_ge by done.
        apply lookup_ge_None. rewrite Hlen1, Hwf. lia. }
  unfold n.
  rewrite <- (enumerate_fst (_shadow_models self)), <- !list_fmap_compose.
  reflexivity.
Qed.

End PoolMore.

Section PoolOutcomes.

Context {X Y P model world : Type}.
Variable fit : model -> list X -> list Y -> model.
Variable predict : model -> list X -> list P.
Variable x_astype_float32 : X -> X.
Variable y_astype_float32 : Y -> Y.
Variable np_random_permutation : nat -> world -> list nat * world.

Local Abbreviation pool := (@ShadowModels X Y model).
Local Abbreviation generate :=
  (generate_shadow_dataset fit predict x_astype_float32 y_astype_float32
     np_random_permutation).

Lemma train_all_same_shape (x : list X) (y : list Y) (member_ratio : Q)
    (size : nat) (todo : list (nat * model)) :
  forall acc (self : pool) (w : world),
    same_shape self
      (train_all fit predict x y member_ratio size todo acc (self, w)).2.1.
Proof.
  induction todo as [|[i m] todo IH]; intros acc self w; [done|].
  cbn [train_all]. unfold bind at 1. unfold train_one.
  unfold bind at 1. unfold store_train_set, setitem.
  destruct (decide (i < length (_shadow_models_train_sets self))%nat);
    [|done].
  unfold bind at 1. unfold fit_in_place, ret at 1.
  match goal with
  | |- context [train_all _ _ _ _ _ _ _ ?a (?s, _)] =>
      destruct (IH a s w) as (H1 & H2 & H3)
  end.
  cbn [_shadow_models _shadow_models_train_sets _input_shape] in H1, H2, H3.
  rewrite length_insert in H1. rewrite length_insert in H2. done.
Qed.


(** X1. Whatever [generate_shadow_dataset] returns or raises, the pool it
    leaves has as many models and as many training-set slots as before and
    the same input shape. *)
Theorem generate_shadow_dataset_keeps_shape (self : pool) (w : world)
    (x : list X) (y : list Y) (member_ratio : Q) :
  same_shape self (generate x y member_ratio (self, w)).2.1.
Proof.
  unfold generate_shadow_dataset.
  destruct (negb (length x =? length y)%nat); [done|].
  destruct (np_random_permutation (length x) w) as [idx w'].
  destruct (take_rows x idx) as [e|xs]; [by destruct (take_rows y idx)|].
  destruct (take_rows y idx) as [e|ys]; [done|].
  destruct (length (_shadow_models self) =? 0)%nat; [done|].
  unfold bind at 1.
  pose proof (train_all_same_shape (x_astype_float32 <$> xs)
                (y_astype_float32 <$> ys) member_ratio
                (length (x_astype_float32 <$> xs) / length (_shadow_models self))
                (enumerate (_shadow_models self)) no_accumulated self w')
    as Hshape.
  destruct (train_all _ _ _ _ _ _ _ _ _) as [[e|acc] [self' w'']]; [done|].
  cbn [fst snd] in Hshape.
  repeat (unfold bind at 1; unfold lift_result at 1;
          match goal with
          | |- context [reduce ?f ?l] => destruct (reduce f l); [done|]
          end).
  done.
Qed.

Section Returns.

Hypothesis np_random_permutation_spec :
  forall n w, Permutation (np_random_permutation n w).1 (seq 0 n).

(** X2. On a pool without models, a dataset with as many labels as
    samples makes [generate_shadow_dataset] raise [ZeroDivisionError]; the
    pool is as before and the ambient generator has made its shuffle. *)
Theorem no_models_division_error (self : pool) (w : world)
    (x : list X) (y : list Y) (member_ratio : Q) :
  _shadow_models self = [] ->
  length x = length y ->
  generate_shadow_dataset fit predict x_astype_float32 y_astype_float32
    np_random_permutation x y member_ratio (self, w)
  = (inl ZeroDivisionError, (self, (np_random_permutation (length x) w).2)).
Proof.
  intros Hmodels Hlen. unfold generate_shadow_dataset.
  rewrite Hlen, Nat.eqb_refl. cbn [negb]. rewrite <- Hlen.
  pose proof (np_random_permutation_spec (length x) w) as Hperm.
  destruct (np_random_permutation (length x) w) as [idx w'].
  cbn [fst snd] in *.
  destruct (take_rows_permutation x idx Hperm) as (xs0 & -> & _).
  assert (Permutation idx (seq 0 (length y))) as Hperm' by by rewrite <- Hlen.
  destruct (take_rows_permutation y idx Hperm') as (ys0 & -> & _).
  by rewrite Hmodels.
Qed.

End Returns.

End PoolOutcomes.

(** ** What a call of the pool returns *)


Lemma parts_app {A : Type} (member_ratio : Q) (size i : nat) (l : list A) :
  train_part member_ratio size i l ++ test_part member_ratio size i l
  = block size i l.
Proof. apply take_drop. Qed.

Lemma block_length_of {A : Type} (size i : nat) (l : list A) :
  length (block size i l)
  = Nat.min (size * (i + 1) - size * i) (length l - size * i).
Proof. unfold block, slice. by rewrite length_take, length_drop. Qed.

Lemma train_part_length {A : Type} (member_ratio : Q) (size i : nat)
    (l : list A) :
  length (train_part member_ratio size i l)
  = slice_index (cut_of member_ratio size) (length (block size i l)).
Proof.
  unfold train_part, slice_upto. rewrite length_take.
  pose proof (slice_index_le (cut_of member_ratio size)
                (length (block size i l))). lia.
Qed.

Lemma test_part_length {A : Type} (member_ratio : Q) (size i : nat)
    (l : list A) :
  length (test_part member_ratio size i l)
  = (length (block size i l)
     - slice_index (cut_of member_ratio size) (length (block size i l)))%nat.
Proof. unfold test_part, slice_from. by rewrite length_drop. Qed.

Lemma join_cons {A : Type} (a : list A) (ls : list (list A)) :
  mjoin (a :: ls) = a ++ mjoin ls.
Proof. reflexivity. Qed.

Lemma join_lengths {A B I : Type} (f : I -> list A) (g : I -> list B)
    (indices : list I) :
  (forall i, i ∈ indices -> length (f i) = length (g i)) ->
  length (mjoin (f <$> indices)) = length (mjoin (g <$> indices)).
Proof.
  induction indices as [|i indices IH]; intros Hin; [done|].
  rewrite !fmap_cons, !join_cons, !length_app.
  rewrite (Hin i) by left. rewrite IH; [done|].
  intros j Hj. apply Hin. by right.
Qed.

Lemma join_length_const {A I : Type} (f : I -> list A) (k : nat)
    (indices : list I) :
  (forall i, i ∈ indices -> length (f i) = k) ->
  length (mjoin (f <$> indices)) = (length indices * k)%nat.
Proof.
  induction indices as [|i indices IH]; intros Hin; [done|].
  rewrite fmap_cons, join_cons, length_app.
  rewrite (Hin i) by left. rewrite IH; [cbn [length Nat.mul]; lia|].
  intros j Hj. apply Hin. by right.
Qed.

Lemma join_Forall2 {A B I : Type} (R : A -> B -> Prop) (f : I -> list A)
    (g : I -> list B) (indices : list I) :
  (forall i, Forall2 R (f i) (g i)) ->
  Forall2 R (mjoin (f <$> indices)) (mjoin (g <$> indices)).
Proof.
  intros Hfg. induction indices as [|i indices IH]; [constructor|].
  rewrite !fmap_cons, !join_cons. by apply Forall2_app.
Qed.

Lemma blocks_join {A : Type} (size n : nat) (l : list A) :
  mjoin ((fun i => block size i l) <$> seq 0 n) = take (n * size) l.
Proof.
  induction n as [|n IH]; [done|].
  rewrite seq_S, fmap_app, join_app, IH. cbn [fmap list_fmap].
  rewrite join_cons. cbn [mjoin list_join]. rewrite app_nil_r.
  unfold block, slice. cbn [Nat.add].
  replace (size * (n + 1) - size * n)%nat with size by lia.
  replace (size * n)%nat with (n * size)%nat by lia.
  rewrite take_take_drop. f_equal. lia.
Qed.

Lemma parts_join_Permutation {A : Type} (member_ratio : Q) (size : nat)
    (l : list A) (indices : list nat) :
  Permutation
    (mjoin ((fun i => train_part member_ratio size i l) <$> indices)
     ++ mjoin ((fun i => test_part member_ratio size i l) <$> indices))
    (mjoin ((fun i => block size i l) <$> indices)).
Proof.
  induction indices as [|i indices IH]; [done|].
  rewrite !fmap_cons, !join_cons.
  rewrite <- IH, <- (parts_app member_ratio size i l).
  rewrite <- !app_assoc. apply Permutation_app_head.
  apply Permutation_app_swap_app.
Qed.

Lemma pairs_of_rows {A B : Type} (convert_x : A -> A) (convert_y : B -> B)
    (x : list A) (y : list B) (idx : list nat) (xs : list A) (ys : list B) :
  rows_at convert_x x idx xs ->
  rows_at convert_y y idx ys ->
  Forall2 (original_pair convert_x convert_y x y) xs ys.
Proof.
  unfold rows_at. intros Hxs. revert ys.
  induction Hxs as [|i a idx xs (a0 & Ha0 & ->) _ IH]; intros ys Hys.
  - apply Forall2_nil_inv_l in Hys as ->. constructor.
  - apply Forall2_cons_inv_l in Hys as (b & ys' & (b0 & Hb0 & ->) & Hys & ->).
    constructor; [by exists i, a0, b0|]. by apply IH.
Qed.

Lemma rows_at_length {A : Type} (convert : A -> A) (l : list A)
    (idx : list nat) (rows : list A) :
  rows_at convert l idx rows -> length rows = length idx.
Proof. intros Hrows. symmetry. by eapply Forall2_length. Qed.

Lemma parts_Forall2 {A B : Type} (R : A -> B -> Prop) (member_ratio : Q)
    (size i : nat) (l : list A) (k : list B) :
  Forall2 R l k ->
  Forall2 R (train_part member_ratio size i l) (train_part member_ratio size i k)
  /\ Forall2 R (test_part member_ratio size i l)
       (test_part member_ratio size i k).
Proof.
  intros Hlk.
  assert (Forall2 R (block size i l) (block size i k)) as Hblock
    by by apply Forall2_take, Forall2_drop.
  unfold train_part, test_part, slice_upto, slice_from.
  rewrite (Forall2_length _ _ _ Hblock).
  split; [by apply Forall2_take|by apply Forall2_drop].
Qed.

Section PoolReturns.

Context {X Y P model world : Type}.
Variable fit : model -> list X -> list Y -> model.
Variable predict : model -> list X -> list P.
Variable x_astype_float32 : X -> X.
Variable y_astype_float32 : Y -> Y.
Variable np_random_permutation : nat -> world -> list nat * world.

Local Abbreviation pool := (@ShadowModels X Y model).
Local Abbreviation generate :=
  (generate_shadow_dataset fit predict x_astype_float32 y_astype_float32
     np_random_permutation).

Hypothesis np_random_permutation_spec :
  forall n w, Permutation (np_random_permutation n w).1 (seq 0 n).

Local Abbreviation result_of :=
  (generate_shadow_dataset_result fit predict x_astype_float32
     y_astype_float32 np_random_permutation np_random_permutation_spec).

Lemma shuffled_lengths (x : list X) (y : list Y) (w : world)
    (xs : list X) (ys : list Y) :
  length x = length y ->
  rows_at x_astype_float32 x (np_random_permutation (length x) w).1 xs ->
  rows_at y_astype_float32 y (np_random_permutation (length x) w).1 ys ->
  length xs = length x /\ length ys = length x.
Proof.
  intros Hlen Hxs Hys.
  pose proof (Permutation_length (np_random_permutation_spec (length x) w))
    as Hidx. rewrite length_seq in Hidx.
  apply rows_at_length in Hxs, Hys. lia.
Qed.

(** X3. If the shadow models predict one row per sample, the three
    arrays of the member triple have the same length, and so have the
    three of the nonmember triple. *)
Theorem triples_are_parallel (self : pool) (w : world)
    (x : list X) (y : list Y) (member_ratio : Q) :
  (forall m xs, length (predict m xs) = length xs) ->
  well_formed self ->
  (1 <= length (_shadow_models self))%nat ->
  length x = length y ->
  exists members nonmembers st',
    generate x y member_ratio (self, w) = (inr (members, nonmembers), st') /\
    length (true_label members) = length (samples members) /\
    length (prediction members) = length (samples members) /\
    length (true_label nonmembers) = length (samples nonmembers) /\
    length (prediction nonmembers) = length (samples nonmembers).
Proof.
  intros Hpredict Hwf Hn Hlen.
  destruct (result_of self w x y member_ratio Hwf Hn Hlen)
    as (xs & ys & Hxs & Hys & _ & _ & Hrun).
  cbv zeta in Hrun.
  destruct (shuffled_lengths x y w xs ys Hlen Hxs Hys) as [Hlx Hly].
  do 3 eexists. split; [exact Hrun|].
  unfold samples, true_label, prediction. cbn [fst snd].
  assert (forall i, length (block (length x / length (_shadow_models self)) i ys)
                    = length (block (length x / length (_shadow_models self)) i xs))
    as Hblock by (intros i; by rewrite !block_length_of, Hlx, Hly).
  rewrite <- (enumerate_fst (_shadow_models self)), <- !list_fmap_compose.
  repeat split; apply join_lengths; intros im _; unfold compose;
    rewrite ?Hpredict, ?train_part_length, ?test_part_length, ?Hblock; done.
Qed.

(** X4. The member samples and labels returned are the stored training
    sets, one model after the other, and the member predictions are each
    trained model's predictions on its own training set; the nonmember
    samples fall into one group per model, predicted by that same trained
    model. *)
Theorem members_are_the_training_sets (self : pool) (w : world)
    (x : list X) (y : list Y) (member_ratio : Q) :
  well_formed self ->
  (1 <= length (_shadow_models self))%nat ->
  length x = length y ->
  exists members nonmembers self' w' held_out,
    generate x y member_ratio (self, w)
      = (inr (members, nonmembers), (self', w')) /\
    Forall is_Some (get_shadow_models_train_sets self') /\
    samples members = mjoin (slot_samples <$> get_shadow_models_train_sets self') /\
    true_label members
      = mjoin (slot_labels <$> get_shadow_models_train_sets self') /\
    prediction members
      = mjoin (zip_with (fun m slot => predict m (slot_samples slot))
                 (get_shadow_models self')
                 (get_shadow_models_train_sets self')) /\
    length held_out = length (_shadow_models self) /\
    samples nonmembers = mjoin held_out /\
    prediction nonmembers
      = mjoin (zip_with predict (get_shadow_models self') held_out).
Proof.
  intros Hwf Hn Hlen.
  destruct (result_of self w x y member_ratio Hwf Hn Hlen)
    as (xs & ys & _ & _ & _ & _ & Hrun).
  cbv zeta in Hrun.
  do 4 eexists.
  exists ((fun i => test_part member_ratio
                      (length x / length (_shadow_models self)) i xs)
            <$> seq 0 (length (_shadow_models self))).
  split; [exact Hrun|].
  unfold get_shadow_models_train_sets, get_shadow_models, samples,
    true_label, prediction.
  cbn [_shadow_models _shadow_models_train_sets fst snd].
  split; [apply Forall_fmap, Forall_forall; by eexists|].
  rewrite <- !list_fmap_compose.
  split; [done|]. split; [done|].
  rewrite length_fmap, length_seq.
  rewrite <- (enumerate_fst (_shadow_models self)), <- !list_fmap_compose.
  rewrite !zip_with_fmap_l, !zip_with_fmap_r, !zip_with_diag.
  done.
Qed.

(** X5. The member and nonmember samples returned are, together, the
    first N * (len(x) // N) rows of the dataset as the call shuffled it
    (row j of it is the converted row of x at the j-th index of the
    permutation drawn), each exactly once, and the labels are the same
    rows of y shuffled by the same permutation; when N divides len(x)
    they are a rearrangement of the whole converted dataset. *)
Theorem members_and_nonmembers_partition (self : pool) (w : world)
    (x : list X) (y : list Y) (member_ratio : Q) :
  well_formed self ->
  (1 <= length (_shadow_models self))%nat ->
  length x = length y ->
  let n := length (_shadow_models self) in
  exists members nonmembers st' xs ys,
    generate x y member_ratio (self, w) = (inr (members, nonmembers), st') /\
    rows_at x_astype_float32 x (np_random_permutation (length x) w).1 xs /\
    rows_at y_astype_float32 y (np_random_permutation (length x) w).1 ys /\
    Permutation xs (x_astype_float32 <$> x) /\
    Permutation ys (y_astype_float32 <$> y) /\
    Permutation (samples members ++ samples nonmembers)
      (take (n * (length x / n)) xs) /\
    Permutation (true_label members ++ true_label nonmembers)
      (take (n * (length x / n)) ys) /\
    ((length x mod n = 0)%nat ->
     Permutation (samples members ++ samples nonmembers)
       (x_astype_float32 <$> x) /\
     Permutation (true_label members ++ true_label nonmembers)
       (y_astype_float32 <$> y)).
Proof.
  intros Hwf Hn Hlen n.
  destruct (result_of self w x y member_ratio Hwf Hn Hlen)
    as (xs & ys & Hxs & Hys & Hpx & Hpy & Hrun).
  cbv zeta in Hrun. fold n in Hrun.
  destruct (shuffled_lengths x y w xs ys Hlen Hxs Hys) as [Hlx Hly].
  do 3 eexists. exists xs, ys. split; [exact Hrun|].
  do 4 (split; [done|]).
  unfold samples, true_label. cbn [fst snd].
  rewrite !parts_join_Permutation, !blocks_join.
  do 2 (split; [done|]).
  intros Hdiv.
  assert (n * (length x / n) = length x)%nat as ->.
  { pose proof (Nat.div_mod_eq (length x) n). lia. }
  by rewrite !take_ge by lia.
Qed.

(** X6. Labels stay with their samples: every sample returned, member or
    nonmember, sits next to the label that had its index in the input,
    both converted to float32. *)
Theorem labels_stay_with_samples (self : pool) (w : world)
    (x : list X) (y : list Y) (member_ratio : Q) :
  well_formed self ->
  (1 <= length (_shadow_models self))%nat ->
  length x = length y ->
  exists members nonmembers st',
    generate x y member_ratio (self, w) = (inr (members, nonmembers), st') /\
    Forall2 (original_pair x_astype_float32 y_astype_float32 x y)
      (samples members) (true_label members) /\
    Forall2 (original_pair x_astype_float32 y_astype_float32 x y)
      (samples nonmembers) (true_label nonmembers).
Proof.
  intros Hwf Hn Hlen.
  destruct (result_of self w x y member_ratio Hwf Hn Hlen)
    as (xs & ys & Hxs & Hys & _ & _ & Hrun).
  cbv zeta in Hrun.
  pose proof (pairs_of_rows _ _ _ _ _ _ _ Hxs Hys) as Hpairs.
  do 3 eexists. split; [exact Hrun|].
  unfold samples, true_label. cbn [fst snd].
  split; apply join_Forall2; intros i; by apply parts_Forall2.
Qed.

End PoolReturns.

Lemma enumerate_fmap {A B : Type} (f : nat * A -> B) (l : list A) :
  enumerate (f <$> enumerate l) = (fun im => (im.1, f im)) <$> enumerate l.
Proof.
  apply list_eq. intros j. rewrite list_lookup_fmap.
  destruct (l !! j) as [a|] eqn:Hj.
  - rewrite (enumerate_lookup_Some l j a Hj). cbn [fmap option_fmap option_map].
    apply enumerate_lookup_Some. cbn [fst].
    by rewrite list_lookup_fmap, (enumerate_lookup_Some l j a Hj).
  - apply lookup_ge_None in Hj.
    rewrite (proj2 (lookup_ge_None (enumerate l) j))
      by by rewrite enumerate_length.
    apply lookup_ge_None.
    by rewrite enumerate_length, length_fmap, enumerate_length.
Qed.

Section PoolCounts.

Context {X Y P model world : Type}.
Variable fit : model -> list X -> list Y -> model.
Variable predict : model -> list X -> list P.
Variable x_astype_float32 : X -> X.
Variable y_astype_float32 : Y -> Y.
Variable np_random_permutation : nat -> world -> list nat * world.

Local Abbreviation pool := (@ShadowModels X Y model).
Local Abbreviation generate :=
  (generate_shadow_dataset fit predict x_astype_float32 y_astype_float32
     np_random_permutation).

Hypothesis np_random_permutation_spec :
  forall n w, Permutation (np_random_permutation n w).1 (seq 0 n).

Local Abbreviation result_of :=
  (generate_shadow_dataset_result fit predict x_astype_float32
     y_astype_float32 np_random_permutation np_random_permutation_spec).

(** X7. Each model takes the same number of member samples from its
    block: the slice bound int(member_ratio * block_size), the product
    rounded as a double, read as Python reads a slice bound (from the end
    when negative, clamped to the block). A bound between 0 and
    block_size is the number of member samples per model; from
    block_size on the whole block is taken and there are no nonmember
    samples; at 0, and from -block_size down, there are no member
    samples. *)
Theorem member_and_nonmember_counts (self : pool) (w : world)
    (x : list X) (y : list Y) (member_ratio : Q) :
  well_formed self ->
  (1 <= length (_shadow_models self))%nat ->
  length x = length y ->
  let n := length (_shadow_models self) in
  let block_size := (length x / n)%nat in
  let cut := cut_of member_ratio block_size in
  let taken := slice_index cut block_size in
  exists members nonmembers st',
    generate x y member_ratio (self, w) = (inr (members, nonmembers), st') /\
    length (samples members) = (n * taken)%nat /\
    length (samples nonmembers) = (n * (block_size - taken))%nat /\
    (0 <= cut <= Z.of_nat block_size -> Z.of_nat taken = cut) /\
    (Z.of_nat block_size <= cut ->
     taken = block_size /\ samples nonmembers = []) /\
    (cut = 0 \/ cut <= - Z.of_nat block_size ->
     taken = 0%nat /\ samples members = []).
Proof.
  intros Hwf Hn Hlen n block_size cut taken.
  destruct (result_of self w x y member_ratio Hwf Hn Hlen)
    as (xs & ys & Hxs & Hys & _ & _ & Hrun).
  cbv zeta in Hrun. fold n block_size in Hrun.
  pose proof (Permutation_length (np_random_permutation_spec (length x) w))
    as Hidx. rewrite length_seq in Hidx.
  apply rows_at_length in Hxs. rewrite Hidx in Hxs.
  assert (forall i, i ∈ seq 0 n -> length (block block_size i xs) = block_size)
    as Hblock.
  { intros i Hi. apply elem_of_seq in Hi. apply block_length.
    rewrite Hxs. apply block_inside. lia. }
  assert (length (mjoin ((fun i => train_part member_ratio block_size i xs)
                           <$> seq 0 n)) = (n * taken)%nat) as Hmembers.
  { rewrite (join_length_const _ taken), length_seq; [done|].
    intros i Hi. by rewrite train_part_length, Hblock. }
  assert (length (mjoin ((fun i => test_part member_ratio block_size i xs)
                           <$> seq 0 n)) = (n * (block_size - taken))%nat)
    as Hnonmembers.
  { rewrite (join_length_const _ (block_size - taken)%nat), length_seq; [done|].
    intros i Hi. by rewrite test_part_length, Hblock. }
  do 3 eexists. split; [exact Hrun|].
  unfold samples. cbn [fst snd].
  split; [exact Hmembers|]. split; [exact Hnonmembers|]. split; [|split].
  - intros Hcut. unfold taken. rewrite slice_index_inside by done. lia.
  - intros Hcut.
    assert (taken = block_size) as Htaken.
    { unfold taken, slice_index. destruct (Z.ltb_spec cut 0); lia. }
    split; [done|].
    apply length_zero_iff_nil. rewrite Hnonmembers, Htaken. lia.
  - intros Hcut.
    assert (taken = 0%nat) as Htaken.
    { unfold taken, slice_index. destruct (Z.ltb_spec cut 0); lia. }
    split; [done|].
    apply length_zero_iff_nil. rewrite Hmembers, Htaken. lia.
Qed.

(** X8. A second call on the same pool overwrites every slot with the
    training set of the second call, and fits each model, as the first
    call left it, on that set. *)
Theorem second_call_overwrites (self : pool) (w : world)
    (x1 x2 : list X) (y1 y2 : list Y) (ratio1 ratio2 : Q) :
  well_formed self ->
  (1 <= length (_shadow_models self))%nat ->
  length x1 = length y1 ->
  length x2 = length y2 ->
  let n := length (_shadow_models self) in
  exists out1 self1 w1 out2 self2 w2 xs1 ys1 xs2 ys2,
    generate x1 y1 ratio1 (self, w) = (inr out1, (self1, w1)) /\
    generate x2 y2 ratio2 (self1, w1) = (inr out2, (self2, w2)) /\
    rows_at x_astype_float32 x1 (np_random_permutation (length x1) w).1 xs1 /\
    rows_at y_astype_float32 y1 (np_random_permutation (length x1) w).1 ys1 /\
    rows_at x_astype_float32 x2 (np_random_permutation (length x2) w1).1 xs2 /\
    rows_at y_astype_float32 y2 (np_random_permutation (length x2) w1).1 ys2 /\
    get_shadow_models_train_sets self2
    = (fun i => Some (train_part ratio2 (length x2 / n) i xs2,
                      train_part ratio2 (length x2 / n) i ys2)) <$> seq 0 n /\
    get_shadow_models self2
    = (fun im : nat * model =>
         fit (fit im.2 (train_part ratio1 (length x1 / n) im.1 xs1)
                (train_part ratio1 (length x1 / n) im.1 ys1))
           (train_part ratio2 (length x2 / n) im.1 xs2)
           (train_part ratio2 (length x2 / n) im.1 ys2))
        <$> enumerate (_shadow_models self).
Proof.
  intros Hwf Hn Hlen1 Hlen2 n.
  destruct (result_of self w x1 y1 ratio1 Hwf Hn Hlen1)
    as (xs1 & ys1 & Hxs1 & Hys1 & _ & _ & Hrun1).
  cbv zeta in Hrun1. fold n in Hrun1.
  match type of Hrun1 with
  | _ = (inr ?o, (?s, ?v)) => set (out1 := o) in *; set (self1 := s) in *;
                                 set (w1 := v) in *
  end.
  assert (length (_shadow_models self1) = n) as Hmodels1
    by (unfold self1; cbn [_shadow_models];
        by rewrite length_fmap, enumerate_length).
  assert (well_formed self1) as Hwf1.
  { unfold well_formed. rewrite Hmodels1. unfold self1.
    cbn [_shadow_models_train_sets]. by rewrite length_fmap, length_seq. }
  destruct (result_of self1 w1 x2 y2 ratio2 Hwf1 ltac:(lia) Hlen2)
    as (xs2 & ys2 & Hxs2 & Hys2 & _ & _ & Hrun2).
  cbv zeta in Hrun2. rewrite Hmodels1 in Hrun2.
  do 6 eexists. exists xs1, ys1, xs2, ys2.
  split; [exact Hrun1|]. split; [exact Hrun2|].
  do 4 (split; [done|]).
  unfold get_shadow_models_train_sets, get_shadow_models.
  cbn [_shadow_models _shadow_models_train_sets]. split; [done|].
  unfold self1 at 1. cbn [_shadow_models].
  rewrite enumerate_fmap. by rewrite <- list_fmap_compose.
Qed.

End PoolCounts.

(** ** The search, further *)

Lemma argmax_from_spec (l : list Q) :
  forall best_i best i,
  exists c,
    (argmax_from best_i best i l = best_i /\ c = best \/
     exists k, argmax_from best_i best i l = (i + k)%nat /\ l !! k = Some c) /\
    (best <= c)%Q /\
    forall c', c' ∈ l -> (c' <= c)%Q.
Proof.
  induction l as [|v l IH]; intros best_i best i.
  - exists best. split; [by left|]. split; [apply Qle_refl|].
    intros c' Hc'. by apply elem_of_nil in Hc'.
  - cbn [argmax_from]. destruct (Qlt_bool best v) eqn:Hlt.
    + apply Qlt_bool_iff in Hlt.
      destruct (IH i v (S i)) as (c & Hwhere & Hge & Hall).
      exists c. split; [|split].
      * right. destruct Hwhere as [[-> ->]|(k & -> & Hk)].
        -- exists 0%nat. split; [lia|done].
        -- exists (S k). split; [lia|done].
      * eapply Qle_trans; [apply Qlt_le_weak, Hlt|done].
      * intros c' Hc'. apply elem_of_cons in Hc' as [->|Hc']; [done|].
        by apply Hall.
    + assert (v <= best)%Q as Hle.
      { apply Qnot_lt_le. intros H. apply Qlt_bool_iff in H. congruence. }
      destruct (IH best_i best (S i)) as (c & Hwhere & Hge & Hall).
      exists c. split; [|split; [done|]].
      * destruct Hwhere as [[-> ->]|(k & -> & Hk)]; [by left|].
        right. exists (S k). split; [lia|done].
      * intros c' Hc'. apply elem_of_cons in Hc' as [->|Hc'].
        -- by eapply Qle_trans.
        -- by apply Hall.
Qed.

(** The score at the arg-max is the largest. *)
Lemma np_argmax_largest (y : list Q) (c : Q) :
  y !! np_argmax y = Some c ->
  forall j c', y !! j = Some c' -> (c' <= c)%Q.
Proof.
  destruct y as [|v l]; [done|]. cbn [np_argmax].
  destruct (argmax_from_spec l 0%nat v 1%nat) as (m & Hwhere & Hge & Hall).
  intros Hc.
  assert (c = m) as ->.
  { destruct Hwhere as [[Hj ->]|(k & Hj & Hk)]; rewrite Hj in Hc.
    - by injection Hc as ->.
    - change (l !! k = Some c) in Hc. congruence. }
  intros [|j] c' Hj.
  - by injection Hj as <-.
  - apply Hall. by eapply list_elem_of_lookup_2.
Qed.

Section SearchMore.

Context {world : Type}.
Variable rng_random : world -> Q * world.
Variable target_classifier : classifier.
Variable wanted_class : nat.
Variable min_confidence : Q.
Variable max_rejections min_features_randomized : Z.
Variable randomize_features_fn : option record -> Z -> M world record.

Local Abbreviation iteration :=
  (hill_climbing_iteration rng_random target_classifier wanted_class
     min_confidence max_rejections min_features_randomized
     randomize_features_fn).
Local Abbreviation loop :=
  (hill_climbing_loop rng_random target_classifier wanted_class
     min_confidence max_rejections min_features_randomized
     randomize_features_fn).
Local Abbreviation reach :=
  (reaches rng_random target_classifier wanted_class min_confidence
     max_rejections min_features_randomized randomize_features_fn).
Local Abbreviation scores s := (predict_record target_classifier (x s)).

Lemma iteration_Return (s : search_state) (w w' : world) (r : record) :
  iteration s w = (inr (Return r), w') ->
  r = x s /\ w' = (rng_random w).2 /\
  exists c,
    getitem (scores s) wanted_class = inr c /\
    (best_class_confidence s <= c)%Q /\
    (min_confidence < c)%Q /\
    np_argmax (scores s) = wanted_class /\
    ((rng_random w).1 < c)%Q.
Proof.
  rewrite iteration_unfold.
  destruct (getitem (scores s) wanted_class) as [e|c]; [done|].
  destruct (Qle_bool (best_class_confidence s) c) eqn:Hle.
  - destruct (Qlt_bool min_confidence c) eqn:Hmin;
      [|intros H; by apply candidate_not_Return in H].
    destruct (np_argmax (scores s) =? wanted_class)%nat eqn:Harg;
      [|intros H; by apply candidate_not_Return in H].
    cbn [andb].
    destruct (Qlt_bool (rng_random w).1 c) eqn:Hdraw;
      [|intros H; by apply candidate_not_Return in H].
    intros [= <- <-]. do 2 (split; [done|]). exists c.
    apply Qle_bool_iff in Hle. apply Qlt_bool_iff in Hmin, Hdraw.
    by apply Nat.eqb_eq in Harg.
  - destruct (max_rejections <? num_rejections s + 1);
      intros H; by apply candidate_not_Return in H.
Qed.

(** A search that returns does so at a pass within the bound that
    accepted its candidate. *)
Lemma loop_return_inv (n : nat) :
  forall s w r w',
    loop n s w = (inr r, w') ->
    exists m s1 w1 c,
      (m < n)%nat /\ reach m s w s1 w1 /\ r = x s1 /\
      w' = (rng_random w1).2 /\
      getitem (scores s1) wanted_class = inr c /\
      (best_class_confidence s1 <= c)%Q /\
      (min_confidence < c)%Q /\
      np_argmax (scores s1) = wanted_class /\
      ((rng_random w1).1 < c)%Q.
Proof.
  induction n as [|n IH]; intros s w r w' Hrun; [done|].
  cbn [hill_climbing_loop] in Hrun. unfold bind in Hrun.
  destruct (iteration s w) as [[e|[r0|s1]] w1] eqn:Hstep; [done| |].
  - injection Hrun as <- <-.
    apply iteration_Return in Hstep as (-> & -> & c & Hc).
    exists 0%nat, s, w, c. split; [lia|]. split; [constructor|]. done.
  - apply IH in Hrun as (m & s2 & w2 & c & Hm & Hreach & Hrest).
    exists (S m), s2, w2, c. split; [lia|].
    split; [by eapply reaches_S|done].
Qed.

(** The best confidence never decreases; it is the confidence of the best
    record, if there is one; the rejection count stays within bounds. *)
Lemma step_invariants (s s' : search_state) (w w' : world) :
  iteration s w = (inr (Continue s'), w') ->
  (best_class_confidence s <= best_class_confidence s')%Q /\
  ((forall b, best_x s = Some b ->
      getitem (predict_record target_classifier b) wanted_class
      = inr (best_class_confidence s)) ->
   forall b, best_x s' = Some b ->
     getitem (predict_record target_classifier b) wanted_class
     = inr (best_class_confidence s')) /\
  (0 <= max_rejections -> 0 <= num_rejections s <= max_rejections ->
   0 <= num_rejections s' <= max_rejections).
Proof.
  intros Hstep. apply iteration_Continue in Hstep
    as (c & Hc & [(Hle & Hbx & Hbc & Hnr & _)
                 |(_ & Hbx & Hbc & [(_ & Hnr & _)|(Hcount & Hnr & _)])]).
  - split; [by rewrite Hbc|]. split; [|lia].
    intros _ b Hb. rewrite Hbx in Hb. injection Hb as <-. by rewrite Hbc.
  - rewrite Hbx, Hbc, Hnr. split; [apply Qle_refl|]. split; [done|lia].
  - rewrite Hbx, Hbc, Hnr. split; [apply Qle_refl|]. split; [done|lia].
Qed.

Lemma reaches_best (n : nat) (s s' : search_state) (w w' : world) :
  reach n s w s' w' ->
  (best_class_confidence s <= best_class_confidence s')%Q /\
  ((forall b, best_x s = Some b ->
      getitem (predict_record target_classifier b) wanted_class
      = inr (best_class_confidence s)) ->
   forall b, best_x s' = Some b ->
     getitem (predict_record target_classifier b) wanted_class
     = inr (best_class_confidence s')).
Proof.
  induction 1 as [|n s s1 s2 w w1 w2 Hstep _ [IH1 IH2]].
  - split; [apply Qle_refl|done].
  - apply step_invariants in Hstep as (H1 & H2 & _).
    split; [by eapply Qle_trans|]. intros Hs. by apply IH2, H2.
Qed.

(** X9. Along a search the best confidence never decreases, starting from
    0, and whenever there is a best record the best confidence is the
    confidence the classifier gives it for the wanted class. *)
Theorem best_confidence_invariant :
  (forall n s w s' w',
      reach n s w s' w' ->
      (best_class_confidence s <= best_class_confidence s')%Q) /\
  (forall max_features_randomized x0 n w s w',
      reach n (initial_state max_features_randomized x0) w s w' ->
      (0 <= best_class_confidence s)%Q /\
      forall b, best_x s = Some b ->
        getitem (predict_record target_classifier b) wanted_class
        = inr (best_class_confidence s)).
Proof.
  split.
  - intros n s w s' w' Hreach. by apply (reaches_best _ _ _ _ _ Hreach).
  - intros k x0 n w s w' Hreach.
    destruct (reaches_best _ _ _ _ _ Hreach) as [Hle Hbest].
    split; [exact Hle|]. by apply Hbest.
Qed.

(** X10. With max_rejections >= 0 the count of rejections in a row stays
    between 0 and max_rejections along a search. *)
Theorem rejection_count_bounded (max_features_randomized : Z)
    (x0 : record) (n : nat) (w w' : world) (s : search_state) :
  0 <= max_rejections ->
  reach n (initial_state max_features_randomized x0) w s w' ->
  0 <= num_rejections s <= max_rejections.
Proof.
  intros Hmax Hreach.
  assert (forall n s0 w s w',
             reach n s0 w s w' ->
             0 <= num_rejections s0 <= max_rejections ->
             0 <= num_rejections s <= max_rejections) as Hinv.
  { clear n w w' s Hreach. intros n s0 w s w' Hreach.
    induction Hreach as [|n s s1 s2 w w1 w2 Hstep _ IH]; [done|].
    intros Hs. apply IH. apply step_invariants in Hstep as (_ & _ & H3).
    apply H3; [|done]. lia. }
  apply (Hinv _ _ _ _ _ Hreach). cbn. lia.
Qed.

End SearchMore.

(** ** The default callbacks and what a search returns *)

Lemma ndarray_setitem_inside (i : Z) (v : Q) (a : record) :
  0 <= i < Z.of_nat (length a) ->
  ndarray_setitem i v a = inr (<[Z.to_nat i := v]> a).
Proof.
  intros Hi. unfold ndarray_setitem.
  destruct (Z.leb_spec 0 i); [|lia].
  by destruct (Z.ltb_spec i (Z.of_nat (length a))); [|lia].
Qed.

Lemma ndarray_setitem_result (i : Z) (v : Q) (a a' : record) :
  ndarray_setitem i v a = inr a' ->
  exists p, a' = <[p := v]> a.
Proof.
  unfold ndarray_setitem.
  destruct ((0 <=? i) && (i <? Z.of_nat (length a)));
    [intros [= <-]; by eexists|].
  destruct ((- Z.of_nat (length a) <=? i) && (i <? 0));
    [intros [= <-]; by eexists|done].
Qed.

Section CallbackFacts.

Context {world : Type}.
Variable rng_random : world -> Q * world.
Variable rng_integers : Z -> Z -> M world Z.
Variable input_shape : nat.

Local Abbreviation default_record :=
  (_default_random_record rng_random input_shape).
Local Abbreviation default_randomize :=
  (_default_randomize_features rng_random rng_integers input_shape).
Local Abbreviation randomize :=
  (randomize_loop rng_random rng_integers input_shape).

Lemma randomize_loop_result (n : nat) :
  forall r w r' w',
    randomize n r w = (inr r', w') ->
    length r' = length r /\
    exists positions,
      (length positions <= n)%nat /\
      forall i, i ∉ positions -> r' !! i = r !! i.
Proof.
  induction n as [|n IH]; intros r w r' w' Hrun.
  - cbn in Hrun. injection Hrun as <- <-. split; [done|]. by exists [].
  - cbn [randomize_loop] in Hrun. unfold bind at 1 in Hrun.
    unfold draw at 1 in Hrun. destruct (rng_random w) as [v w1].
    unfold bind at 1 in Hrun.
    destruct (rng_integers 0 (Z.of_nat input_shape) w1) as [[e|i] w2];
      [done|].
    unfold bind at 1, lift_result in Hrun.
    destruct (ndarray_setitem i v r) as [e|r1] eqn:Hset; [done|].
    apply ndarray_setitem_result in Hset as [p ->].
    apply IH in Hrun as (Hlen & positions & Hcount & Hout).
    unfold record in *. rewrite length_insert in Hlen. split; [done|].
    exists (p :: positions). split; [cbn [length]; lia|].
    intros j Hj. apply not_elem_of_cons in Hj as [Hjp Hj].
    rewrite (Hout j Hj). by apply list_lookup_insert_ne.
Qed.

(** X12. The default randomizer returns a record of the same length that
    differs from the one it was given in at most [num_features] positions;
    for [num_features <= 0] it returns the record as it is and draws
    nothing; given no record it raises [AttributeError] and draws
    nothing. *)
Theorem default_randomize_changes_few (r : record) (num_features : Z)
    (w : world) :
  (forall r' w',
      default_randomize (Some r) num_features w = (inr r', w') ->
      length r' = length r /\
      exists positions,
        Z.of_nat (length positions) <= Z.max 0 num_features /\
        forall i, i ∉ positions -> r' !! i = r !! i) /\
  (num_features <= 0 ->
   default_randomize (Some r) num_features w = (inr r, w)) /\
  default_randomize None num_features w = (inl AttributeError, w).
Proof.
  split; [|split; [|done]].
  - intros r' w' Hrun. cbn [_default_randomize_features] in Hrun.
    apply randomize_loop_result in Hrun as (Hlen & positions & Hcount & Hout).
    split; [done|]. exists positions. split; [lia|done].
  - intros Hk. cbn [_default_randomize_features].
    by replace (Z.to_nat num_features) with 0%nat by lia.
Qed.

(** X13. On a record of [input_shape] features with values in [0, 1), with
    a generator whose draws are in [0, 1) and whose integers are in the
    range asked for, the default randomizer returns, and the record it
    returns has its values in [0, 1) again. *)
Theorem default_randomize_returns (r : record) (num_features : Z) (w : world) :
  (forall w, (0 <= (rng_random w).1)%Q /\ ((rng_random w).1 < 1)%Q) ->
  (forall w, exists i w',
      rng_integers 0 (Z.of_nat input_shape) w = (inr i, w') /\
      0 <= i < Z.of_nat input_shape) ->
  length r = input_shape ->
  Forall (fun v => (0 <= v)%Q /\ (v < 1)%Q) r ->
  exists r' w',
    default_randomize (Some r) num_features w = (inr r', w') /\
    length r' = input_shape /\
    Forall (fun v => (0 <= v)%Q /\ (v < 1)%Q) r'.
Proof.
  intros Hdraw Hint. cbn [_default_randomize_features].
  generalize (Z.to_nat num_features) as n. intros n. revert r w.
  induction n as [|n IH]; intros r w Hlen Hall.
  - by exists r, w.
  - cbn [randomize_loop]. unfold bind at 1. unfold draw at 1.
    pose proof (Hdraw w) as Hv. destruct (rng_random w) as [v w1].
    unfold bind at 1.
    destruct (Hint w1) as (i & w2 & -> & Hi).
    unfold bind at 1, lift_result.
    rewrite ndarray_setitem_inside by lia.
    unfold record in *.
    apply IH; [by rewrite length_insert|].
    apply Forall_insert; done.
Qed.

End CallbackFacts.

(** ** What is synthesized *)

Lemma getitem_lookup {A : Type} (l : list A) (i : nat) (a : A) :
  getitem l i = inr a <-> l !! i = Some a.
Proof.
  unfold getitem. destruct (l !! i); split; intros H; by inversion H.
Qed.

Lemma one_hot_lookup (nb : Z) (c j : nat) :
  (c < Z.to_nat nb)%nat -> (j < Z.to_nat nb)%nat ->
  one_hot nb c !! j = Some (if decide (j = c) then 1%Q else 0%Q).
Proof.
  intros Hc Hj. unfold one_hot. destruct (decide (j = c)) as [->|Hne].
  - apply list_lookup_insert_eq. by rewrite length_replicate.
  - rewrite list_lookup_insert_ne by done. by apply lookup_replicate_2.
Qed.

Section SynthesisMore.

Context {world : Type}.
Variable rng_random : world -> Q * world.
Variable rng_integers : Z -> Z -> M world Z.
Variable input_shape : nat.

Local Abbreviation search :=
  (_hill_climbing_synthesis rng_random rng_integers input_shape).

(** What a search returns is a record of the wanted class. *)
Lemma search_result (target_classifier : classifier)
    (wanted_class : nat) (min_confidence : Q)
    (max_features_randomized max_iterations max_rejections
       min_features_randomized : Z)
    (random_record_fn : option (M world record))
    (randomize_features_fn : option (option record -> Z -> M world record))
    (w0 w' : world) (r : record) :
  search target_classifier wanted_class min_confidence
    max_features_randomized max_iterations max_rejections
    min_features_randomized random_record_fn randomize_features_fn w0
  = (inr r, w') ->
  exists c,
    getitem (predict_record target_classifier r) wanted_class = inr c /\
    (min_confidence < c)%Q /\ (0 <= c)%Q /\
    np_argmax (predict_record target_classifier r) = wanted_class.
Proof.
  rewrite hill_climbing_synthesis_unfold.
  destruct (default _ random_record_fn w0) as [[e|x0] w1]; [done|].
  intros Hrun.
  apply loop_return_inv in Hrun
    as (m & s1 & w2 & c & _ & Hreach & -> & _ & Hc & Hbest & Hmin & Harg & _).
  exists c. do 2 (split; [done|]). split; [|done].
  apply reaches_best in Hreach as [Hle _].
  eapply Qle_trans; [|exact Hbest]. exact Hle.
Qed.

(** X14. A record the search returns is one the classifier gives the
    wanted class: its confidence for that class is above min_confidence,
    is not negative, and no other class scores higher. *)
Theorem search_returns_a_record_of_the_class (target_classifier : classifier)
    (wanted_class : nat) (min_confidence : Q)
    (max_features_randomized max_iterations max_rejections
       min_features_randomized : Z)
    (random_record_fn : option (M world record))
    (randomize_features_fn : option (option record -> Z -> M world record))
    (w0 w' : world) (r : record) :
  search target_classifier wanted_class min_confidence
    max_features_randomized max_iterations max_rejections
    min_features_randomized random_record_fn randomize_features_fn w0
  = (inr r, w') ->
  exists c,
    predict_record target_classifier r !! wanted_class = Some c /\
    (min_confidence < c)%Q /\ (0 <= c)%Q /\
    np_argmax (predict_record target_classifier r) = wanted_class /\
    forall j c', predict_record target_classifier r !! j = Some c' ->
                 (c' <= c)%Q.
Proof.
  intros Hrun. apply search_result in Hrun as (c & Hc & Hmin & Hpos & Harg).
  apply getitem_lookup in Hc. exists c. do 4 (split; [done|]).
  apply np_argmax_largest. by rewrite Harg.
Qed.

Section RetriesMore.

Variable target_classifier : classifier.
Variable max_features_randomized : Z.
Variable min_confidence : Q.
Variable max_retries : Z.
Variable random_record_fn : option (M world record).
Variable randomize_features_fn :
  option (option record -> Z -> M world record).

Local Abbreviation attempt :=
  (synthesize rng_random rng_integers input_shape target_classifier
     max_features_randomized min_confidence random_record_fn
     randomize_features_fn).
Local Abbreviation retry :=
  (retry_loop rng_random rng_integers input_shape target_classifier
     max_features_randomized min_confidence max_retries random_record_fn
     randomize_features_fn).
Local Abbreviation records :=
  (records_loop rng_random rng_integers input_shape target_classifier
     max_features_randomized min_confidence max_retries random_record_fn
     randomize_features_fn).
Local Abbreviation classes :=
  (classes_loop rng_random rng_integers input_shape target_classifier
     max_features_randomized min_confidence max_retries random_record_fn
     randomize_features_fn).
Local Abbreviation failed :=
  (failed_attempts rng_random rng_integers input_shape target_classifier
     max_features_randomized min_confidence random_record_fn
     randomize_features_fn).
Local Abbreviation made_for :=
  (synthesized_for rng_random rng_integers input_shape target_classifier
     max_features_randomized min_confidence random_record_fn
     randomize_features_fn).
Local Abbreviation dataset :=
  (synthesize_dataset rng_random rng_integers input_shape target_classifier
     max_features_randomized min_confidence max_retries random_record_fn
     randomize_features_fn).

(** X15. Only [RuntimeError] is retried: an exception of another kind
    raised by a try, after any number of failed tries within the budget,
    ends the synthesis of the record at once with that exception. *)
Theorem other_errors_are_not_retried (wanted_class : nat) (label : list Q)
    (remaining : nat) (x : list record) (y : list (list Q))
    (random_record : option record) (n : nat) (w w1 w2 : world) (e : exn) :
  failed wanted_class n w w1 ->
  Z.of_nat n < max_retries ->
  attempt wanted_class w1 = (inl e, w2) ->
  e <> RuntimeError ->
  records wanted_class label (S remaining) x y random_record w = (inl e, w2).
Proof.
  intros Hfailed Hn Hattempt He. rewrite records_cons.
  replace (seqZ 0 max_retries) with (seqZ 0 (max_retries - 0))
    by (f_equal; lia).
  rewrite (retry_after_failures rng_random rng_integers input_shape
             target_classifier max_features_randomized min_confidence
             max_retries random_record_fn randomize_features_fn wanted_class
             n random_record w w1 Hfailed) by lia.
  rewrite seqZ_cons by lia. rewrite retry_cons, Hattempt.
  by destruct e.
Qed.

Lemma records_none (wanted_class : nat) (label : list Q)
    (x : list record) (y : list (list Q)) (random_record : option record)
    (w : world) :
  records wanted_class label 0 x y random_record w
  = (inr (x, y, random_record), w).
Proof. reflexivity. Qed.

Lemma classes_none (records_per_class : Z) (class_list : list nat) :
  records_per_class <= 0 ->
  forall x y random_record w,
    classes records_per_class class_list x y random_record w
    = (inr (x, y), w).
Proof.
  intros Hper. induction class_list as [|c class_list IH];
    intros x y rr w; [done|].
  cbn [classes_loop]. unfold bind at 1.
  replace (Z.to_nat records_per_class) with 0%nat by lia.
  rewrite records_none. apply IH.
Qed.

(** X16. A dataset size below the number of classes (at least one class)
    gives zero records per class: the synthesis returns no record and no
    label, makes no search and draws nothing. *)
Theorem too_small_dataset_is_empty (dataset_size : Z) (w : world) :
  1 <= nb_classes target_classifier ->
  dataset_size < nb_classes target_classifier ->
  dataset dataset_size w = (inr ([], []), w).
Proof.
  intros Hnb Hsize. unfold synthesize_dataset.
  destruct (Z.eqb_spec (nb_classes target_classifier) 0) as [|_]; [lia|].
  apply classes_none.
  assert (dataset_size / nb_classes target_classifier < 1); [|lia].
  apply Z.div_lt_upper_bound; lia.
Qed.

(** X17. With max_retries <= 0 the loop over the tries does nothing, and
    the first record to append is a variable never assigned: the
    synthesis raises [UnboundLocalError] without having searched. *)
Theorem no_tries_unbound_record (dataset_size : Z) (w : world) :
  max_retries <= 0 ->
  1 <= nb_classes target_classifier ->
  nb_classes target_classifier <= dataset_size ->
  dataset dataset_size w = (inl UnboundLocalError, w).
Proof.
  intros Hretries Hnb Hsize. unfold synthesize_dataset.
  destruct (Z.eqb_spec (nb_classes target_classifier) 0) as [|_]; [lia|].
  assert (1 <= dataset_size / nb_classes target_classifier) as Hper
    by (apply Z.div_le_lower_bound; lia).
  destruct (Z.to_nat (nb_classes target_classifier)) as [|nb] eqn:Hn; [lia|].
  destruct (Z.to_nat (dataset_size / nb_classes target_classifier))
    as [|per] eqn:Hp; [lia|].
  cbn [seq classes_loop]. unfold bind at 1. rewrite Hp, records_cons.
  by rewrite seqZ_nil by done.
Qed.

Lemma per_class_labelled (per : nat) (class_list : list nat)
    (per_class : list (list record)) :
  (forall c, c ∈ class_list -> (c < Z.to_nat (nb_classes target_classifier))%nat) ->
  Forall2 (fun c made => length made = per /\ Forall (made_for c) made)
    class_list per_class ->
  Forall2 (labelled_with_its_class target_classifier min_confidence)
    (mjoin per_class)
    (mjoin ((fun c => replicate per (one_hot (nb_classes target_classifier) c))
              <$> class_list)).
Proof.
  intros Hin Hper.
  induction Hper as [|c made class_list per_class [Hlen Hmade] _ IH];
    [constructor|].
  rewrite fmap_cons, !join_cons. apply Forall2_app.
  - apply Forall2_replicate_r; [done|].
    eapply Forall_impl; [exact Hmade|].
    intros r (w & w' & Hrun). unfold flip.
    apply search_result in Hrun as (score & Hscore & Hmin & _ & Harg).
    exists c, score. split; [apply Hin; by left|done].
  - apply IH. intros c' Hc'. apply Hin. by right.
Qed.

Lemma dataset_labelled (dataset_size : Z) (w w' : world)
    (xs : list record) (ys : list (list Q)) :
  dataset dataset_size w = (inr (xs, ys), w') ->
  Forall2 (labelled_with_its_class target_classifier min_confidence) xs ys.
Proof.
  intros Hrun.
  apply dataset_result in Hrun as (_ & per_class & -> & -> & Hper).
  apply per_class_labelled; [|done].
  intros c Hc. apply elem_of_seq in Hc. lia.
Qed.

(** X18. When the synthesis of the dataset goes through, every record in
    it sits next to the one-hot label of a class of the classifier, and
    the classifier gives the record that class with a confidence above
    min_confidence; the label has nb_classes entries, 1 at the class and 0
    elsewhere. *)
Theorem synthetic_records_are_of_their_class (dataset_size : Z)
    (w w' : world) (xs : list record) (ys : list (list Q)) :
  dataset dataset_size w = (inr (xs, ys), w') ->
  Forall2 (labelled_with_its_class target_classifier min_confidence) xs ys /\
  Forall (fun label =>
            length label = Z.to_nat (nb_classes target_classifier) /\
            exists c, label !! c = Some 1%Q /\
                      forall j v, label !! j = Some v -> j <> c -> v = 0%Q) ys.
Proof.
  intros Hrun. apply dataset_labelled in Hrun as Hlabelled.
  split; [exact Hlabelled|].
  eapply Forall2_Forall_r; [exact Hlabelled|].
  apply Forall_forall. intros r _ label (c & score & Hc & -> & _).
  split.
  - unfold one_hot. by rewrite length_insert, length_replicate.
  - exists c. split.
    + rewrite one_hot_lookup by done. by rewrite decide_True.
    + intros j v Hj Hne.
      assert (j < Z.to_nat (nb_classes target_classifier))%nat as Hlt.
      { apply lookup_lt_Some in Hj. unfold one_hot in Hj.
        by rewrite length_insert, length_replicate in Hj. }
      rewrite one_hot_lookup in Hj by done.
      rewrite decide_False in Hj by done. by injection Hj as <-.
Qed.

End RetriesMore.
End SynthesisMore.

(** ** The synthetic call, end to end *)

Section SyntheticMore.

Context {P model world : Type}.
Variable fit : model -> list record -> list (list Q) -> model.
Variable predict : model -> list record -> list P.
Variable x_astype_float32 : record -> record.
Variable y_astype_float32 : list Q -> list Q.
Variable np_random_permutation : nat -> world -> list nat * world.
Variable rng_random : world -> Q * world.
Variable rng_integers : Z -> Z -> M world Z.

Variable target_classifier : classifier.
Variable dataset_size max_features_randomized : Z.
Variable member_ratio min_confidence : Q.
Variable max_retries : Z.
Variable random_record_fn : option (M world record).
Variable randomize_features_fn :
  option (option record -> Z -> M world record).

Local Abbreviation pool := (@ShadowModels record (list Q) model).
Local Abbreviation generate :=
  (generate_shadow_dataset fit predict x_astype_float32 y_astype_float32
     np_random_permutation).
Local Abbreviation dataset shape :=
  (synthesize_dataset rng_random rng_integers shape target_classifier
     max_features_randomized min_confidence max_retries random_record_fn
     randomize_features_fn dataset_size).
Local Abbreviation synthetic_call :=
  (generate_synthetic_shadow_dataset fit predict x_astype_float32
     y_astype_float32 np_random_permutation rng_random rng_integers
     target_classifier dataset_size max_features_randomized member_ratio
     min_confidence max_retries random_record_fn randomize_features_fn).
Local Abbreviation unfold_call :=
  (generate_synthetic_unfold fit predict x_astype_float32 y_astype_float32
     np_random_permutation rng_random rng_integers target_classifier
     dataset_size max_features_randomized member_ratio min_confidence
     max_retries random_record_fn randomize_features_fn).

(** X19. An exception raised while the records are synthesized is the
    outcome of [generate_synthetic_shadow_dataset], and the pool is as it
    was: no model has been fitted and no slot written. A classifier with
    no class makes it [ZeroDivisionError], before any draw. *)
Theorem failed_synthesis_leaves_pool_untouched (self : pool) (w : world) :
  (forall e w',
      dataset (_input_shape self) w = (inl e, w') ->
      synthetic_call (self, w) = (inl e, (self, w'))) /\
  (nb_classes target_classifier = 0 ->
   synthetic_call (self, w) = (inl ZeroDivisionError, (self, w))).
Proof.
  split.
  - intros e w' Hrun. by rewrite unfold_call, Hrun.
  - intros Hnb. rewrite unfold_call. unfold synthesize_dataset.
    by rewrite Hnb.
Qed.

Hypothesis np_random_permutation_spec :
  forall n w, Permutation (np_random_permutation n w).1 (seq 0 n).

(** X20. When [generate_synthetic_shadow_dataset] returns, the synthesis
    has returned records xs and labels ys, and every sample returned,
    member or nonmember, is the float32 image of one of the records of
    xs and sits next to the float32 image of the label at the same index
    of ys: the one-hot label of a class that the target classifier gives
    that record, with a confidence above min_confidence. *)
Theorem synthetic_shadow_dataset_is_of_target_classes (self : pool)
    (w : world) (members nonmembers : @triple record (list Q) P)
    (st' : pool * world) :
  well_formed self ->
  (1 <= length (_shadow_models self))%nat ->
  synthetic_call (self, w) = (inr (members, nonmembers), st') ->
  exists xs ys w1,
    dataset (_input_shape self) w = (inr (xs, ys), w1) /\
    Forall2 (synthesized_pair x_astype_float32 y_astype_float32
               target_classifier min_confidence xs ys)
      (samples members) (true_label members) /\
    Forall2 (synthesized_pair x_astype_float32 y_astype_float32
               target_classifier min_confidence xs ys)
      (samples nonmembers) (true_label nonmembers).
Proof.
  intros Hwf Hn. rewrite unfold_call.
  destruct (dataset (_input_shape self) w) as [[e|[xs ys]] w1] eqn:Hdata;
    [done|].
  cbn [fst snd]. intros Hrun.
  pose proof (dataset_labelled _ _ _ _ _ _ _ _ _ _ _ _ _ _ Hdata) as Hlabelled.
  pose proof (Forall2_length _ _ _ Hlabelled) as Hlen.
  destruct (generate_shadow_dataset_result fit predict x_astype_float32
              y_astype_float32 np_random_permutation
              np_random_permutation_spec self w1 xs ys member_ratio
              Hwf Hn Hlen)
    as (xs' & ys' & Hxs & Hys & _ & _ & Hrun').
  cbv zeta in Hrun'. rewrite Hrun' in Hrun. injection Hrun as <- <- _.
  exists xs, ys, w1. split; [done|].
  assert (Forall2 (synthesized_pair x_astype_float32 y_astype_float32
                     target_classifier min_confidence xs ys) xs' ys')
    as Hpairs.
  { eapply Forall2_impl; [exact (pairs_of_rows _ _ _ _ _ _ _ Hxs Hys)|].
    intros a b (j & a0 & b0 & Ha0 & Hb0 & -> & ->).
    exists j, a0, b0. do 4 (split; [done|]).
    by eapply Forall2_lookup_lr. }
  unfold samples, true_label. cbn [fst snd].
  split; apply join_Forall2; intros i; by apply parts_Forall2.
Qed.

End SyntheticMore.

(** ** The further statements on the concrete scenarios *)

Section MoreInstances.

Import Scenario.
Local Open Scope Q_scope.

Lemma predict_rows (m : nat) (xs : list nat) :
  length (predict m xs) = length xs.
Proof. unfold predict. by rewrite length_fmap. Qed.

Lemma new_pool_well_formed : well_formed (new_pool 2).
Proof. reflexivity. Qed.

Lemma no_models_division_error_witness :
  generate_shadow_dataset fit predict id id reversal
    [7; 8]%nat [1; 0]%nat (1 # 2) (new_pool 0, tt)
  = (inl ZeroDivisionError, (new_pool 0, tt)).
Proof.
  apply (no_models_division_error fit predict id id reversal reversal_spec
           (new_pool 0) tt [7; 8]%nat [1; 0]%nat (1 # 2)); reflexivity.
Defined.

Lemma triples_are_parallel_witness :
  exists members nonmembers st',
    generate_shadow_dataset fit predict id id reversal
      (seq 0 10) (seq 100 10) (1 # 2) (new_pool 2, tt)
    = (inr (members, nonmembers), st') /\
    length (true_label members) = length (samples members) /\
    length (prediction members) = length (samples members) /\
    length (true_label nonmembers) = length (samples nonmembers) /\
    length (prediction nonmembers) = length (samples nonmembers).
Proof.
  apply (triples_are_parallel fit predict id id reversal reversal_spec
           (new_pool 2) tt (seq 0 10) (seq 100 10) (1 # 2)).
  - exact predict_rows.
  - exact new_pool_well_formed.
  - vm_compute. lia.
  - reflexivity.
Defined.

Lemma members_are_the_training_sets_witness :
  exists members nonmembers self' w' held_out,
    generate_shadow_dataset fit predict id id reversal
      (seq 0 10) (seq 100 10) (1 # 2) (new_pool 2, tt)
    = (inr (members, nonmembers), (self', w')) /\
    Forall is_Some (get_shadow_models_train_sets self') /\
    samples members = mjoin (slot_samples <$> get_shadow_models_train_sets self') /\
    true_label members
      = mjoin (slot_labels <$> get_shadow_models_train_sets self') /\
    prediction members
      = mjoin (zip_with (fun m slot => predict m (slot_samples slot))
                 (get_shadow_models self')
                 (get_shadow_models_train_sets self')) /\
    length held_out = 2%nat /\
    samples nonmembers = mjoin held_out /\
    prediction nonmembers
      = mjoin (zip_with predict (get_shadow_models self') held_out).
Proof.
  apply (members_are_the_training_sets fit predict id id reversal reversal_spec
           (new_pool 2) tt (seq 0 10) (seq 100 10) (1 # 2)).
  - exact new_pool_well_formed.
  - vm_compute. lia.
  - reflexivity.
Defined.

Lemma members_and_nonmembers_partition_witness :
  exists members nonmembers st' xs ys,
    generate_shadow_dataset fit predict id id reversal
      (seq 0 10) (seq 100 10) (1 # 2) (new_pool 2, tt)
    = (inr (members, nonmembers), st') /\
    rows_at id (seq 0 10) (reversal 10 tt).1 xs /\
    rows_at id (seq 100 10) (reversal 10 tt).1 ys /\
    Permutation xs (id <$> seq 0 10) /\
    Permutation ys (id <$> seq 100 10) /\
    Permutation (samples members ++ samples nonmembers) (take (2 * (10 / 2)) xs) /\
    Permutation (true_label members ++ true_label nonmembers)
      (take (2 * (10 / 2)) ys) /\
    ((10 mod 2 = 0)%nat ->
     Permutation (samples members ++ samples nonmembers) (id <$> seq 0 10) /\
     Permutation (true_label members ++ true_label nonmembers)
       (id <$> seq 100 10)).
Proof.
  apply (members_and_nonmembers_partition fit predict id id reversal
           reversal_spec (new_pool 2) tt (seq 0 10) (seq 100 10) (1 # 2)).
  - exact new_pool_well_formed.
  - vm_compute. lia.
  - reflexivity.
Defined.

Lemma labels_stay_with_samples_witness :
  exists members nonmembers st',
    generate_shadow_dataset fit predict id id reversal
      (seq 0 10) (seq 100 10) (1 # 2) (new_pool 2, tt)
    = (inr (members, nonmembers), st') /\
    Forall2 (original_pair id id (seq 0 10) (seq 100 10))
      (samples members) (true_label members) /\
    Forall2 (original_pair id id (seq 0 10) (seq 100 10))
      (samples nonmembers) (true_label nonmembers).
Proof.
  apply (labels_stay_with_samples fit predict id id reversal reversal_spec
           (new_pool 2) tt (seq 0 10) (seq 100 10) (1 # 2)).
  - exact new_pool_well_formed.
  - vm_compute. lia.
  - reflexivity.
Defined.

Lemma member_and_nonmember_counts_witness :
  cut_of (1 # 2) 5 = 2%Z /\
  exists members nonmembers st',
    generate_shadow_dataset fit predict id id reversal
      (seq 0 10) (seq 100 10) (1 # 2) (new_pool 2, tt)
    = (inr (members, nonmembers), st') /\
    length (samples members) = (2 * 2)%nat /\
    length (samples nonmembers) = (2 * (5 - 2))%nat.
Proof.
  split; [by vm_compute|].
  destruct (member_and_nonmember_counts fit predict id id reversal
              reversal_spec (new_pool 2) tt (seq 0 10) (seq 100 10) (1 # 2)
              new_pool_well_formed ltac:(vm_compute; lia) eq_refl)
    as (members & nonmembers & st' & Hrun & Hm & Hn & _).
  exists members, nonmembers, st'. split; [exact Hrun|]. by split.
Defined.

Lemma second_call_overwrites_witness :
  exists out1 self1 w1 out2 self2 w2,
    generate_shadow_dataset fit predict id id reversal
      (seq 0 10) (seq 100 10) (1 # 2) (new_pool 2, tt)
    = (inr out1, (self1, w1)) /\
    generate_shadow_dataset fit predict id id reversal
      (seq 20 4) (seq 30 4) 1 (self1, w1)
    = (inr out2, (self2, w2)) /\
    length (get_shadow_models_train_sets self2) = 2%nat /\
    length (get_shadow_models self2) = 2%nat.
Proof.
  destruct (second_call_overwrites fit predict id id reversal reversal_spec
              (new_pool 2) tt (seq 0 10) (seq 20 4) (seq 100 10) (seq 30 4)
              (1 # 2) 1 new_pool_well_formed ltac:(vm_compute; lia)
              eq_refl eq_refl)
    as (out1 & self1 & w1 & out2 & self2 & w2 & xs1 & ys1 & xs2 & ys2
        & Hrun1 & Hrun2 & _ & _ & _ & _ & Hslots & Hmodels).
  exists out1, self1, w1, out2, self2, w2.
  split; [exact Hrun1|]. split; [exact Hrun2|].
  rewrite Hslots, Hmodels. by rewrite !length_fmap.
Defined.


Lemma best_confidence_invariant_witness :
  (0 <= best_class_confidence third_pass) /\
  getitem (predict_record features_as_scores first_candidate) 0
    = inr (best_class_confidence third_pass).
Proof.
  destruct (best_confidence_invariant rng_random features_as_scores 0 (4 # 10)
              3 1 (_default_randomize_features rng_random rng_integers 2))
    as [_ Hinitial].
  destruct (Hinitial 1%Z first_candidate 2%nat [95 # 100; 8 # 10; 0; 0; 0]
              third_pass [0; 0] two_passes) as [Hpos Hbest].
  split; [exact Hpos|]. by apply Hbest.
Defined.

Lemma rejection_count_bounded_witness :
  (0 <= num_rejections third_pass <= 3)%Z.
Proof.
  apply (rejection_count_bounded rng_random features_as_scores 0 (4 # 10) 3 1
           (_default_randomize_features rng_random rng_integers 2) 1
           first_candidate 2 [95 # 100; 8 # 10; 0; 0; 0] [0; 0] third_pass);
    [lia|exact two_passes].
Defined.

Lemma steady_random_range (w : unit) :
  0 <= (steady_random w).1 /\ (steady_random w).1 < 1.
Proof. by vm_compute. Qed.

Lemma steady_integers_range (w : unit) :
  exists i w',
    steady_integers 0 (Z.of_nat 2) w = (inr i, w') /\ (0 <= i < Z.of_nat 2)%Z.
Proof. exists 0%Z, w. split; [done|lia]. Qed.

Lemma default_randomize_changes_few_witness :
  length [8 # 10; 1 # 10] = length first_candidate /\
  exists positions,
    (Z.of_nat (length positions) <= Z.max 0 1)%Z /\
    forall i, i ∉ positions ->
      [8 # 10; 1 # 10] !! i = first_candidate !! i.
Proof.
  destruct (default_randomize_changes_few rng_random rng_integers 2
              first_candidate 1 [8 # 10; 0]) as [Hchanged _].
  apply (Hchanged [8 # 10; 1 # 10] [0]). by vm_compute.
Defined.

Lemma default_randomize_returns_witness :
  exists r' w',
    _default_randomize_features steady_random steady_integers 2
      (Some [1 # 4; 3 # 4]) 5 tt = (inr r', w') /\
    length r' = 2%nat /\
    Forall (fun v => 0 <= v /\ v < 1) r'.
Proof.
  apply (default_randomize_returns steady_random steady_integers 2
           [1 # 4; 3 # 4] 5 tt steady_random_range steady_integers_range).
  - reflexivity.
  - repeat constructor; by vm_compute.
Defined.

Lemma first_candidate_returned :
  search features_as_scores 0 (4 # 10) 40 draws_for_class_0
  = (inr first_candidate, []).
Proof. by vm_compute. Qed.

Lemma search_returns_a_record_of_the_class_witness :
  exists c,
    predict_record features_as_scores first_candidate !! 0%nat = Some c /\
    (4 # 10 < c) /\ (0 <= c) /\
    np_argmax (predict_record features_as_scores first_candidate) = 0%nat /\
    forall j c', predict_record features_as_scores first_candidate !! j
                 = Some c' -> c' <= c.
Proof.
  apply (search_returns_a_record_of_the_class rng_random rng_integers 2
           features_as_scores 0 (4 # 10) 1 40 3 1 None None
           draws_for_class_0 [] first_candidate).
  exact first_candidate_returned.
Defined.

Lemma other_errors_are_not_retried_witness :
  negative_records 6 1 [1 # 2; 1 # 4; 0] = (inl AttributeError, [0]).
Proof.
  apply (other_errors_are_not_retried rng_random rng_integers 2
           features_less_one 1 (4 # 10) 6 None None 0 [1; 0] 0 [] [] None 0
           [1 # 2; 1 # 4; 0] [1 # 2; 1 # 4; 0] [0] AttributeError).
  - constructor.
  - lia.
  - by vm_compute.
  - done.
Defined.

Lemma too_small_dataset_is_empty_witness :
  dataset 6 1 four_searches = (inr ([], []), four_searches).
Proof.
  apply (too_small_dataset_is_empty rng_random rng_integers 2
           features_as_scores 1 (4 # 10) 6 None None 1 four_searches);
    by vm_compute.
Defined.

Lemma no_tries_unbound_record_witness :
  dataset 0 5 four_searches = (inl UnboundLocalError, four_searches).
Proof.
  apply (no_tries_unbound_record rng_random rng_integers 2
           features_as_scores 1 (4 # 10) 0 None None 5 four_searches);
    by vm_compute.
Defined.

Lemma synthetic_records_are_of_their_class_witness :
  Forall2 (labelled_with_its_class features_as_scores (4 # 10))
    four_records four_labels /\
  Forall (fun label =>
            length label = Z.to_nat (nb_classes features_as_scores) /\
            exists c, label !! c = Some 1 /\
                      forall j v, label !! j = Some v -> j <> c -> v = 0)
    four_labels.
Proof.
  apply (synthetic_records_are_of_their_class rng_random rng_integers 2
           features_as_scores 1 (4 # 10) 6 None None 5 four_searches []
           four_records four_labels).
  exact four_records_synthesized.
Defined.

Lemma failed_synthesis_leaves_pool_untouched_witness :
  synthetic_call features_as_scores 0 5 (new_record_pool 2, four_searches)
    = (inl UnboundLocalError, (new_record_pool 2, four_searches)) /\
  synthetic_call no_classes 6 5 (new_record_pool 2, four_searches)
    = (inl ZeroDivisionError, (new_record_pool 2, four_searches)).
Proof.
  split.
  - apply (failed_synthesis_leaves_pool_untouched fit predict_size id id
             (@reversal draws) rng_random rng_integers features_as_scores
             5 1 (1 # 2) (4 # 10) 0 None None (new_record_pool 2)
             four_searches). by vm_compute.
  - apply (failed_synthesis_leaves_pool_untouched fit predict_size id id
             (@reversal draws) rng_random rng_integers no_classes
             5 1 (1 # 2) (4 # 10) 6 None None (new_record_pool 2)
             four_searches). reflexivity.
Defined.

Lemma synthetic_shadow_dataset_is_of_target_classes_witness :
  exists members nonmembers st',
    synthetic_call features_as_scores 6 5 (new_record_pool 2, four_searches)
      = (inr (members, nonmembers), st') /\
    exists xs ys w1,
      dataset 6 5 four_searches = (inr (xs, ys), w1) /\
      Forall2 (synthesized_pair id id features_as_scores (4 # 10) xs ys)
        (samples members) (true_label members) /\
      Forall2 (synthesized_pair id id features_as_scores (4 # 10) xs ys)
        (samples nonmembers) (true_label nonmembers).
Proof.
  do 3 eexists.
  split; [by vm_compute|].
  eapply (synthetic_shadow_dataset_is_of_target_classes fit predict_size id id
           (@reversal draws) rng_random rng_integers features_as_scores
           5 1 (1 # 2) (4 # 10) 6 None None reversal_spec
           (new_record_pool 2) four_searches).
  - reflexivity.
  - vm_compute. lia.
  - by vm_compute.
Defined.

End MoreInstances.

